(** * go-clli: the CLLI classification and validation engine

    A shallow embedding of [pkg/clli/clli.go] (types, [ParseWithOptions],
    the component validators and the package-level shape probes), followed by
    the properties of the specification that concern it.

    Conventions of the embedding.

    - A Go [string] is a sequence of bytes: it is modelled as [string], whose
      characters ([ascii]) are the 256 byte values.  [len(s)] is [length s];
      [s[lo:hi]] is [slice lo hi s]; [s[lo:]] is [suffix lo s]; [s[i]] is
      [byteAt i s].  Go panics on an out-of-range slice or index; every slice
      and index of the source is guarded by a length test, and the total
      functions below are only ever reached inside those guards.
    - A loop [for _, r := range s] that tests each rune against ASCII ranges
      is modelled on bytes.  This is exact: a string of ASCII bytes decodes
      to those same bytes, and a string with a byte above 0x7F decodes, at the
      first such byte, to a rune above 0x7F (or to U+FFFD), which fails every
      ASCII range test just as the byte does, at the same byte offset.
    - [strings.ToUpper] and [strings.TrimSpace] are functions of Go's standard
      library.  On a string of ASCII bytes they are the byte-wise operations
      written out below.  On a string with a byte above 0x7F their result can
      depend on UTF-8 decoding and on the Unicode tables (case mappings, white
      space such as U+0085 and U+00A0), which are not part of this
      repository: what they return on such strings is left as the parameters
      [unicodeToUpper] and [unicodeTrimSpace] of the development, so that
      every theorem holds whatever they return there.
    - An [error] is one of the package's sentinel values or the result of a
      [fmt.Errorf], kept with its format string (verbs not interpolated).
      A function returning [error] returns [option error], [None] being nil. *)

From Stdlib Require Import List Bool Arith Lia Ascii String.
Import ListNotations.

Local Open Scope string_scope.
Local Open Scope bool_scope.

(** ** Bytes and strings *)

(** [r >= 'A' && r <= 'Z'] *)
Definition isUpperByte (r : ascii) : bool := ("A" <=? r)%char && (r <=? "Z")%char.

(** [r >= '0' && r <= '9'] *)
Definition isDigitByte (r : ascii) : bool := ("0" <=? r)%char && (r <=? "9")%char.

(** [(r >= 'A' && r <= 'Z') || (r >= '0' && r <= '9')] *)
Definition isAlnumByte (r : ascii) : bool := isUpperByte r || isDigitByte r.

(** [c >= utf8.RuneSelf] negated: the byte is below 0x80. *)
Definition isASCIIByte (c : ascii) : bool := (c <=? "127")%char.

(** The table [asciiSpace] of package [strings]: tab, line feed, vertical
    tab, form feed, carriage return and space. *)
Definition isSpaceByte (c : ascii) : bool :=
  existsb (Ascii.eqb c) ["009"; "010"; "011"; "012"; "013"; " "]%char.

(** ['a' <= c && c <= 'z'] mapped by [c -= 'a' - 'A']. *)
Definition upperByte (c : ascii) : ascii :=
  if ("a" <=? c)%char && (c <=? "z")%char
  then ascii_of_nat (nat_of_ascii c - 32)
  else c.

(** Every byte of [s] satisfies [p]. *)
Fixpoint allBytes (p : ascii -> bool) (s : string) : bool :=
  match s with
  | EmptyString => true
  | String c s' => p c && allBytes p s'
  end.

Fixpoint mapBytes (f : ascii -> ascii) (s : string) : string :=
  match s with
  | EmptyString => EmptyString
  | String c s' => String (f c) (mapBytes f s')
  end.

(** The offset of the first byte of [s] that fails [p], counted from [i]. *)
Fixpoint firstOutside (p : ascii -> bool) (i : nat) (s : string) : option nat :=
  match s with
  | EmptyString => None
  | String c s' => if p c then firstOutside p (S i) s' else Some i
  end.

(** [s[lo:hi]] *)
Definition slice (lo hi : nat) (s : string) : string := substring lo (hi - lo) s.

(** [s[lo:]] *)
Definition suffix (lo : nat) (s : string) : string := substring lo (length s - lo) s.

(** [s[i]] *)
Definition byteAt (i : nat) (s : string) : ascii :=
  match get i s with
  | Some c => c
  | None => zero
  end.

(** [strings.Repeat(pad, n)] for a one-byte [pad]. *)
Fixpoint Repeat (pad : ascii) (n : nat) : string :=
  match n with
  | O => EmptyString
  | S n' => String pad (Repeat pad n')
  end.

(** [strings.ContainsRune(set, rune(c))] for an ASCII [set]. *)
Fixpoint ContainsRune (set : string) (c : ascii) : bool :=
  match set with
  | EmptyString => false
  | String d set' => Ascii.eqb d c || ContainsRune set' c
  end.

(** Leading bytes satisfying [p] removed. *)
Fixpoint trimLeftBytes (p : ascii -> bool) (s : string) : string :=
  match s with
  | EmptyString => EmptyString
  | String c s' => if p c then trimLeftBytes p s' else s
  end.

(** Trailing bytes satisfying [p] removed. *)
Fixpoint trimRightBytes (p : ascii -> bool) (s : string) : string :=
  match s with
  | EmptyString => EmptyString
  | String c s' =>
      match trimRightBytes p s' with
      | EmptyString => if p c then EmptyString else String c EmptyString
      | t => String c t
      end
  end.

(** [strings.TrimRight(s, " ")] *)
Definition TrimRightSpaces (s : string) : string :=
  trimRightBytes (Ascii.eqb " ") s.

(** Membership in a Go [map[string]bool] or [map[string]struct{}] literal,
    given by its keys. *)
Definition inSet (s : string) (keys : list string) : bool :=
  existsb (String.eqb s) keys.

(** ** Types of the package *)

(** [type CLLIType int] with its four constants. *)
Inductive CLLIType : Set :=
| CLLITypeUnknown
| CLLITypeEntity
| CLLITypeNonBuilding
| CLLITypeCustomer.

(** [type CLLI struct] *)
Record CLLI : Set := mkCLLI {
  Original : string;
  Place : string;
  Region : string;
  NetworkSite : string;
  EntityCode : string;
  LocationCode : string;
  LocationID : string;
  CustomerCode : string;
  CustomerID : string;
  cliType : CLLIType;
  valid : bool
}.

(** [type ParseOptions struct] *)
Record ParseOptions : Set := mkParseOptions {
  Strict : bool;
  StrictValidation : bool;
  NormalizeCase : bool;
  TrimWhitespace : bool
}.

(** The sentinel errors of the package, and [fmt.Errorf] values. *)
Inductive error : Set :=
| ErrInvalidCLLI
| ErrInvalidPlace
| ErrInvalidRegion
| ErrInvalidSite
| ErrInvalidEntity
| ErrInvalidLocation
| ErrEmptyInput
| Errorf (format : string).

(** [type ParseError struct] *)
Record ParseError : Set := mkParseError {
  Input : string;
  Position : nat;
  Field : string;
  Err : error
}.

(** The pair of a [CLLI] pointer and an [error] returned by the parsers:
    either a record and a nil error, or nil and the [ParseError], which the
    source wraps with [fmt.Errorf] under the input as prefix. *)
Inductive parseResult : Set :=
| Parsed (c : CLLI)
| Failed (e : ParseError).

(** ** Helper functions for parsing *)

(** [func isDigitsOnly(s string) bool] *)
Definition isDigitsOnly (s : string) : bool :=
  allBytes isDigitByte s && (0 <? length s)%nat.

(** [func isAlpha(s string) bool] *)
Definition isAlpha (s : string) : bool :=
  allBytes isUpperByte s && (0 <? length s)%nat.

(** [func isDigits(s string) bool] *)
Definition isDigits (s : string) : bool :=
  allBytes isDigitByte s && (0 <? length s)%nat.

(** [func isDigit(s string) bool] *)
Definition isDigit (s : string) : bool :=
  (length s =? 1)%nat && ("0" <=? byteAt 0 s)%char && (byteAt 0 s <=? "9")%char.

(** [func isValidEntityCode(s string) bool] *)
Definition isValidEntityCode (s : string) : bool :=
  if (length s <? 2)%nat || (3 <? length s)%nat then false
  else allBytes isAlnumByte s.

(** ** Internal validation functions *)

(** [func validatePlace(place string) error] *)
Definition validatePlace (place : string) : option error :=
  if place =? "" then Some (Errorf "place code cannot be empty")
  else
    let trimmed := TrimRightSpaces place in
    if negb (length trimmed =? 4)%nat
    then Some (Errorf "place code must be exactly 4 characters")
    else if negb (allBytes isUpperByte trimmed)
    then Some (Errorf "place code contains invalid character: %c")
    else None.

(** The keys of the map literal [validRegions]. *)
Definition validRegions : list string :=
  [ "AL"; "AK"; "AZ"; "AR"; "CA"; "CO"; "CT";
    "DE"; "FL"; "GA"; "HI"; "ID"; "IL"; "IN";
    "IA"; "KS"; "KY"; "LA"; "ME"; "MD"; "MA";
    "MI"; "MN"; "MS"; "MO"; "MT"; "NE"; "NV";
    "NH"; "NJ"; "NM"; "NY"; "NC"; "ND"; "OH";
    "OK"; "OR"; "PA"; "RI"; "SC"; "SD"; "TN";
    "TX"; "UT"; "VT"; "VA"; "WA"; "WV"; "WI";
    "WY"; "DC";
    "AB"; "BC"; "MB"; "NB"; "NL"; "NT"; "NS";
    "NU"; "ON"; "PE"; "QC"; "SK"; "YT" ].

(** [func validateRegion(region string) error] *)
Definition validateRegion (region : string) : option error :=
  if region =? "" then Some (Errorf "region code cannot be empty")
  else if negb (length region =? 2)%nat
  then Some (Errorf "region code must be exactly 2 characters")
  else if negb (allBytes isUpperByte region)
  then Some (Errorf "region code contains invalid character: %c")
  else if negb (inSet region validRegions)
  then Some (Errorf "invalid region code: %s")
  else None.

(** [func validateNetworkSite(site string) error] *)
Definition validateNetworkSite (site : string) : option error :=
  if site =? "" then Some (Errorf "network site code cannot be empty")
  else if negb (length site =? 2)%nat
  then Some (Errorf "network site code must be exactly 2 characters")
  else
    let isAllDigits := isDigitsOnly site in
    let isAllAlpha := isAlpha site in
    if negb isAllDigits && negb isAllAlpha
    then Some (Errorf "network site code must be either all digits or all letters")
    else if negb (allBytes isAlnumByte site)
    then Some (Errorf "network site code contains invalid character: %c")
    else None.

(** [func validateNetworkSiteDigitsOnly(site string) error] *)
Definition validateNetworkSiteDigitsOnly (site : string) : option error :=
  if site =? "" then Some (Errorf "network site code cannot be empty")
  else if negb (length site =? 2)%nat
  then Some (Errorf "network site code must be exactly 2 characters")
  else if negb (allBytes isDigitByte site)
  then Some (Errorf "network site code contains invalid character: %c")
  else None.

(** [func validateNetworkSiteAlphanumeric(site string) error] *)
Definition validateNetworkSiteAlphanumeric (site : string) : option error :=
  if site =? "" then Some (Errorf "network site code cannot be empty")
  else if negb (length site =? 2)%nat
  then Some (Errorf "network site code must be exactly 2 characters")
  else if negb (allBytes isAlnumByte site)
  then Some (Errorf "network site code contains invalid character: %c")
  else None.

(** The keys of the map literal [tbPrefixes]. *)
Definition tbPrefixes : list string :=
  [ "MG"; "SG"; "CG"; "DS"; "RL"; "PS"; "RP"; "CM";
    "VS"; "OS"; "OL"; "RT"; "SW"; "MS"; "XC" ].

(** The cases of the final [switch c] (Table E examples). *)
Definition tableEList : list string :=
  [ "F23"; "A12"; "E45"; "K67"; "M89"; "P01"; "S34"; "T56"; "W78";
    "FAA"; "AAA"; "EZZ"; "KA1"; "M2Z" ].

(** [func validateEntityCode(code string) error] *)
Definition validateEntityCode (code : string) : option error :=
  if code =? "" then Some (Errorf "entity code cannot be empty")
  else if negb (length code =? 3)%nat
  then Some (Errorf "entity code must be exactly 3 characters")
  else
    let c := code in
    let c0 := byteAt 0 c in
    let c1 := byteAt 1 c in
    let c2 := byteAt 2 c in
    if negb (isValidEntityCode c) || negb (length c =? 3)%nat
    then Some (Errorf "invalid entity code pattern: %s")
    (* Table B: two-letter equipment prefixes + any alnum *)
    else if inSet (slice 0 2 c) tbPrefixes then None
    (* Table B numeric variants: [0-9]{2}[12AZ] *)
    else if isDigitByte c0 && isDigitByte c1 && ContainsRune "12AZ" c2 then None
    (* Table B T-suffix: [CB0-9][0-9]T *)
    else if ((c0 =? "C")%char || (c0 =? "B")%char || isDigitByte c0)
            && isDigitByte c1 && (c2 =? "T")%char then None
    (* Table B GT: [0-9]GT *)
    else if isDigitByte c0 && (c1 =? "G")%char && (c2 =? "T")%char then None
    (* Table B: Z[A-Z]Z *)
    else if (c0 =? "Z")%char && isUpperByte c1 && (c2 =? "Z")%char then None
    (* Table B: RS[0-9] *)
    else if (c0 =? "R")%char && (c1 =? "S")%char && isDigitByte c2 then None
    (* Table B: X[A-Z]X *)
    else if (c0 =? "X")%char && isUpperByte c1 && (c2 =? "X")%char then None
    (* Table B: CT[12AZ] *)
    else if (c0 =? "C")%char && (c1 =? "T")%char && ContainsRune "12AZ" c2 then None
    (* Table C: [0-9][CDBINQWMVROLPEUTZ0-9]B *)
    else if isDigitByte c0
            && (ContainsRune "CDBINQWMVROLPEUTZ" c1 || isDigitByte c1)
            && (c2 =? "B")%char then None
    (* Table D: [0-9][AXCTWDEINPQ]D *)
    else if isDigitByte c0 && ContainsRune "AXCTWDEINPQ" c1 && (c2 =? "D")%char then None
    (* Table D: [A-Z0-9][UM]D *)
    else if (isUpperByte c0 || isDigitByte c0) && ContainsRune "UM" c1
            && (c2 =? "D")%char then None
    (* Table E: Q[0-9][0-9] *)
    else if (c0 =? "Q")%char && isDigitByte c1 && isDigitByte c2 then None
    (* Table E: the examples used by the tests *)
    else if inSet c tableEList then None
    else Some (Errorf "invalid entity code pattern: %s").

(** ** Parsing *)

(** The options used by [Parse], and by [ParseWithOptions] for nil options. *)
Definition defaultOptions : ParseOptions :=
  {| Strict := true; StrictValidation := false;
     NormalizeCase := true; TrimWhitespace := true |}.

(** A stand-in for the Unicode paths of [strings.ToUpper] and
    [strings.TrimSpace], for evaluating the engine on ASCII inputs, where
    those paths are not taken. *)
Definition asciiOnly (s : string) : string := s.

(** Assignments to the fields of a [CLLI] under construction. *)
Definition setNetworkSite (v : string) (r : CLLI) : CLLI :=
  mkCLLI (Original r) (Place r) (Region r) v (EntityCode r)
         (LocationCode r) (LocationID r) (CustomerCode r) (CustomerID r)
         (cliType r) (valid r).

Definition setEntityCode (v : string) (r : CLLI) : CLLI :=
  mkCLLI (Original r) (Place r) (Region r) (NetworkSite r) v
         (LocationCode r) (LocationID r) (CustomerCode r) (CustomerID r)
         (cliType r) (valid r).

Definition setLocationCode (v : string) (r : CLLI) : CLLI :=
  mkCLLI (Original r) (Place r) (Region r) (NetworkSite r) (EntityCode r)
         v (LocationID r) (CustomerCode r) (CustomerID r)
         (cliType r) (valid r).

Definition setLocationID (v : string) (r : CLLI) : CLLI :=
  mkCLLI (Original r) (Place r) (Region r) (NetworkSite r) (EntityCode r)
         (LocationCode r) v (CustomerCode r) (CustomerID r)
         (cliType r) (valid r).

Definition setCustomerCode (v : string) (r : CLLI) : CLLI :=
  mkCLLI (Original r) (Place r) (Region r) (NetworkSite r) (EntityCode r)
         (LocationCode r) (LocationID r) v (CustomerID r)
         (cliType r) (valid r).

Definition setCustomerID (v : string) (r : CLLI) : CLLI :=
  mkCLLI (Original r) (Place r) (Region r) (NetworkSite r) (EntityCode r)
         (LocationCode r) (LocationID r) (CustomerCode r) v
         (cliType r) (valid r).

Definition setCliType (t : CLLIType) (r : CLLI) : CLLI :=
  mkCLLI (Original r) (Place r) (Region r) (NetworkSite r) (EntityCode r)
         (LocationCode r) (LocationID r) (CustomerCode r) (CustomerID r)
         t (valid r).

(** [result.cliType == CLLITypeEntity] *)
Definition isEntityType (t : CLLIType) : bool :=
  match t with
  | CLLITypeEntity => true
  | _ => false
  end.

(** The branches of the [if]/[else if] chain of [ParseWithOptions] that
    determines the type of an input of 8 characters or more, in source order. *)
Inductive shapeRule : Set :=
| RuleCustomer15      (* 15-character Customer CLLI *)
| RuleEntity          (* digits network site and entity code *)
| RuleNonBuilding     (* location code and location ID *)
| RuleCustomer        (* customer code and customer ID *)
| RuleNonBuilding8    (* special case: 8-character CLLI *)
| RuleDefault.        (* the final [else] *)

(** The conditions of that chain, on [remainder := input[6:]]. *)
Definition selectRule (remainder : string) : shapeRule :=
  if (length remainder =? 9)%nat && isDigits (slice 0 2 remainder)
  then RuleCustomer15
  else if (5 <=? length remainder)%nat && isDigitsOnly (slice 0 2 remainder)
          && isValidEntityCode (suffix 2 remainder)
  then RuleEntity
  else if (5 <=? length remainder)%nat && isAlpha (slice 0 1 remainder)
          && isDigits (suffix 1 remainder)
  then RuleNonBuilding
  else if (5 <=? length remainder)%nat && isDigit (slice 0 1 remainder)
          && isAlpha (slice 1 2 remainder) && isDigits (suffix 2 remainder)
  then RuleCustomer
  else if (length remainder =? 2)%nat && isDigitsOnly remainder
  then RuleNonBuilding8
  else RuleDefault.

(** The bodies of that chain, and the [else] for inputs shorter than 8:
    "Now determine the type and populate type-specific fields". *)
Definition populate (input : string) (result : CLLI) : CLLI :=
  if (8 <=? length input)%nat then
    let remainder := suffix 6 input in
    match selectRule remainder with
    | RuleCustomer15 =>
        setCliType CLLITypeCustomer
          (setEntityCode (suffix 2 remainder)
            (setNetworkSite (slice 0 2 remainder) result))
    | RuleEntity =>
        setCliType CLLITypeEntity
          (setEntityCode (suffix 2 remainder)
            (setNetworkSite (slice 0 2 remainder) result))
    | RuleNonBuilding =>
        setCliType CLLITypeNonBuilding
          (setLocationID (suffix 1 remainder)
            (setLocationCode (slice 0 1 remainder) result))
    | RuleCustomer =>
        setCliType CLLITypeCustomer
          (setCustomerID (suffix 1 remainder)
            (setCustomerCode (slice 0 1 remainder) result))
    | RuleNonBuilding8 =>
        setCliType CLLITypeNonBuilding (setNetworkSite remainder result)
    | RuleDefault =>
        if (2 <=? length remainder)%nat then
          let result := setNetworkSite (slice 0 2 remainder) result in
          let result :=
            if (2 <? length remainder)%nat
            then setEntityCode (suffix 2 remainder) result
            else result in
          setCliType CLLITypeEntity result
        else result
    end
  else
    let result :=
      if (8 <=? length input)%nat
      then setNetworkSite (slice 6 8 input) result
      else result in
    setCliType CLLITypeNonBuilding result.

(** "Check for invalid characters in the middle positions": the validation
    of [input[6:8]] before the type is determined. *)
Definition checkNetworkSite (input : string) : option error :=
  if (8 <=? length input)%nat then
    let potentialNetworkSite := slice 6 8 input in
    let potentialEntityCode :=
      if (8 <? length input)%nat then suffix 8 input else "" in
    let siteIsDigitsOnly := allBytes isDigitByte potentialNetworkSite in
    if (2 <=? length potentialEntityCode)%nat && siteIsDigitsOnly
    then validateNetworkSiteDigitsOnly potentialNetworkSite
    else validateNetworkSiteAlphanumeric potentialNetworkSite
  else None.

(** "Post-classification validation for entity codes only", and the final
    [return result, nil]. *)
Definition postValidate (clli : string) (result : CLLI) : parseResult :=
  if isEntityType (cliType result) && negb (EntityCode result =? "") then
    if (length (EntityCode result) <? 2)%nat
       || (3 <? length (EntityCode result))%nat
    then Failed (mkParseError clli 8 "entity_code" ErrInvalidEntity)
    else
      match validateEntityCode (EntityCode result) with
      | Some _ => Failed (mkParseError clli 8 "entity_code" ErrInvalidEntity)
      | None => Parsed result
      end
  else Parsed result.

(** "Extract actual components for CLLI creation" and "Create CLLI instance
    with base fields": the other fields keep their zero values. *)
Definition baseRecord (input : string) : CLLI :=
  let actualPlace := slice 0 4 input in
  let actualRegion :=
    if (6 <=? length input)%nat then slice 4 6 input
    else if (4 <? length input)%nat
    then suffix 4 input ++ Repeat "X" (6 - length input)
    else "XX" in
  {| Original := input;
     Place := TrimRightSpaces actualPlace;
     Region := actualRegion;
     NetworkSite := ""; EntityCode := "";
     LocationCode := ""; LocationID := "";
     CustomerCode := ""; CustomerID := "";
     cliType := CLLITypeUnknown;
     valid := true |}.

(** [ParseWithOptions] from "Check overall length constraints first" to its
    end, on the raw [clli] (kept for error reports) and the preprocessed
    [input]. *)
Definition parseInput (clli : string) (strict : bool) (input : string)
  : parseResult :=
  if strict && (length input <? 8)%nat
  then Failed (mkParseError clli 0 "length" ErrInvalidCLLI)
  else if negb strict && (length input <? 4)%nat
  then Failed (mkParseError clli 0 "length" ErrInvalidCLLI)
  else if (15 <? length input)%nat
  then Failed (mkParseError clli 0 "length" ErrInvalidCLLI)
  else
    match firstOutside isAlnumByte 0 input with
    | Some i => Failed (mkParseError clli i "characters" ErrInvalidCLLI)
    | None =>
        let place :=
          if (4 <=? length input)%nat then slice 0 4 input
          else input ++ Repeat " " (4 - length input) in
        let region :=
          if (6 <=? length input)%nat then slice 4 6 input
          else if (4 <? length input)%nat
          then suffix 4 input ++ Repeat " " (6 - length input)
          else "" in
        match validatePlace place with
        | Some _ => Failed (mkParseError clli 0 "place" ErrInvalidPlace)
        | None =>
            match (if (4 <? length input)%nat
                   then validateRegion region else None) with
            | Some _ => Failed (mkParseError clli 4 "region" ErrInvalidRegion)
            | None =>
                match checkNetworkSite input with
                | Some _ =>
                    Failed (mkParseError clli 6 "network_site" ErrInvalidSite)
                | None =>
                    let result := baseRecord input in
                    postValidate clli (populate input result)
                end
            end
        end
    end.

(** The ranges ['0'..'9'] and ['A'..'Z'] written out, for proofs by
    enumeration. *)
Definition digitBytes : list ascii :=
  ["0"; "1"; "2"; "3"; "4"; "5"; "6"; "7"; "8"; "9"]%char.

Definition upperBytes : list ascii :=
  ["A"; "B"; "C"; "D"; "E"; "F"; "G"; "H"; "I"; "J"; "K"; "L"; "M";
   "N"; "O"; "P"; "Q"; "R"; "S"; "T"; "U"; "V"; "W"; "X"; "Y"; "Z"]%char.

(** Whether [validateEntityCode] returns nil on the three bytes [c0 c1 c2]. *)
Definition entityCodeAccepted (c0 c1 c2 : ascii) : bool :=
  match validateEntityCode (String c0 (String c1 (String c2 ""))) with
  | None => true
  | Some _ => false
  end.

(** [func (c *CLLI) String() string] *)
Definition CLLI_String (c : CLLI) : string := Original c.

(** [func (c *CLLI) Type() CLLIType] *)
Definition CLLI_Type (c : CLLI) : CLLIType := cliType c.

(** ** Type determination from the fields *)

(** [func determineCLLIType(clli *CLLI) CLLIType] *)
Definition determineCLLIType (clli : CLLI) : CLLIType :=
  let totalLen :=
    (length (Place clli) + length (Region clli) + length (NetworkSite clli)
     + length (EntityCode clli) + length (LocationCode clli)
     + length (LocationID clli) + length (CustomerCode clli)
     + length (CustomerID clli))%nat in
  if negb (CustomerCode clli =? "") && negb (CustomerID clli =? "")
  then CLLITypeCustomer
  else if negb (LocationCode clli =? "") && negb (LocationID clli =? "")
  then CLLITypeNonBuilding
  else if negb (EntityCode clli =? "")
  then CLLITypeEntity
  else if (totalLen =? 8)%nat && negb (NetworkSite clli =? "")
          && (EntityCode clli =? "") && (LocationCode clli =? "")
          && (CustomerCode clli =? "")
  then CLLITypeNonBuilding
  else if negb (NetworkSite clli =? "")
  then CLLITypeEntity
  else CLLITypeNonBuilding.

(** ** Methods of a record *)

(** [func (c *CLLI) IsValid() bool] *)
Definition CLLI_IsValid (c : CLLI) : bool := valid c.

(** [func (c *CLLI) IsEntityCLLI() bool] *)
Definition CLLI_IsEntityCLLI (c : CLLI) : bool := isEntityType (cliType c).

(** [err == nil] *)
Definition isNil (err : option error) : bool :=
  match err with
  | None => true
  | Some _ => false
  end.

(** [func (c *CLLI) ValidatePlace() bool] *)
Definition CLLI_ValidatePlace (c : CLLI) : bool := isNil (validatePlace (Place c)).

(** [func (c *CLLI) ValidateRegion() bool] *)
Definition CLLI_ValidateRegion (c : CLLI) : bool :=
  isNil (validateRegion (Region c)).

(** [func (c *CLLI) ValidateNetworkSite() bool] *)
Definition CLLI_ValidateNetworkSite (c : CLLI) : bool :=
  isNil (validateNetworkSite (NetworkSite c)).

(** [func (c *CLLI) ValidateEntityCode() bool] *)
Definition CLLI_ValidateEntityCode (c : CLLI) : bool :=
  if negb (CLLI_IsEntityCLLI c) then true
  else isNil (validateEntityCode (EntityCode c)).

(** ** Geographic resolution *)

(** A Go map literal with string keys, as its entries in source order; the
    keys of a literal are distinct (the compiler refuses a repeated constant
    key).  [mapGet m k] is the lookup [v, exists := m[k]]. *)
Fixpoint mapGet {V : Type} (m : list (string * V)) (k : string) : option V :=
  match m with
  | [] => None
  | (k', v) :: m' => if k' =? k then Some v else mapGet m' k
  end.

(** [var usStates] *)
Definition usStates : list (string * string) :=
  [ ("AL", "Alabama"); ("AK", "Alaska"); ("AZ", "Arizona"); ("AR", "Arkansas");
    ("CA", "California");
    ("CO", "Colorado"); ("CT", "Connecticut"); ("DE", "Delaware");
    ("FL", "Florida"); ("GA", "Georgia");
    ("HI", "Hawaii"); ("ID", "Idaho"); ("IL", "Illinois"); ("IN", "Indiana");
    ("IA", "Iowa");
    ("KS", "Kansas"); ("KY", "Kentucky"); ("LA", "Louisiana"); ("ME", "Maine");
    ("MD", "Maryland");
    ("MA", "Massachusetts"); ("MI", "Michigan"); ("MN", "Minnesota");
    ("MS", "Mississippi"); ("MO", "Missouri");
    ("MT", "Montana"); ("NE", "Nebraska"); ("NV", "Nevada");
    ("NH", "New Hampshire"); ("NJ", "New Jersey");
    ("NM", "New Mexico"); ("NY", "New York"); ("NC", "North Carolina");
    ("ND", "North Dakota"); ("OH", "Ohio");
    ("OK", "Oklahoma"); ("OR", "Oregon"); ("PA", "Pennsylvania");
    ("RI", "Rhode Island"); ("SC", "South Carolina");
    ("SD", "South Dakota"); ("TN", "Tennessee"); ("TX", "Texas");
    ("UT", "Utah"); ("VT", "Vermont");
    ("VA", "Virginia"); ("WA", "Washington"); ("WV", "West Virginia");
    ("WI", "Wisconsin"); ("WY", "Wyoming");
    ("DC", "District of Columbia") ].

(** [var canadianProvinces] *)
Definition canadianProvinces : list (string * string) :=
  [ ("AB", "Alberta"); ("BC", "British Columbia"); ("MB", "Manitoba");
    ("NB", "New Brunswick");
    ("NL", "Newfoundland and Labrador"); ("NS", "Nova Scotia");
    ("ON", "Ontario"); ("PE", "Prince Edward Island");
    ("QC", "Quebec"); ("SK", "Saskatchewan"); ("NT", "Northwest Territories");
    ("NU", "Nunavut"); ("YT", "Yukon") ].

(** [var cityMappings]: place, then region, then city. *)
Definition cityMappings : list (string * list (string * string)) :=
  [ ("CHCG", [("IL", "Chicago")]);
    ("NYCM", [("NY", "New York City")]);
    ("LSAN", [("CA", "Los Angeles")]);
    ("DLLS", [("TX", "Dallas")]);
    ("HSTX", [("TX", "Houston")]);
    ("PHLA", [("PA", "Philadelphia")]);
    ("PHNX", [("AZ", "Phoenix")]);
    ("SNAN", [("TX", "San Antonio")]);
    ("SNDG", [("CA", "San Diego")]);
    ("MPLS", [("MN", "Minneapolis")]);
    ("TORO", [("ON", "Toronto")]);
    ("MTRL", [("QC", "Montreal")]);
    ("VANCVR", [("BC", "Vancouver")]);
    ("CGRY", [("AB", "Calgary")]) ].

(** [func getCountryCode(region string) string] *)
Definition getCountryCode (region : string) : string :=
  match mapGet usStates region with
  | Some _ => "US"
  | None =>
      match mapGet canadianProvinces region with
      | Some _ => "CA"
      | None => ""
      end
  end.

(** [func getCountryName(region string) string] *)
Definition getCountryName (region : string) : string :=
  match mapGet usStates region with
  | Some _ => "United States"
  | None =>
      match mapGet canadianProvinces region with
      | Some _ => "Canada"
      | None => ""
      end
  end.

(** [func getStateName(region string) string] *)
Definition getStateName (region : string) : string :=
  match mapGet usStates region with
  | Some name => name
  | None =>
      match mapGet canadianProvinces region with
      | Some name => name
      | None => ""
      end
  end.

(** [func getCityName(place, region string) string] *)
Definition getCityName (place region : string) : string :=
  let normalizedPlace := TrimRightSpaces place in
  match mapGet cityMappings normalizedPlace with
  | Some regionMap =>
      match mapGet regionMap region with
      | Some city => city
      | None => ""
      end
  | None => ""
  end.

(** [func (c *CLLI) CountryCode() string] *)
Definition CLLI_CountryCode (c : CLLI) : string := getCountryCode (Region c).

(** [func (c *CLLI) CountryName() string] *)
Definition CLLI_CountryName (c : CLLI) : string := getCountryName (Region c).

(** [func (c *CLLI) StateCode() string] *)
Definition CLLI_StateCode (c : CLLI) : string :=
  if negb (getCountryCode (Region c) =? "") then Region c else "".

(** [func (c *CLLI) StateName() string] *)
Definition CLLI_StateName (c : CLLI) : string := getStateName (Region c).

(** [func (c *CLLI) CityName() string] *)
Definition CLLI_CityName (c : CLLI) : string := getCityName (Place c) (Region c).

(** ** Entity and location types *)

(** [func (c *CLLI) EntityType() string]; [strings.HasPrefix(s, p)] is
    [prefix p s]. *)
Definition CLLI_EntityType (c : CLLI) : string :=
  if negb (isEntityType (cliType c)) || (EntityCode c =? "") then ""
  else if prefix "DS" (EntityCode c) then "Digital Switch"
  else if prefix "RT" (EntityCode c) then "Router"
  else if prefix "SW" (EntityCode c) then "Switch"
  else if prefix "MS" (EntityCode c) then "Multiplexer"
  else if prefix "XC" (EntityCode c) then "Cross-Connect"
  else "Network Equipment".

(** [func (c *CLLI) LocationType() string] *)
Definition CLLI_LocationType (c : CLLI) : string :=
  if isEntityType (cliType c) then ""
  else
    match cliType c with
    | CLLITypeNonBuilding => "Geographic Location"
    | CLLITypeCustomer => "Customer Premises"
    | _ => ""
    end.

(** ** Shorthand for statements *)

(** The record with [Original] [input], place [input[0:4]], region
    [input[4:6]], the given trailing fields and type, and [valid] set: the
    shape of every record built from an input of 6 characters or more. *)
Definition recordOf (input ns ec lc lid cc cid : string) (t : CLLIType) : CLLI :=
  {| Original := input;
     Place := slice 0 4 input; Region := slice 4 6 input;
     NetworkSite := ns; EntityCode := ec;
     LocationCode := lc; LocationID := lid;
     CustomerCode := cc; CustomerID := cid;
     cliType := t; valid := true |}.

(** The forms a record parsed from the preprocessed [input] can take, one per
    branch of the classification that can end in success (used in proofs). *)
Definition parsedForm (input : string) (c : CLLI) : Prop :=
  (length input = 4
   /\ c = {| Original := input; Place := slice 0 4 input; Region := "XX";
             NetworkSite := ""; EntityCode := "";
             LocationCode := ""; LocationID := "";
             CustomerCode := ""; CustomerID := "";
             cliType := CLLITypeNonBuilding; valid := true |})
  \/ (6 <= length input
      /\ inSet (slice 4 6 input) validRegions = true
      /\ (((length input = 6 \/ length input = 7)
           /\ c = recordOf input "" "" "" "" "" "" CLLITypeNonBuilding)
          \/ (length input = 15 /\ isDigits (slice 6 8 input) = true
              /\ c = recordOf input (slice 6 8 input) (suffix 8 input)
                       "" "" "" "" CLLITypeCustomer)
          \/ (length input = 11 /\ isDigitsOnly (slice 6 8 input) = true
              /\ validateEntityCode (suffix 8 input) = None
              /\ c = recordOf input (slice 6 8 input) (suffix 8 input)
                       "" "" "" "" CLLITypeEntity)
          \/ (11 <= length input /\ isAlpha (slice 6 7 input) = true
              /\ isDigits (suffix 7 input) = true
              /\ c = recordOf input "" "" (slice 6 7 input) (suffix 7 input)
                       "" "" CLLITypeNonBuilding)
          \/ (11 <= length input /\ isDigit (slice 6 7 input) = true
              /\ isAlpha (slice 7 8 input) = true
              /\ isDigits (suffix 8 input) = true
              /\ c = recordOf input "" "" "" "" (slice 6 7 input)
                       (suffix 7 input) CLLITypeCustomer)
          \/ (length input = 8 /\ isDigitsOnly (slice 6 8 input) = true
              /\ c = recordOf input (slice 6 8 input) "" "" "" "" ""
                       CLLITypeNonBuilding)
          \/ (length input = 8 /\ isDigitsOnly (slice 6 8 input) = false
              /\ c = recordOf input (slice 6 8 input) "" "" "" "" ""
                       CLLITypeEntity)
          \/ (length input = 11 /\ isDigitsOnly (slice 6 8 input) = false
              /\ validateEntityCode (suffix 8 input) = None
              /\ c = recordOf input (slice 6 8 input) (suffix 8 input)
                       "" "" "" "" CLLITypeEntity))).

Section Engine.

(** [strings.ToUpper] and [strings.TrimSpace] on strings that have a byte
    above 0x7F. *)
Variable unicodeToUpper : string -> string.
Variable unicodeTrimSpace : string -> string.

(** [strings.ToUpper] *)
Definition ToUpper (s : string) : string :=
  if allBytes isASCIIByte s then mapBytes upperByte s
  else unicodeToUpper s.

(** [strings.TrimSpace] *)
Definition TrimSpace (s : string) : string :=
  if allBytes isASCIIByte s
  then trimRightBytes isSpaceByte (trimLeftBytes isSpaceByte s)
  else unicodeTrimSpace s.

(** "Preprocess input according to options" *)
Definition preprocess (opts : ParseOptions) (clli : string) : string :=
  let input := clli in
  let input := if TrimWhitespace opts then TrimSpace input else input in
  let input := if NormalizeCase opts then ToUpper input else input in
  input.

(** "Use default options if nil provided" *)
Definition orDefault (opts : option ParseOptions) : ParseOptions :=
  match opts with
  | None => defaultOptions
  | Some o => o
  end.

(** [func ParseWithOptions(clli string, opts *ParseOptions)], [None] being
    the nil pointer for [opts]. *)
Definition ParseWithOptions (clli : string) (opts : option ParseOptions)
  : parseResult :=
  let opts := orDefault opts in
  if TrimSpace clli =? ""
  then Failed (mkParseError clli 0 "input" ErrEmptyInput)
  else parseInput clli (Strict opts) (preprocess opts clli).

(** [func Parse(clli string)] *)
Definition Parse (clli : string) : parseResult :=
  ParseWithOptions clli (Some defaultOptions).

(** [func ValidateEntityCode(code string, strict bool) error] *)
Definition ValidateEntityCode (code : string) (strict : bool) : option error :=
  if code =? "" then Some ErrInvalidEntity
  else
    let testCode := code in
    let testCode :=
      if negb strict then ToUpper (TrimSpace testCode) else testCode in
    validateEntityCode testCode.

(** One turn of the loop of [IsEntityCLLI], at split point [i]. *)
Definition entitySplit (remaining : string) (i : nat) : bool :=
  let networkSite := slice 0 i remaining in
  let entityCode := suffix i remaining in
  isDigitsOnly networkSite && (length entityCode =? 3)%nat
  && isValidEntityCode entityCode.

(** [func IsEntityCLLI(clli string) bool]; the loop
    [for i := 2; i <= len(remaining) && i <= 5; i++] runs over the [i] of
    2..5 that are at most [len(remaining)]. *)
Definition IsEntityCLLI (clli : string) : bool :=
  if clli =? "" then false
  else if negb (clli =? ToUpper clli) then false
  else if (length clli <? 8)%nat || (11 <? length clli)%nat then false
  else if (length clli <? 6)%nat then false
  else
    let place := slice 0 4 clli in
    let region := slice 4 6 clli in
    if negb (isAlpha place) || negb (isAlpha region) then false
    else
      let remaining := suffix 6 clli in
      if (2 <=? length remaining)%nat
      then existsb (entitySplit remaining)
             (filter (fun i => (i <=? length remaining)%nat) [2; 3; 4; 5])
      else false.

(** [func IsNonBuildingCLLI(clli string) bool] *)
Definition IsNonBuildingCLLI (clli : string) : bool :=
  if clli =? "" then false
  else if negb (clli =? ToUpper clli) then false
  else if negb (length clli =? 11)%nat then false
  else
    let place := slice 0 4 clli in
    let region := slice 4 6 clli in
    if negb (isAlpha place) || negb (isAlpha region) then false
    else
      let locationCode := slice 6 7 clli in
      if negb (isAlpha locationCode) then false
      else
        let locationID := slice 7 11 clli in
        if negb (isDigitsOnly locationID) then false
        else true.

(** [func IsCustomerCLLI(clli string) bool] *)
Definition IsCustomerCLLI (clli : string) : bool :=
  if clli =? "" then false
  else if negb (clli =? ToUpper clli) then false
  else if negb (length clli =? 11)%nat then false
  else
    let place := slice 0 4 clli in
    let region := slice 4 6 clli in
    if negb (isAlpha place) || negb (isAlpha region) then false
    else
      let customerCode := slice 6 7 clli in
      if negb (isDigit customerCode) then false
      else if negb (isAlpha (slice 7 8 clli)) then false
      else
        let customerID := slice 8 11 clli in
        if negb (isDigitsOnly customerID) then false
        else true.

(** [func ValidatePlace(place string, strict bool) error] *)
Definition ValidatePlace (place : string) (strict : bool) : option error :=
  if place =? "" then Some ErrInvalidPlace
  else
    let testPlace := place in
    let testPlace :=
      if negb strict then ToUpper (TrimSpace testPlace) else testPlace in
    validatePlace testPlace.

(** [func ValidateRegion(region string, strict bool) error] *)
Definition ValidateRegion (region : string) (strict : bool) : option error :=
  if region =? "" then Some ErrInvalidRegion
  else
    let testRegion := region in
    let testRegion :=
      if negb strict then ToUpper (TrimSpace testRegion) else testRegion in
    validateRegion testRegion.

(** [func ValidateNetworkSite(site string, strict bool) error] *)
Definition ValidateNetworkSite (site : string) (strict : bool) : option error :=
  if site =? "" then Some ErrInvalidSite
  else validateNetworkSite site.

(** ** Facts about bytes *)

Ltac by_bytes :=
  let c := fresh "c" in
  intro c; destruct c as [[] [] [] [] [] [] [] []];
  cbv; intros; solve [reflexivity | discriminate | congruence].

Lemma digit_not_upper : forall c, isDigitByte c = true -> isUpperByte c = false.
Proof. by_bytes. Qed.

Lemma upper_alnum : forall c, isUpperByte c = true -> isAlnumByte c = true.
Proof. by_bytes. Qed.

Lemma digit_alnum : forall c, isDigitByte c = true -> isAlnumByte c = true.
Proof. by_bytes. Qed.

Lemma alnum_ascii : forall c, isAlnumByte c = true -> isASCIIByte c = true.
Proof. by_bytes. Qed.

Lemma alnum_not_space : forall c, isAlnumByte c = true -> isSpaceByte c = false.
Proof. by_bytes. Qed.

Lemma alnum_not_blank : forall c, isAlnumByte c = true -> Ascii.eqb " " c = false.
Proof. by_bytes. Qed.

Lemma alnum_upperByte : forall c, isAlnumByte c = true -> upperByte c = c.
Proof. by_bytes. Qed.

Lemma space_ascii : forall c, isSpaceByte c = true -> isASCIIByte c = true.
Proof. by_bytes. Qed.

(** ** Facts about strings *)

Lemma allBytes_impl (p q : ascii -> bool) :
  (forall c, p c = true -> q c = true) ->
  forall s, allBytes p s = true -> allBytes q s = true.
Proof.
  intros Hpq s; induction s as [|c s IH]; simpl; [reflexivity|].
  intros H; apply andb_prop in H as [Hc Hs].
  rewrite (Hpq _ Hc), (IH Hs); reflexivity.
Qed.

Lemma allBytes_substring (p : ascii -> bool) :
  forall s n m, allBytes p s = true -> allBytes p (substring n m s) = true.
Proof.
  induction s as [|c s IH]; intros n m H.
  - destruct n, m; reflexivity.
  - simpl in H; apply andb_prop in H as [Hc Hs].
    destruct n as [|n]; simpl.
    + destruct m as [|m]; simpl; [reflexivity|].
      rewrite Hc; simpl; apply IH; assumption.
    + apply IH; assumption.
Qed.

Lemma length_substring :
  forall s n m, n + m <= length s -> length (substring n m s) = m.
Proof.
  induction s as [|c s IH]; intros n m H; simpl in H.
  - assert (n = 0) by lia; assert (m = 0) by lia; subst; reflexivity.
  - destruct n as [|n]; simpl.
    + destruct m as [|m]; simpl; [reflexivity|].
      f_equal; apply IH; lia.
    + apply IH; lia.
Qed.

Lemma length_slice lo hi s :
  lo <= hi -> hi <= length s -> length (slice lo hi s) = hi - lo.
Proof. intros; unfold slice; apply length_substring; lia. Qed.

Lemma length_suffix lo s : lo <= length s -> length (suffix lo s) = length s - lo.
Proof. intros; unfold suffix; apply length_substring; lia. Qed.

Lemma length_pos_nonempty s : 0 < length s -> s <> "".
Proof. destruct s; simpl; [lia | discriminate]. Qed.

Lemma firstOutside_none (p : ascii -> bool) :
  forall s i, firstOutside p i s = None <-> allBytes p s = true.
Proof.
  induction s as [|c s IH]; intros i; simpl.
  - tauto.
  - destruct (p c); simpl; [apply IH|].
    split; discriminate.
Qed.

Lemma trimLeftBytes_id (p : ascii -> bool) :
  forall s, allBytes (fun c => negb (p c)) s = true -> trimLeftBytes p s = s.
Proof.
  destruct s as [|c s]; simpl; [reflexivity|].
  intros H; apply andb_prop in H as [Hc _].
  apply negb_true_iff in Hc; rewrite Hc; reflexivity.
Qed.

Lemma trimRightBytes_id (p : ascii -> bool) :
  forall s, allBytes (fun c => negb (p c)) s = true -> trimRightBytes p s = s.
Proof.
  induction s as [|c s IH]; simpl; [reflexivity|].
  intros H; apply andb_prop in H as [Hc Hs].
  apply negb_true_iff in Hc; rewrite (IH Hs), Hc.
  destruct s; reflexivity.
Qed.

Lemma trimLeftBytes_all (p : ascii -> bool) :
  forall s, allBytes p s = true -> trimLeftBytes p s = "".
Proof.
  induction s as [|c s IH]; simpl; [reflexivity|].
  intros H; apply andb_prop in H as [Hc Hs]; rewrite Hc; auto.
Qed.

Lemma mapBytes_id (f : ascii -> ascii) (p : ascii -> bool) :
  (forall c, p c = true -> f c = c) ->
  forall s, allBytes p s = true -> mapBytes f s = s.
Proof.
  intros Hf; induction s as [|c s IH]; simpl; [reflexivity|].
  intros H; apply andb_prop in H as [Hc Hs].
  rewrite (Hf _ Hc), (IH Hs); reflexivity.
Qed.

Lemma TrimRightSpaces_alnum s :
  allBytes isAlnumByte s = true -> TrimRightSpaces s = s.
Proof.
  intros H; apply trimRightBytes_id.
  revert H; apply allBytes_impl.
  intros c Hc; rewrite (alnum_not_blank _ Hc); reflexivity.
Qed.

(** ** Normalisation of inputs that are already normal *)

Lemma alnum_allASCII s : allBytes isAlnumByte s = true -> allBytes isASCIIByte s = true.
Proof. apply allBytes_impl, alnum_ascii. Qed.

Lemma TrimSpace_alnum s : allBytes isAlnumByte s = true -> TrimSpace s = s.
Proof.
  intros H; unfold TrimSpace; rewrite (alnum_allASCII _ H).
  assert (Hn : allBytes (fun c => negb (isSpaceByte c)) s = true).
  { revert H; apply allBytes_impl; intros c Hc.
    rewrite (alnum_not_space _ Hc); reflexivity. }
  rewrite (trimLeftBytes_id _ _ Hn); apply trimRightBytes_id, Hn.
Qed.

Lemma ToUpper_alnum s : allBytes isAlnumByte s = true -> ToUpper s = s.
Proof.
  intros H; unfold ToUpper; rewrite (alnum_allASCII _ H).
  revert H; apply mapBytes_id, alnum_upperByte.
Qed.

Lemma preprocess_alnum opts s :
  allBytes isAlnumByte s = true -> preprocess opts s = s.
Proof.
  intros H; unfold preprocess.
  destruct (TrimWhitespace opts), (NormalizeCase opts);
    rewrite ?(TrimSpace_alnum _ H), ?(ToUpper_alnum _ H); reflexivity.
Qed.

Lemma TrimSpace_blank s : allBytes isSpaceByte s = true -> TrimSpace s = "".
Proof.
  intros H; unfold TrimSpace.
  rewrite (allBytes_impl _ _ space_ascii _ H).
  rewrite (trimLeftBytes_all _ _ H); reflexivity.
Qed.

(** ** Inversion of a successful parse *)

Lemma populate_Original input r : Original (populate input r) = Original r.
Proof.
  unfold populate.
  destruct (8 <=? length input)%nat; [|reflexivity].
  destruct (selectRule _); try reflexivity.
  destruct (2 <=? _)%nat; [|reflexivity].
  destruct (2 <? _)%nat; reflexivity.
Qed.

Lemma postValidate_parsed clli r c :
  postValidate clli r = Parsed c ->
  c = r /\
  (cliType r = CLLITypeEntity -> EntityCode r <> "" ->
   length (EntityCode r) = 3 /\ validateEntityCode (EntityCode r) = None).
Proof.
  unfold postValidate.
  destruct (isEntityType (cliType r) && negb (EntityCode r =? "")) eqn:Hg.
  - destruct ((length (EntityCode r) <? 2)%nat || (3 <? length (EntityCode r))%nat);
      [discriminate|].
    destruct (validateEntityCode (EntityCode r)) eqn:Hv; [discriminate|].
    intros [= <-]; split; [reflexivity|]; intros _ _; split; [|reflexivity].
    unfold validateEntityCode in Hv.
    destruct (EntityCode r =? ""); [discriminate|].
    destruct (length (EntityCode r) =? 3)%nat eqn:Hl; [|discriminate].
    apply Nat.eqb_eq; assumption.
  - intros [= <-]; split; [reflexivity|]; intros Ht Hne.
    rewrite Ht in Hg; simpl in Hg.
    apply negb_false_iff, String.eqb_eq in Hg; contradiction.
Qed.

Lemma parseInput_parsed clli strict input c :
  parseInput clli strict input = Parsed c ->
  (if strict then 8 <= length input else 4 <= length input) /\
  length input <= 15 /\
  allBytes isAlnumByte input = true /\
  validatePlace (slice 0 4 input) = None /\
  (6 <= length input -> validateRegion (slice 4 6 input) = None) /\
  postValidate clli (populate input (baseRecord input)) = Parsed c.
Proof.
  unfold parseInput.
  destruct (strict && (length input <? 8)%nat) eqn:H1; [discriminate|].
  destruct (negb strict && (length input <? 4)%nat) eqn:H2; [discriminate|].
  destruct (15 <? length input)%nat eqn:H3; [discriminate|].
  destruct (firstOutside isAlnumByte 0 input) eqn:H4; [discriminate|].
  apply firstOutside_none in H4.
  apply Nat.ltb_ge in H3.
  assert (Hlen : if strict then 8 <= length input else 4 <= length input).
  { destruct strict; simpl in H1, H2; apply Nat.ltb_ge; assumption. }
  assert (H4' : 4 <= length input) by (destruct strict; lia).
  apply Nat.leb_le in H4'; rewrite H4'; apply Nat.leb_le in H4'.
  destruct (validatePlace (slice 0 4 input)) eqn:H5; [discriminate|].
  destruct (if (4 <? length input)%nat then _ else None) eqn:H6; [discriminate|].
  destruct (checkNetworkSite input); [discriminate|].
  intros H7; repeat split; try assumption.
  intros H8.
  assert (H9 : (4 <? length input)%nat = true) by (apply Nat.ltb_lt; lia).
  apply Nat.leb_le in H8; rewrite H8, H9 in H6; assumption.
Qed.

Lemma ParseWithOptions_parsed clli opts c :
  ParseWithOptions clli opts = Parsed c ->
  TrimSpace clli <> "" /\
  parseInput clli (Strict (orDefault opts)) (preprocess (orDefault opts) clli)
  = Parsed c.
Proof.
  unfold ParseWithOptions.
  destruct (TrimSpace clli =? "") eqn:Hb; [discriminate|].
  apply String.eqb_neq in Hb; auto.
Qed.

(** ** The length checks *)

Lemma parseInput_length_violation clli strict input :
  (strict = true /\ length input < 8) \/ (strict = false /\ length input < 4)
  \/ 15 < length input ->
  parseInput clli strict input
  = Failed (mkParseError clli 0 "length" ErrInvalidCLLI).
Proof.
  unfold parseInput; intros [[-> H]|[[-> H]|H]].
  - apply Nat.ltb_lt in H; rewrite H; reflexivity.
  - apply Nat.ltb_lt in H; rewrite H; reflexivity.
  - apply Nat.ltb_lt in H; rewrite H.
    destruct (strict && _); [reflexivity|].
    destruct (negb strict && _); reflexivity.
Qed.

Lemma postValidate_field clli r e :
  postValidate clli r = Failed e -> Field e = "entity_code".
Proof.
  unfold postValidate.
  destruct (isEntityType (cliType r) && negb (EntityCode r =? ""));
    [|discriminate].
  destruct ((length (EntityCode r) <? 2)%nat || (3 <? length (EntityCode r))%nat).
  - intros [= <-]; reflexivity.
  - destruct (validateEntityCode (EntityCode r)); [|discriminate].
    intros [= <-]; reflexivity.
Qed.

Lemma parseInput_within_bounds clli (strict : bool) input e :
  (if strict then 8 <= length input else 4 <= length input) ->
  length input <= 15 ->
  parseInput clli strict input = Failed e -> Field e <> "length".
Proof.
  intros Hlo Hhi; unfold parseInput.
  assert (H1 : strict && (length input <? 8)%nat = false).
  { destruct strict; [apply Nat.ltb_ge; assumption | reflexivity]. }
  assert (H2 : negb strict && (length input <? 4)%nat = false).
  { destruct strict; [reflexivity | apply Nat.ltb_ge; assumption]. }
  assert (H3 : (15 <? length input)%nat = false) by (apply Nat.ltb_ge; assumption).
  rewrite H1, H2, H3.
  destruct (firstOutside isAlnumByte 0 input); [intros [= <-]; discriminate|].
  destruct (validatePlace _); [intros [= <-]; discriminate|].
  destruct (if (4 <? length input)%nat then _ else None);
    [intros [= <-]; discriminate|].
  destruct (checkNetworkSite input); [intros [= <-]; discriminate|].
  intros H; apply postValidate_field in H; rewrite H; discriminate.
Qed.

(** ** The classification chain *)

Lemma parseInput_strict_irrelevant clli input :
  8 <= length input ->
  parseInput clli false input = parseInput clli true input.
Proof.
  intros H; unfold parseInput.
  assert (H8 : (length input <? 8)%nat = false) by (apply Nat.ltb_ge; lia).
  assert (H4 : (length input <? 4)%nat = false) by (apply Nat.ltb_ge; lia).
  rewrite H8, H4; reflexivity.
Qed.

Lemma selectRule_cases remainder :
  match selectRule remainder with
  | RuleCustomer15 =>
      length remainder = 9 /\ isDigits (slice 0 2 remainder) = true
  | RuleEntity =>
      5 <= length remainder /\ isDigitsOnly (slice 0 2 remainder) = true
      /\ isValidEntityCode (suffix 2 remainder) = true
  | RuleNonBuilding =>
      5 <= length remainder /\ isAlpha (slice 0 1 remainder) = true
      /\ isDigits (suffix 1 remainder) = true
  | RuleCustomer =>
      5 <= length remainder /\ isDigit (slice 0 1 remainder) = true
      /\ isAlpha (slice 1 2 remainder) = true
      /\ isDigits (suffix 2 remainder) = true
  | RuleNonBuilding8 => length remainder = 2 /\ isDigitsOnly remainder = true
  | RuleDefault => True
  end.
Proof.
  unfold selectRule.
  destruct ((length remainder =? 9)%nat && _) eqn:H1.
  { apply andb_prop in H1 as [H1 H2]; apply Nat.eqb_eq in H1; auto. }
  destruct ((5 <=? length remainder)%nat && isDigitsOnly _ && _) eqn:H2.
  { apply andb_prop in H2 as [H2 H3]; apply andb_prop in H2 as [H2 H4].
    apply Nat.leb_le in H2; auto. }
  destruct ((5 <=? length remainder)%nat && isAlpha _ && _) eqn:H3.
  { apply andb_prop in H3 as [H3 H4]; apply andb_prop in H3 as [H3 H5].
    apply Nat.leb_le in H3; auto. }
  destruct ((5 <=? length remainder)%nat && isDigit _ && _ && _) eqn:H4.
  { apply andb_prop in H4 as [H4 H5]; apply andb_prop in H4 as [H4 H6].
    apply andb_prop in H4 as [H4 H7]; apply Nat.leb_le in H4; auto. }
  destruct ((length remainder =? 2)%nat && _) eqn:H5.
  { apply andb_prop in H5 as [H5 H6]; apply Nat.eqb_eq in H5; auto. }
  exact I.
Qed.

Lemma allBytes_pos_nonempty (p : ascii -> bool) s :
  allBytes p s && (0 <? length s)%nat = true -> s <> "".
Proof.
  intros H; apply andb_prop in H as [_ H]; apply Nat.ltb_lt in H.
  apply length_pos_nonempty; assumption.
Qed.

Lemma isDigit_nonempty s : isDigit s = true -> s <> "".
Proof. destruct s; [discriminate | discriminate]. Qed.

(** ** Enumeration of bytes and of region codes *)

Ltac in_list := repeat (first [left; reflexivity | right]).

Lemma digit_in_digitBytes : forall c, isDigitByte c = true -> In c digitBytes.
Proof.
  intro c; destruct c as [[] [] [] [] [] [] [] []]; cbv; intros H;
    try discriminate H; in_list.
Qed.

Lemma upper_in_upperBytes : forall c, isUpperByte c = true -> In c upperBytes.
Proof.
  intro c; destruct c as [[] [] [] [] [] [] [] []]; cbv; intros H;
    try discriminate H; in_list.
Qed.

Lemma alnum_cases c :
  isAlnumByte c = true -> In c digitBytes \/ In c upperBytes.
Proof.
  unfold isAlnumByte; intros H; apply orb_prop in H as [H|H].
  - right; apply upper_in_upperBytes; assumption.
  - left; apply digit_in_digitBytes; assumption.
Qed.

Lemma two_digit_codes_enumerated :
  forallb (fun d1 =>
    forallb (fun d2 =>
      forallb (fun c =>
        Bool.eqb (entityCodeAccepted d1 d2 c)
                 (existsb (Ascii.eqb c) ["1"; "2"; "A"; "Z"; "T"; "B"]%char))
        (digitBytes ++ upperBytes)) digitBytes) digitBytes = true.
Proof. vm_compute; reflexivity. Qed.

Lemma validRegions_validated :
  forallb (fun r => match validateRegion r with None => true | Some _ => false end)
          validRegions = true.
Proof. vm_compute; reflexivity. Qed.

Lemma validateRegion_recognized region :
  inSet region validRegions = true -> validateRegion region = None.
Proof.
  unfold inSet; intros H; apply existsb_exists in H as (r & Hin & Heq).
  apply String.eqb_eq in Heq; subst r.
  pose proof validRegions_validated as Hall.
  rewrite forallb_forall in Hall; specialize (Hall _ Hin).
  destruct (validateRegion region); [discriminate | reflexivity].
Qed.

(** ** Validators on well-formed components *)

Lemma allBytes_substring_join (p : ascii -> bool) :
  forall s n m k,
    allBytes p (substring n m s) = true ->
    allBytes p (substring (n + m) k s) = true ->
    allBytes p (substring n (m + k) s) = true.
Proof.
  induction s as [|c s IH]; intros n m k H1 H2.
  - destruct n, m, k; reflexivity.
  - destruct n as [|n]; simpl in *.
    + destruct m as [|m]; simpl in *; [assumption|].
      apply andb_prop in H1 as [Hc H1]; rewrite Hc; simpl.
      apply (IH 0); assumption.
    + apply IH; assumption.
Qed.

Lemma substring_full : forall s, substring 0 (length s) s = s.
Proof. induction s as [|c s IH]; simpl; [|rewrite IH]; reflexivity. Qed.

Lemma isAlpha_upper s : isAlpha s = true -> allBytes isUpperByte s = true.
Proof. intros H; apply andb_prop in H as [H _]; assumption. Qed.

Lemma isDigitsOnly_digits s : isDigitsOnly s = true -> allBytes isDigitByte s = true.
Proof. intros H; apply andb_prop in H as [H _]; assumption. Qed.

Lemma validatePlace_letters place :
  length place = 4 -> allBytes isUpperByte place = true ->
  validatePlace place = None.
Proof.
  intros Hl Hu; unfold validatePlace.
  assert (Hne : (place =? "") = false).
  { apply String.eqb_neq, length_pos_nonempty; lia. }
  rewrite Hne, TrimRightSpaces_alnum
    by (revert Hu; apply allBytes_impl, upper_alnum).
  rewrite Hl, Hu; reflexivity.
Qed.

Lemma validateNetworkSiteAlphanumeric_alnum site :
  length site = 2 -> allBytes isAlnumByte site = true ->
  validateNetworkSiteAlphanumeric site = None.
Proof.
  intros Hl Ha; unfold validateNetworkSiteAlphanumeric.
  assert (Hne : (site =? "") = false).
  { apply String.eqb_neq, length_pos_nonempty; lia. }
  rewrite Hne, Hl, Ha; reflexivity.
Qed.

Lemma selectRule_two_digits remainder :
  length remainder = 2 -> isDigitsOnly remainder = true ->
  selectRule remainder = RuleNonBuilding8.
Proof.
  intros Hl Hd; unfold selectRule; rewrite Hl, Hd; reflexivity.
Qed.

(** ** Slices of slices *)

Lemma substring_substring :
  forall s a n b m,
    a + n <= m -> substring a n (substring b m s) = substring (b + a) n s.
Proof.
  induction s as [|c s IH]; intros a n b m H.
  - destruct b, m; destruct a, n; reflexivity.
  - destruct b as [|b].
    + destruct m as [|m].
      * assert (a = 0) by lia; assert (n = 0) by lia; subst; reflexivity.
      * destruct a as [|a]; simpl.
        -- destruct n as [|n]; [reflexivity|].
           f_equal; apply (IH 0 n 0 m); lia.
        -- apply (IH a n 0 m); lia.
    + simpl; apply IH; assumption.
Qed.

Lemma slice_suffix a b lo s :
  a <= b -> lo + b <= length s ->
  slice a b (suffix lo s) = slice (lo + a) (lo + b) s.
Proof.
  intros Hab Hb; unfold slice, suffix.
  rewrite substring_substring by lia.
  replace (lo + b - (lo + a)) with (b - a) by lia; reflexivity.
Qed.

Lemma suffix_suffix a lo s :
  lo + a <= length s -> suffix a (suffix lo s) = suffix (lo + a) s.
Proof.
  intros H; unfold suffix.
  rewrite length_substring by lia.
  rewrite substring_substring by lia.
  replace (length s - (lo + a)) with (length s - lo - a) by lia; reflexivity.
Qed.

Lemma slice_slice a b lo hi s :
  a <= b -> lo + b <= hi ->
  slice a b (slice lo hi s) = slice (lo + a) (lo + b) s.
Proof.
  intros Hab Hb; unfold slice.
  rewrite substring_substring by lia.
  replace (lo + b - (lo + a)) with (b - a) by lia; reflexivity.
Qed.

Lemma suffix_as_slice lo s : suffix lo s = slice lo (length s) s.
Proof. reflexivity. Qed.

Lemma digits_and_letters_empty s :
  allBytes isDigitByte s = true -> allBytes isUpperByte s = true -> s = "".
Proof.
  destruct s as [|c s]; [reflexivity|]; simpl; intros Hd Hu.
  apply andb_prop in Hd as [Hd _]; apply andb_prop in Hu as [Hu _].
  rewrite (digit_not_upper _ Hd) in Hu; discriminate.
Qed.

Lemma isDigit_digits s : isDigit s = true -> allBytes isDigitByte s = true.
Proof.
  destruct s as [|c [|d s]]; try discriminate.
  unfold isDigit, byteAt, isDigitByte; simpl; intros H; rewrite H; reflexivity.
Qed.

(** A slice cannot be letters when a slice around it is digits, and
    conversely. *)
Lemma letters_inside_digits a b lo hi s :
  a <= b -> lo + b <= hi ->
  allBytes isDigitByte (slice lo hi s) = true ->
  isAlpha (slice (lo + a) (lo + b) s) = false.
Proof.
  intros Hab Hb Hd.
  destruct (isAlpha (slice (lo + a) (lo + b) s)) eqn:Ha; [exfalso|reflexivity].
  rewrite <- (slice_slice a b lo hi) in Ha by assumption.
  pose proof (allBytes_pos_nonempty _ _ Ha) as Hne.
  apply isAlpha_upper in Ha; apply Hne.
  apply digits_and_letters_empty; [|assumption].
  apply allBytes_substring; assumption.
Qed.

Lemma digits_inside_letters_not_digits a b lo hi s :
  a <= b -> lo + b <= hi ->
  isAlpha (slice (lo + a) (lo + b) s) = true ->
  allBytes isDigitByte (slice lo hi s) = false.
Proof.
  intros Hab Hb Ha.
  destruct (allBytes isDigitByte (slice lo hi s)) eqn:Hd; [|reflexivity].
  rewrite (letters_inside_digits a b lo hi s Hab Hb Hd) in Ha; discriminate.
Qed.

(** ** What the shape probes test *)

Lemma isValidEntityCode_three s :
  length s = 3 -> isValidEntityCode s = allBytes isAlnumByte s.
Proof. intros H; unfold isValidEntityCode; rewrite H; reflexivity. Qed.

Lemma IsNonBuildingCLLI_true clli :
  IsNonBuildingCLLI clli = true <->
  clli = ToUpper clli /\ length clli = 11
  /\ isAlpha (slice 0 4 clli) = true /\ isAlpha (slice 4 6 clli) = true
  /\ isAlpha (slice 6 7 clli) = true /\ isDigitsOnly (slice 7 11 clli) = true.
Proof.
  unfold IsNonBuildingCLLI; split.
  - intros H.
    destruct (clli =? ""); [discriminate|].
    destruct (clli =? ToUpper clli) eqn:E1; [|discriminate].
    destruct (length clli =? 11)%nat eqn:E2; [|discriminate].
    destruct (isAlpha (slice 0 4 clli)); [|discriminate].
    destruct (isAlpha (slice 4 6 clli)); [|discriminate].
    destruct (isAlpha (slice 6 7 clli)); [|discriminate].
    destruct (isDigitsOnly (slice 7 11 clli)); [|discriminate].
    apply String.eqb_eq in E1; apply Nat.eqb_eq in E2; auto 10.
  - intros (HU & Hl & H1 & H2 & H3 & H4).
    assert (Hne : (clli =? "") = false).
    { apply String.eqb_neq, length_pos_nonempty; lia. }
    rewrite Hne, <- HU, String.eqb_refl, Hl, H1, H2, H3, H4; reflexivity.
Qed.

Lemma IsCustomerCLLI_true clli :
  IsCustomerCLLI clli = true <->
  clli = ToUpper clli /\ length clli = 11
  /\ isAlpha (slice 0 4 clli) = true /\ isAlpha (slice 4 6 clli) = true
  /\ isDigit (slice 6 7 clli) = true /\ isAlpha (slice 7 8 clli) = true
  /\ isDigitsOnly (slice 8 11 clli) = true.
Proof.
  unfold IsCustomerCLLI; split.
  - intros H.
    destruct (clli =? ""); [discriminate|].
    destruct (clli =? ToUpper clli) eqn:E1; [|discriminate].
    destruct (length clli =? 11)%nat eqn:E2; [|discriminate].
    destruct (isAlpha (slice 0 4 clli)); [|discriminate].
    destruct (isAlpha (slice 4 6 clli)); [|discriminate].
    destruct (isDigit (slice 6 7 clli)); [|discriminate].
    destruct (isAlpha (slice 7 8 clli)); [|discriminate].
    destruct (isDigitsOnly (slice 8 11 clli)); [|discriminate].
    apply String.eqb_eq in E1; apply Nat.eqb_eq in E2; auto 10.
  - intros (HU & Hl & H1 & H2 & H3 & H4 & H5).
    assert (Hne : (clli =? "") = false).
    { apply String.eqb_neq, length_pos_nonempty; lia. }
    rewrite Hne, <- HU, String.eqb_refl, Hl, H1, H2, H3, H4, H5; reflexivity.
Qed.

Lemma IsEntityCLLI_true clli :
  IsEntityCLLI clli = true <->
  clli = ToUpper clli /\ length clli = 11
  /\ isAlpha (slice 0 4 clli) = true /\ isAlpha (slice 4 6 clli) = true
  /\ isDigitsOnly (slice 6 8 clli) = true
  /\ allBytes isAlnumByte (slice 8 11 clli) = true.
Proof.
  unfold IsEntityCLLI; split.
  - intros H.
    destruct (clli =? ""); [discriminate|].
    destruct (clli =? ToUpper clli) eqn:E1; [|discriminate].
    destruct ((length clli <? 8)%nat || (11 <? length clli)%nat) eqn:E2;
      [discriminate|].
    apply orb_false_elim in E2 as [E2 E3].
    apply Nat.ltb_ge in E2; apply Nat.ltb_ge in E3.
    destruct (length clli <? 6)%nat; [discriminate|].
    destruct (isAlpha (slice 0 4 clli)); [|discriminate].
    destruct (isAlpha (slice 4 6 clli)); [|discriminate].
    cbn [negb orb] in H.
    destruct (2 <=? length (suffix 6 clli))%nat; [|discriminate].
    apply existsb_exists in H as (i & Hin & Hsplit).
    apply filter_In in Hin as [Hin Hle]; apply Nat.leb_le in Hle.
    unfold entitySplit in Hsplit.
    apply andb_prop in Hsplit as [Hsplit Hv].
    apply andb_prop in Hsplit as [Hd H3]; apply Nat.eqb_eq in H3.
    assert (Hrem : length (suffix 6 clli) = length clli - 6)
      by (apply length_suffix; lia).
    rewrite length_suffix in H3 by assumption.
    assert (Hi : i = 2 /\ length clli = 11).
    { simpl in Hin; destruct Hin as [<-|[<-|[<-|[<-|[]]]]]; lia. }
    destruct Hi as [-> Hl].
    rewrite slice_suffix in Hd by lia.
    rewrite suffix_suffix, suffix_as_slice, Hl in Hv by lia.
    rewrite isValidEntityCode_three in Hv by (apply length_slice; lia).
    apply String.eqb_eq in E1; auto 10.
  - intros (HU & Hl & H1 & H2 & H3 & H4).
    assert (Hne : (clli =? "") = false).
    { apply String.eqb_neq, length_pos_nonempty; lia. }
    assert (Hrem : length (suffix 6 clli) = 5)
      by (rewrite length_suffix; lia).
    assert (Hsplit : entitySplit (suffix 6 clli) 2 = true).
    { unfold entitySplit.
      rewrite slice_suffix, suffix_suffix, suffix_as_slice, Hl by lia.
      cbn [Nat.add].
      rewrite H3, length_slice, isValidEntityCode_three, H4;
        [reflexivity | apply length_slice; lia | lia | lia]. }
    rewrite Hne, <- HU, String.eqb_refl, Hl, H1, H2, Hrem.
    cbn [negb orb Nat.ltb Nat.leb filter existsb].
    rewrite Hsplit; reflexivity.
Qed.

(** ** Parsing an 11-character input *)

Lemma selectRule_five remainder :
  length remainder = 5 ->
  selectRule remainder
  = if isDigitsOnly (slice 0 2 remainder) && isValidEntityCode (suffix 2 remainder)
    then RuleEntity
    else if isAlpha (slice 0 1 remainder) && isDigits (suffix 1 remainder)
    then RuleNonBuilding
    else if isDigit (slice 0 1 remainder) && isAlpha (slice 1 2 remainder)
            && isDigits (suffix 2 remainder)
    then RuleCustomer
    else RuleDefault.
Proof. intros H; unfold selectRule; rewrite H; reflexivity. Qed.

Lemma populate_eleven clli r :
  length clli = 11 -> allBytes isAlnumByte clli = true ->
  populate clli r
  = if isDigitsOnly (slice 6 8 clli)
    then setCliType CLLITypeEntity
           (setEntityCode (slice 8 11 clli) (setNetworkSite (slice 6 8 clli) r))
    else if isAlpha (slice 6 7 clli) && isDigitsOnly (slice 7 11 clli)
    then setCliType CLLITypeNonBuilding
           (setLocationID (slice 7 11 clli) (setLocationCode (slice 6 7 clli) r))
    else if isDigit (slice 6 7 clli) && isAlpha (slice 7 8 clli)
            && isDigitsOnly (slice 8 11 clli)
    then setCliType CLLITypeCustomer
           (setCustomerID (slice 7 11 clli) (setCustomerCode (slice 6 7 clli) r))
    else setCliType CLLITypeEntity
           (setEntityCode (slice 8 11 clli) (setNetworkSite (slice 6 8 clli) r)).
Proof.
  intros Hl Ha.
  assert (Hrem : length (suffix 6 clli) = 5) by (rewrite length_suffix; lia).
  assert (H02 : slice 0 2 (suffix 6 clli) = slice 6 8 clli)
    by (rewrite slice_suffix by lia; reflexivity).
  assert (H01 : slice 0 1 (suffix 6 clli) = slice 6 7 clli)
    by (rewrite slice_suffix by lia; reflexivity).
  assert (H12 : slice 1 2 (suffix 6 clli) = slice 7 8 clli)
    by (rewrite slice_suffix by lia; reflexivity).
  assert (Hs1 : suffix 1 (suffix 6 clli) = slice 7 11 clli)
    by (rewrite suffix_suffix, suffix_as_slice, Hl by lia; reflexivity).
  assert (Hs2 : suffix 2 (suffix 6 clli) = slice 8 11 clli)
    by (rewrite suffix_suffix, suffix_as_slice, Hl by lia; reflexivity).
  assert (Hv : isValidEntityCode (slice 8 11 clli) = true).
  { rewrite isValidEntityCode_three by (apply length_slice; lia).
    apply allBytes_substring; assumption. }
  unfold populate; rewrite Hl; cbn [Nat.leb].
  rewrite selectRule_five, Hrem, H02, H01, H12, Hs1, Hs2, Hv, andb_true_r
    by assumption.
  cbn [Nat.leb Nat.ltb].
  unfold isDigits.
  destruct (isDigitsOnly (slice 6 8 clli)); [reflexivity|].
  destruct (isAlpha (slice 6 7 clli) && _); [reflexivity|].
  destruct (isDigit (slice 6 7 clli) && _ && _); reflexivity.
Qed.

Lemma validatePlace_none_letters place :
  allBytes isAlnumByte place = true -> validatePlace place = None ->
  isAlpha place = true.
Proof.
  intros Ha; unfold validatePlace.
  rewrite (TrimRightSpaces_alnum _ Ha).
  destruct (place =? ""); [discriminate|].
  destruct (length place =? 4)%nat eqn:Hl; [|discriminate].
  destruct (allBytes isUpperByte place) eqn:Hu; [|discriminate].
  intros _; apply Nat.eqb_eq in Hl; unfold isAlpha; rewrite Hu, Hl; reflexivity.
Qed.

Lemma validateRegion_none_letters region :
  validateRegion region = None -> isAlpha region = true.
Proof.
  unfold validateRegion.
  destruct (region =? ""); [discriminate|].
  destruct (length region =? 2)%nat eqn:Hl; [|discriminate].
  destruct (allBytes isUpperByte region) eqn:Hu; [|discriminate].
  intros _; apply Nat.eqb_eq in Hl; unfold isAlpha; rewrite Hu, Hl; reflexivity.
Qed.

Lemma isDigit_not_isAlpha s : isDigit s = true -> isAlpha s = false.
Proof.
  intros Hd; destruct (isAlpha s) eqn:Ha; [exfalso|reflexivity].
  apply (allBytes_pos_nonempty _ _ Ha), digits_and_letters_empty;
    [apply isDigit_digits, Hd | apply isAlpha_upper, Ha].
Qed.

(** An input accepted by a probe is made of letters and digits. *)
Lemma eleven_alnum clli a b :
  length clli = 11 ->
  allBytes isAlnumByte (slice 0 4 clli) = true ->
  allBytes isAlnumByte (slice 4 6 clli) = true ->
  allBytes isAlnumByte (slice 6 (6 + a) clli) = true ->
  allBytes isAlnumByte (slice (6 + a) (6 + a + b) clli) = true ->
  allBytes isAlnumByte (slice (6 + a + b) 11 clli) = true ->
  a + b <= 5 ->
  allBytes isAlnumByte clli = true.
Proof.
  intros Hl H1 H2 H3 H4 H5 Hab.
  rewrite <- (substring_full clli), Hl.
  apply (allBytes_substring_join _ clli 0 4 7); [exact H1|].
  apply (allBytes_substring_join _ clli 4 2 5); [exact H2|].
  replace 5 with (a + (b + (5 - a - b))) by lia.
  unfold slice in H3, H4, H5.
  apply allBytes_substring_join.
  { replace (6 + a - 6) with a in H3 by lia; exact H3. }
  apply allBytes_substring_join.
  { replace (6 + a + b - (6 + a)) with b in H4 by lia; exact H4. }
  replace (11 - (6 + a + b)) with (5 - a - b) in H5 by lia; exact H5.
Qed.

Lemma allBytes_substring_zero (p : ascii -> bool) :
  forall s n, allBytes p (substring n 0 s) = true.
Proof.
  induction s as [|c s IH]; intros [|n]; simpl; try reflexivity; apply IH.
Qed.

Lemma letters_alnum s : isAlpha s = true -> allBytes isAlnumByte s = true.
Proof.
  intros H; apply isAlpha_upper in H; revert H.
  apply allBytes_impl, upper_alnum.
Qed.

Lemma digits_alnum s : isDigitsOnly s = true -> allBytes isAlnumByte s = true.
Proof.
  intros H; apply isDigitsOnly_digits in H; revert H.
  apply allBytes_impl, digit_alnum.
Qed.

Lemma ParseWithOptions_Original clli opts c :
  ParseWithOptions clli opts = Parsed c ->
  Original c = preprocess (orDefault opts) clli.
Proof.
  intros H; apply ParseWithOptions_parsed in H as [_ H].
  apply parseInput_parsed in H as (_ & _ & _ & _ & _ & H).
  apply postValidate_parsed in H as [-> _].
  rewrite populate_Original; reflexivity.
Qed.

(** A successful parse of an input that preprocessing leaves unchanged. *)
Lemma ParseWithOptions_fixed clli opts c :
  ParseWithOptions clli opts = Parsed c ->
  preprocess (orDefault opts) clli = clli ->
  allBytes isAlnumByte clli = true
  /\ validatePlace (slice 0 4 clli) = None
  /\ (6 <= length clli -> validateRegion (slice 4 6 clli) = None)
  /\ c = populate clli (baseRecord clli).
Proof.
  intros H Hfix; apply ParseWithOptions_parsed in H as [_ H].
  rewrite Hfix in H.
  apply parseInput_parsed in H as (_ & _ & Ha & Hp & Hr & H).
  apply postValidate_parsed in H as [-> _]; auto.
Qed.

Lemma ParseWithOptions_eleven clli opts c :
  ParseWithOptions clli opts = Parsed c ->
  length clli = 11 -> allBytes isAlnumByte clli = true ->
  c = populate clli (baseRecord clli).
Proof.
  intros H Hl Ha.
  apply (ParseWithOptions_fixed _ _ _ H), preprocess_alnum, Ha.
Qed.

(** ** Claims *)

(** C10: under every configuration (nil options, and [TrimWhitespace] false,
    included), [ParseWithOptions] on the empty string or on a string made of
    white space only fails with [ErrEmptyInput] on field "input" at position
    0: the blank test trims whatever the options say and comes first.  White
    space only is stated for the ASCII white space of [asciiSpace], or, more
    generally, for any string that [strings.TrimSpace] empties. *)
Theorem blank_input_fails_with_empty_input clli opts :
  allBytes isSpaceByte clli = true \/ TrimSpace clli = "" ->
  ParseWithOptions clli opts
  = Failed (mkParseError clli 0 "input" ErrEmptyInput).
Proof.
  intros H.
  assert (Hb : TrimSpace clli = "").
  { destruct H as [H|H]; [apply TrimSpace_blank|]; assumption. }
  unfold ParseWithOptions; rewrite Hb; reflexivity.
Qed.

(** C9: for a non-blank input, [ParseWithOptions] fails with the length
    violation (field "length", position 0, [ErrInvalidCLLI]) exactly when the
    length of the preprocessed input is below 8 in strict mode, below 4 in
    relaxed mode, or above 15; and no other failure names the field
    "length". *)
Theorem length_violation_iff clli opts :
  TrimSpace clli <> "" ->
  let o := orDefault opts in
  let input := preprocess o clli in
  (ParseWithOptions clli opts
   = Failed (mkParseError clli 0 "length" ErrInvalidCLLI)
   <-> (Strict o = true /\ length input < 8)
       \/ (Strict o = false /\ length input < 4)
       \/ 15 < length input)
  /\ (forall e, ParseWithOptions clli opts = Failed e ->
        Field e = "length" ->
        e = mkParseError clli 0 "length" ErrInvalidCLLI).
Proof.
  intros Hnb o input.
  assert (Hrun : ParseWithOptions clli opts = parseInput clli (Strict o) input).
  { unfold ParseWithOptions; apply String.eqb_neq in Hnb; rewrite Hnb.
    reflexivity. }
  rewrite Hrun.
  assert (Hdec : ((Strict o = true /\ length input < 8)
                  \/ (Strict o = false /\ length input < 4)
                  \/ 15 < length input)
                 \/ ((if Strict o then 8 <= length input
                      else 4 <= length input) /\ length input <= 15)).
  { destruct (Strict o); lia. }
  split.
  - split.
    + intros Hf; destruct Hdec as [Hd|[Hlo Hhi]]; [assumption|].
      exfalso; apply (parseInput_within_bounds _ _ _ _ Hlo Hhi Hf); reflexivity.
    + apply parseInput_length_violation.
  - intros e Hf Hfield; destruct Hdec as [Hd|[Hlo Hhi]].
    + rewrite (parseInput_length_violation clli _ _ Hd) in Hf.
      injection Hf as <-; reflexivity.
    + exfalso; exact (parseInput_within_bounds _ _ _ _ Hlo Hhi Hf Hfield).
Qed.

(** C3 (as amended): on every input that parses, the record's [Original]
    field, which [String()] returns, is the preprocessed input: the input
    trimmed when [TrimWhitespace] is set, then uppercased when
    [NormalizeCase] is set.  It is the raw input only when preprocessing
    leaves the input unchanged. *)
Theorem original_is_preprocessed_input clli opts c :
  ParseWithOptions clli opts = Parsed c ->
  Original c = preprocess (orDefault opts) clli
  /\ CLLI_String c = Original c.
Proof.
  intros H; split; [|reflexivity].
  apply ParseWithOptions_Original; assumption.
Qed.

(** C6: with the default configuration, "MPLSMNMSDS1" parses as an Entity
    with place MPLS, region MN, network site MS and entity code DS1; the
    network site MS is letters, not digits, and the type comes from the
    final [else] of the classification chain. *)
Theorem mplsmnmsds1_is_entity_by_default_rule :
  Parse "MPLSMNMSDS1"
  = Parsed {| Original := "MPLSMNMSDS1"; Place := "MPLS"; Region := "MN";
              NetworkSite := "MS"; EntityCode := "DS1";
              LocationCode := ""; LocationID := "";
              CustomerCode := ""; CustomerID := "";
              cliType := CLLITypeEntity; valid := true |}
  /\ selectRule (suffix 6 "MPLSMNMSDS1") = RuleDefault
  /\ isAlpha "MS" = true
  /\ isDigitsOnly "MS" = false.
Proof. repeat split; vm_compute; reflexivity. Qed.

(** C2 (as amended): the table grammar of entity codes is checked in relaxed
    mode exactly as in strict mode.  Whenever the preprocessed input has 8
    characters or more, [ParseWithOptions] returns the same result with
    [Strict] false as with [Strict] true, the other options being equal; and
    whenever a parse, under any configuration, yields an Entity with a
    non-empty entity code, that code has exactly 3 characters and passes
    [validateEntityCode].  The [Strict] option only moves the minimum length
    from 4 to 8. *)
Theorem entity_code_checked_in_every_mode clli sv nc tw :
  (8 <= length (preprocess (mkParseOptions true sv nc tw) clli) ->
   ParseWithOptions clli (Some (mkParseOptions false sv nc tw))
   = ParseWithOptions clli (Some (mkParseOptions true sv nc tw)))
  /\ (forall opts c,
        ParseWithOptions clli opts = Parsed c ->
        cliType c = CLLITypeEntity -> EntityCode c <> "" ->
        length (EntityCode c) = 3 /\ validateEntityCode (EntityCode c) = None).
Proof.
  split.
  - intros H; unfold ParseWithOptions; simpl orDefault.
    destruct (TrimSpace clli =? ""); [reflexivity|].
    change (preprocess (mkParseOptions false sv nc tw) clli)
      with (preprocess (mkParseOptions true sv nc tw) clli).
    apply parseInput_strict_irrelevant; assumption.
  - intros opts c H Ht Hne.
    apply ParseWithOptions_parsed in H as [_ H].
    apply parseInput_parsed in H as (_ & _ & _ & _ & _ & H).
    apply postValidate_parsed in H as [-> H]; auto.
Qed.

(** C4 (as amended): on every successful parse the type is one of Entity,
    NonBuilding and Customer, and the fields of at most one trailing payload
    are populated, as the type says.  An Entity has a network site (its
    entity code may be absent) and empty location and customer fields.  A
    NonBuilding has empty entity-code and customer fields, and either a
    location code and a location ID with no network site, or neither of them
    (the 8-character form, which keeps its two digits as network site, and
    inputs shorter than 8).  A Customer has empty location fields, and either
    a customer code and a customer ID with no network site or entity code,
    or (the 15-character form) a network site and an entity code with empty
    customer fields. *)
Theorem payload_follows_type clli opts c :
  ParseWithOptions clli opts = Parsed c ->
  match cliType c with
  | CLLITypeEntity =>
      NetworkSite c <> ""
      /\ LocationCode c = "" /\ LocationID c = ""
      /\ CustomerCode c = "" /\ CustomerID c = ""
  | CLLITypeNonBuilding =>
      EntityCode c = "" /\ CustomerCode c = "" /\ CustomerID c = ""
      /\ ((LocationCode c <> "" /\ LocationID c <> "" /\ NetworkSite c = "")
          \/ (LocationCode c = "" /\ LocationID c = ""))
  | CLLITypeCustomer =>
      LocationCode c = "" /\ LocationID c = ""
      /\ ((CustomerCode c <> "" /\ CustomerID c <> ""
           /\ NetworkSite c = "" /\ EntityCode c = "")
          \/ (CustomerCode c = "" /\ CustomerID c = ""
              /\ NetworkSite c <> "" /\ EntityCode c <> ""))
  | CLLITypeUnknown => False
  end.
Proof.
  intros H; apply ParseWithOptions_parsed in H as [_ H].
  apply parseInput_parsed in H as (_ & _ & _ & _ & _ & H).
  apply postValidate_parsed in H as [-> _].
  set (input := preprocess (orDefault opts) clli).
  unfold populate.
  destruct (8 <=? length input)%nat eqn:H8; [|simpl; tauto].
  apply Nat.leb_le in H8.
  assert (Hrem : length (suffix 6 input) = length input - 6)
    by (apply length_suffix; lia).
  set (remainder := suffix 6 input) in *.
  pose proof (selectRule_cases remainder) as Hrule.
  destruct (selectRule remainder).
  - destruct Hrule as [H9 Hd]; simpl; repeat split.
    right; repeat split.
    + eapply allBytes_pos_nonempty; exact Hd.
    + apply length_pos_nonempty; rewrite length_suffix; lia.
  - destruct Hrule as (_ & Hd & _); simpl; repeat split.
    eapply allBytes_pos_nonempty; exact Hd.
  - destruct Hrule as (_ & Ha & Hd); simpl; repeat split.
    left; repeat split; eapply allBytes_pos_nonempty; eassumption.
  - destruct Hrule as (H5 & Hd & _); simpl; repeat split.
    left; repeat split.
    + apply isDigit_nonempty; assumption.
    + apply length_pos_nonempty; rewrite length_suffix; lia.
  - simpl; repeat split; right; split; reflexivity.
  - assert (H2 : (2 <=? length remainder)%nat = true)
      by (apply Nat.leb_le; lia).
    rewrite H2.
    assert (Hns : slice 0 2 remainder <> "").
    { apply length_pos_nonempty; rewrite length_slice; lia. }
    destruct (2 <? length remainder)%nat; simpl; repeat split; assumption.
Qed.

(** C5 (as amended): under strict validation, a 3-character code made of two
    digits and an alphanumeric character is valid exactly when that character
    is one of 1, 2, A, Z (the numeric variants of Table B), T (the T-suffix
    pattern) or B (Table C); two digits followed by any other letter or digit
    are rejected. *)
Theorem two_digit_entity_code_valid_iff d1 d2 c :
  isDigitByte d1 = true -> isDigitByte d2 = true -> isAlnumByte c = true ->
  ValidateEntityCode (String d1 (String d2 (String c ""))) true = None
  <-> In c ["1"; "2"; "A"; "Z"; "T"; "B"]%char.
Proof.
  intros H1 H2 Hc.
  change (ValidateEntityCode (String d1 (String d2 (String c ""))) true)
    with (validateEntityCode (String d1 (String d2 (String c "")))).
  pose proof two_digit_codes_enumerated as Hall.
  rewrite forallb_forall in Hall.
  specialize (Hall _ (digit_in_digitBytes _ H1)); rewrite forallb_forall in Hall.
  specialize (Hall _ (digit_in_digitBytes _ H2)); rewrite forallb_forall in Hall.
  assert (Hin : In c (digitBytes ++ upperBytes))
    by (apply in_or_app, alnum_cases, Hc).
  specialize (Hall _ Hin); apply Bool.eqb_prop in Hall.
  unfold entityCodeAccepted in Hall.
  split.
  - intros Hv; rewrite Hv in Hall; symmetry in Hall.
    apply existsb_exists in Hall as (x & Hx & Heq).
    apply Ascii.eqb_eq in Heq; subst x; assumption.
  - intros Hl.
    assert (He : existsb (Ascii.eqb c) ["1"; "2"; "A"; "Z"; "T"; "B"]%char = true).
    { apply existsb_exists; exists c; split; [assumption | apply Ascii.eqb_refl]. }
    rewrite He in Hall.
    destruct (validateEntityCode _); [discriminate | reflexivity].
Qed.

(** C7: an 8-character input whose first 4 characters are letters, whose next
    2 are a recognized region code and whose last 2 are digits parses, under
    every configuration, as a NonBuilding whose network site is those 2
    digits, with no entity, location or customer field. *)
Theorem eight_characters_with_digits_is_nonbuilding clli opts :
  length clli = 8 ->
  isAlpha (slice 0 4 clli) = true ->
  inSet (slice 4 6 clli) validRegions = true ->
  isDigitsOnly (slice 6 8 clli) = true ->
  ParseWithOptions clli opts
  = Parsed {| Original := clli;
              Place := slice 0 4 clli; Region := slice 4 6 clli;
              NetworkSite := slice 6 8 clli; EntityCode := "";
              LocationCode := ""; LocationID := "";
              CustomerCode := ""; CustomerID := "";
              cliType := CLLITypeNonBuilding; valid := true |}.
Proof.
  intros Hlen Hplace Hregion Hsite.
  pose proof (validateRegion_recognized _ Hregion) as Hvr.
  assert (Hp : allBytes isAlnumByte (slice 0 4 clli) = true).
  { apply isAlpha_upper in Hplace; revert Hplace.
    apply allBytes_impl, upper_alnum. }
  assert (Hr : allBytes isAlnumByte (slice 4 6 clli) = true).
  { unfold validateRegion in Hvr.
    destruct (slice 4 6 clli =? ""); [discriminate|].
    destruct (negb (length (slice 4 6 clli) =? 2)%nat); [discriminate|].
    destruct (allBytes isUpperByte (slice 4 6 clli)) eqn:Hu; [|discriminate].
    revert Hu; apply allBytes_impl, upper_alnum. }
  assert (Hs : allBytes isAlnumByte (slice 6 8 clli) = true).
  { apply isDigitsOnly_digits in Hsite; revert Hsite.
    apply allBytes_impl, digit_alnum. }
  assert (Hall : allBytes isAlnumByte clli = true).
  { rewrite <- (substring_full clli), Hlen.
    apply (allBytes_substring_join _ clli 0 4 4); [exact Hp|].
    apply (allBytes_substring_join _ clli 4 2 2); [exact Hr | exact Hs]. }
  assert (Hne : (TrimSpace clli =? "") = false).
  { rewrite (TrimSpace_alnum _ Hall).
    apply String.eqb_neq, length_pos_nonempty; lia. }
  unfold ParseWithOptions; rewrite Hne, (preprocess_alnum _ _ Hall).
  assert (Hsuf : suffix 6 clli = slice 6 8 clli)
    by (unfold suffix, slice; rewrite Hlen; reflexivity).
  assert (Hcheck : checkNetworkSite clli = None).
  { unfold checkNetworkSite; rewrite Hlen; cbn [Nat.leb Nat.ltb length andb].
    apply validateNetworkSiteAlphanumeric_alnum; [|exact Hs].
    apply length_slice; lia. }
  assert (Hpop : populate clli (baseRecord clli)
                 = {| Original := clli;
                      Place := slice 0 4 clli; Region := slice 4 6 clli;
                      NetworkSite := slice 6 8 clli; EntityCode := "";
                      LocationCode := ""; LocationID := "";
                      CustomerCode := ""; CustomerID := "";
                      cliType := CLLITypeNonBuilding; valid := true |}).
  { unfold populate, baseRecord; rewrite Hlen; cbn [Nat.leb].
    rewrite Hsuf, selectRule_two_digits, (TrimRightSpaces_alnum _ Hp);
      [reflexivity | apply length_slice; lia | exact Hsite]. }
  unfold parseInput; rewrite Hlen; cbn [Nat.leb Nat.ltb].
  rewrite !andb_false_r.
  rewrite (proj2 (firstOutside_none isAlnumByte clli 0) Hall).
  rewrite validatePlace_letters, Hvr, Hcheck, Hpop;
    [reflexivity | apply length_slice; lia | apply isAlpha_upper, Hplace].
Qed.

(** C8: on every input string, at most one of the three shape probes
    [IsEntityCLLI], [IsNonBuildingCLLI] and [IsCustomerCLLI] returns true. *)
Theorem probes_mutually_exclusive clli :
  IsEntityCLLI clli && IsNonBuildingCLLI clli = false
  /\ IsEntityCLLI clli && IsCustomerCLLI clli = false
  /\ IsNonBuildingCLLI clli && IsCustomerCLLI clli = false.
Proof.
  repeat split.
  - destruct (IsEntityCLLI clli) eqn:He; [|reflexivity].
    destruct (IsNonBuildingCLLI clli) eqn:Hn; [exfalso|reflexivity].
    apply IsEntityCLLI_true in He as (_ & _ & _ & _ & Hd & _).
    apply IsNonBuildingCLLI_true in Hn as (_ & _ & _ & _ & Ha & _).
    apply isDigitsOnly_digits in Hd.
    pose proof (letters_inside_digits 0 1 6 8 clli ltac:(lia) ltac:(lia) Hd)
      as Hx.
    cbn [Nat.add] in Hx; congruence.
  - destruct (IsEntityCLLI clli) eqn:He; [|reflexivity].
    destruct (IsCustomerCLLI clli) eqn:Hc; [exfalso|reflexivity].
    apply IsEntityCLLI_true in He as (_ & _ & _ & _ & Hd & _).
    apply IsCustomerCLLI_true in Hc as (_ & _ & _ & _ & _ & Ha & _).
    apply isDigitsOnly_digits in Hd.
    pose proof (letters_inside_digits 1 2 6 8 clli ltac:(lia) ltac:(lia) Hd)
      as Hx.
    cbn [Nat.add] in Hx; congruence.
  - destruct (IsNonBuildingCLLI clli) eqn:Hn; [|reflexivity].
    destruct (IsCustomerCLLI clli) eqn:Hc; [exfalso|reflexivity].
    apply IsNonBuildingCLLI_true in Hn as (_ & _ & _ & _ & Ha & _).
    apply IsCustomerCLLI_true in Hc as (_ & _ & _ & _ & Hd & _).
    pose proof (allBytes_pos_nonempty _ _ Ha) as Hne.
    apply Hne, digits_and_letters_empty;
      [apply isDigit_digits, Hd | apply isAlpha_upper, Ha].
Qed.

(** C1 (as amended): the probes and the parser agree in this sense.  When
    an input parses and a probe returns true on it, the parsed type is the
    probe's type.  Conversely, when an input of 11 characters parses and is
    kept unchanged by preprocessing (the record's [Original] is the input
    itself), the probe of the parsed type returns true: for NonBuilding and
    Customer always, for Entity when the network site is two digits.  What
    [IsEntityCLLI] answers on an Entity whose network site has a letter is
    left open: the statement neither promises nor denies it. *)
Theorem probes_agree_with_parse clli opts c :
  ParseWithOptions clli opts = Parsed c ->
  ((IsEntityCLLI clli = true -> cliType c = CLLITypeEntity)
   /\ (IsNonBuildingCLLI clli = true -> cliType c = CLLITypeNonBuilding)
   /\ (IsCustomerCLLI clli = true -> cliType c = CLLITypeCustomer))
  /\ (Original c = clli -> length clli = 11 ->
      (cliType c = CLLITypeEntity -> isDigitsOnly (NetworkSite c) = true ->
       IsEntityCLLI clli = true)
      /\ (cliType c = CLLITypeNonBuilding -> IsNonBuildingCLLI clli = true)
      /\ (cliType c = CLLITypeCustomer -> IsCustomerCLLI clli = true)).
Proof.
  intros Hparse; split; [repeat split|].
  - intros Hp; apply IsEntityCLLI_true in Hp as (_ & Hl & H1 & H2 & H3 & H4).
    assert (Ha : allBytes isAlnumByte clli = true).
    { apply (eleven_alnum clli 2 3 Hl); try lia;
        auto using letters_alnum, digits_alnum.
      apply (allBytes_substring_zero _ clli 11). }
    rewrite (ParseWithOptions_eleven _ _ _ Hparse Hl Ha), (populate_eleven _ _ Hl Ha), H3.
    reflexivity.
  - intros Hp; apply IsNonBuildingCLLI_true in Hp as (_ & Hl & H1 & H2 & H3 & H4).
    assert (Ha : allBytes isAlnumByte clli = true).
    { apply (eleven_alnum clli 1 4 Hl); try lia;
        auto using letters_alnum, digits_alnum.
      apply (allBytes_substring_zero _ clli 11). }
    assert (H5 : isDigitsOnly (slice 6 8 clli) = false).
    { unfold isDigitsOnly.
      rewrite (digits_inside_letters_not_digits 0 1 6 8 clli); auto; lia. }
    rewrite (ParseWithOptions_eleven _ _ _ Hparse Hl Ha), (populate_eleven _ _ Hl Ha).
    rewrite H5, H3, H4; reflexivity.
  - intros Hp; apply IsCustomerCLLI_true in Hp as (_ & Hl & H1 & H2 & H3 & H4 & H5).
    assert (Ha : allBytes isAlnumByte clli = true).
    { apply (eleven_alnum clli 1 1 Hl); try lia;
        auto using letters_alnum, digits_alnum.
      apply isDigit_digits in H3; revert H3.
      apply allBytes_impl, digit_alnum. }
    assert (H6 : isDigitsOnly (slice 6 8 clli) = false).
    { unfold isDigitsOnly.
      rewrite (digits_inside_letters_not_digits 1 2 6 8 clli); auto; lia. }
    rewrite (ParseWithOptions_eleven _ _ _ Hparse Hl Ha), (populate_eleven _ _ Hl Ha).
    rewrite H6, (isDigit_not_isAlpha _ H3), H3, H4, H5; reflexivity.
  - intros Horig Hl.
    assert (Hfix : preprocess (orDefault opts) clli = clli).
    { rewrite <- (ParseWithOptions_Original _ _ _ Hparse); exact Horig. }
    destruct (ParseWithOptions_fixed _ _ _ Hparse Hfix) as (Ha & Hp & Hr & Hc).
    apply (validatePlace_none_letters _ (allBytes_substring _ _ _ _ Ha)) in Hp.
    specialize (Hr ltac:(lia)); apply validateRegion_none_letters in Hr.
    pose proof (ToUpper_alnum _ Ha) as HU; symmetry in HU.
    assert (Hv : allBytes isAlnumByte (slice 8 11 clli) = true)
      by (apply allBytes_substring, Ha).
    rewrite (populate_eleven _ _ Hl Ha) in Hc.
    destruct (isDigitsOnly (slice 6 8 clli)) eqn:E1.
    { subst c; simpl; repeat split; try discriminate.
      intros _ _; apply IsEntityCLLI_true; auto 10. }
    destruct (isAlpha (slice 6 7 clli) && isDigitsOnly (slice 7 11 clli)) eqn:E2.
    { apply andb_prop in E2 as [E2 E3].
      subst c; simpl; repeat split; try discriminate.
      intros _; apply IsNonBuildingCLLI_true; auto 10. }
    destruct (isDigit (slice 6 7 clli) && isAlpha (slice 7 8 clli)
              && isDigitsOnly (slice 8 11 clli)) eqn:E3.
    { apply andb_prop in E3 as [E3 E5]; apply andb_prop in E3 as [E3 E4].
      subst c; simpl; repeat split; try discriminate.
      intros _; apply IsCustomerCLLI_true; auto 10. }
    subst c; simpl; repeat split; try discriminate.
    intros _ Hd; rewrite E1 in Hd; discriminate.
Qed.

(** ** Further facts about strings *)

Lemma append_empty_r : forall s, s ++ "" = s.
Proof. induction s as [|c s IH]; simpl; [|rewrite IH]; reflexivity. Qed.

Lemma allBytes_append (p : ascii -> bool) :
  forall s t, allBytes p (s ++ t) = allBytes p s && allBytes p t.
Proof.
  induction s as [|c s IH]; intros t; simpl; [reflexivity|].
  rewrite IH, andb_assoc; reflexivity.
Qed.

Lemma length_append : forall s t, length (s ++ t) = length s + length t.
Proof. induction s as [|c s IH]; intros t; simpl; [|rewrite IH]; reflexivity. Qed.

Lemma substring_append :
  forall s n m k,
    substring n m s ++ substring (n + m) k s = substring n (m + k) s.
Proof.
  induction s as [|c s IH]; intros n m k.
  - destruct n, m, k; reflexivity.
  - destruct n as [|n]; simpl.
    + destruct m as [|m]; simpl; [reflexivity|].
      f_equal; apply (IH 0).
    + apply IH.
Qed.

Lemma slice_append a b c s :
  a <= b -> b <= c -> slice a b s ++ slice b c s = slice a c s.
Proof.
  intros Hab Hbc; unfold slice.
  replace b with (a + (b - a)) at 2 by lia.
  rewrite substring_append; f_equal; lia.
Qed.

Lemma slice_suffix_append a b s :
  a <= b -> b <= length s -> slice a b s ++ suffix b s = suffix a s.
Proof.
  intros Hab Hb; rewrite !suffix_as_slice; apply slice_append; assumption.
Qed.

Lemma suffix_zero s : suffix 0 s = s.
Proof. unfold suffix; rewrite Nat.sub_0_r; apply substring_full. Qed.

Lemma byteAt_cons c s i : byteAt (S i) (String c s) = byteAt i s.
Proof. reflexivity. Qed.

(** The first offset outside a class: the bytes before it are inside, the
    byte at it is not. *)
Lemma firstOutside_some (p : ascii -> bool) :
  forall s k i,
    firstOutside p k s = Some i <->
    exists j, i = k + j /\ j < length s /\ p (byteAt j s) = false
              /\ allBytes p (substring 0 j s) = true.
Proof.
  induction s as [|c s IH]; intros k i; simpl.
  - split; [discriminate|]; intros (j & _ & Hj & _); lia.
  - destruct (p c) eqn:Hc.
    + rewrite IH; split.
      * intros (j & -> & Hj & Hb & Ha); exists (S j); repeat split.
        -- lia.
        -- lia.
        -- exact Hb.
        -- simpl; rewrite Hc; exact Ha.
      * intros (j & -> & Hj & Hb & Ha).
        destruct j as [|j].
        -- unfold byteAt in Hb; simpl in Hb; congruence.
        -- exists j; repeat split; try lia.
           ++ exact Hb.
           ++ simpl in Ha; rewrite Hc in Ha; exact Ha.
    + split.
      * intros [= <-]; exists 0; repeat split; try lia.
        unfold byteAt; simpl; exact Hc.
      * intros (j & -> & Hj & Hb & Ha).
        destruct j as [|j]; [f_equal; lia|].
        simpl in Ha; rewrite Hc in Ha; discriminate.
Qed.

Lemma firstOutside_first (p : ascii -> bool) s k :
  firstOutside p 0 s = Some k <->
  k < length s /\ p (byteAt k s) = false
  /\ allBytes p (slice 0 k s) = true.
Proof.
  rewrite firstOutside_some; unfold slice; rewrite Nat.sub_0_r.
  split.
  - intros (j & -> & H); exact H.
  - intros H; exists k; split; [reflexivity | exact H].
Qed.

(** ** Failures of the parser *)

Lemma validateNetworkSiteDigitsOnly_digits site :
  length site = 2 -> allBytes isDigitByte site = true ->
  validateNetworkSiteDigitsOnly site = None.
Proof.
  intros Hl Ha; unfold validateNetworkSiteDigitsOnly.
  assert (Hne : (site =? "") = false).
  { apply String.eqb_neq, length_pos_nonempty; lia. }
  rewrite Hne, Hl, Ha; reflexivity.
Qed.

Lemma checkNetworkSite_alnum input :
  allBytes isAlnumByte input = true -> checkNetworkSite input = None.
Proof.
  intros Ha; unfold checkNetworkSite.
  destruct (8 <=? length input)%nat eqn:H8; [|reflexivity].
  apply Nat.leb_le in H8.
  assert (Hl : length (slice 6 8 input) = 2) by (apply length_slice; lia).
  destruct ((2 <=? _)%nat && allBytes isDigitByte (slice 6 8 input)) eqn:Hd.
  - apply andb_prop in Hd as [_ Hd].
    apply validateNetworkSiteDigitsOnly_digits; assumption.
  - apply validateNetworkSiteAlphanumeric_alnum; [assumption|].
    apply allBytes_substring; assumption.
Qed.

Lemma parseInput_failed clli (strict : bool) input e :
  parseInput clli strict input = Failed e ->
  Input e = clli
  /\ ((Field e = "length" /\ Position e = 0 /\ Err e = ErrInvalidCLLI)
      \/ (Field e = "characters" /\ Err e = ErrInvalidCLLI
          /\ firstOutside isAlnumByte 0 input = Some (Position e))
      \/ (Field e = "place" /\ Position e = 0 /\ Err e = ErrInvalidPlace)
      \/ (Field e = "region" /\ Position e = 4 /\ Err e = ErrInvalidRegion)
      \/ (Field e = "entity_code" /\ Position e = 8
          /\ Err e = ErrInvalidEntity)).
Proof.
  unfold parseInput.
  destruct (strict && _); [intros [= <-]; simpl; auto 10|].
  destruct (negb strict && _); [intros [= <-]; simpl; auto 10|].
  destruct (15 <? length input)%nat; [intros [= <-]; simpl; auto 10|].
  destruct (firstOutside isAlnumByte 0 input) eqn:Hf;
    [intros [= <-]; simpl; auto 10|].
  apply firstOutside_none in Hf.
  destruct (validatePlace _); [intros [= <-]; simpl; auto 10|].
  destruct (if (4 <? length input)%nat then _ else None);
    [intros [= <-]; simpl; auto 10|].
  rewrite (checkNetworkSite_alnum _ Hf).
  unfold postValidate.
  destruct (isEntityType _ && _); [|discriminate].
  destruct ((_ <? 2)%nat || _); [intros [= <-]; simpl; auto 10|].
  destruct (validateEntityCode _); [intros [= <-]; simpl; auto 10|discriminate].
Qed.

Lemma postValidate_input_irrelevant clli clli' r c :
  postValidate clli r = Parsed c -> postValidate clli' r = Parsed c.
Proof.
  unfold postValidate.
  destruct (isEntityType _ && _); [|auto].
  destruct ((_ <? 2)%nat || _); [discriminate|].
  destruct (validateEntityCode _); [discriminate|auto].
Qed.

Lemma parseInput_input_irrelevant clli clli' strict input c :
  parseInput clli strict input = Parsed c ->
  parseInput clli' strict input = Parsed c.
Proof.
  unfold parseInput.
  destruct (strict && _); [discriminate|].
  destruct (negb strict && _); [discriminate|].
  destruct (15 <? length input)%nat; [discriminate|].
  destruct (firstOutside isAlnumByte 0 input); [discriminate|].
  destruct (validatePlace _); [discriminate|].
  destruct (if (4 <? length input)%nat then _ else None); [discriminate|].
  destruct (checkNetworkSite input); [discriminate|].
  apply postValidate_input_irrelevant.
Qed.

(** ** Further properties of the engine *)

(** X1: every failure of [ParseWithOptions] reports the raw input, and is one
    of six kinds, each with its field, position and error: empty input
    (position 0), length (0), characters (an offset inside the preprocessed
    input), place (0), region (4) and entity code (8).  The network-site
    failure of the source is never returned. *)
Theorem failure_kinds clli opts e :
  ParseWithOptions clli opts = Failed e ->
  Input e = clli
  /\ Field e <> "network_site"
  /\ ((Field e = "input" /\ Position e = 0 /\ Err e = ErrEmptyInput)
      \/ (Field e = "length" /\ Position e = 0 /\ Err e = ErrInvalidCLLI)
      \/ (Field e = "characters" /\ Err e = ErrInvalidCLLI
          /\ Position e < length (preprocess (orDefault opts) clli))
      \/ (Field e = "place" /\ Position e = 0 /\ Err e = ErrInvalidPlace)
      \/ (Field e = "region" /\ Position e = 4 /\ Err e = ErrInvalidRegion)
      \/ (Field e = "entity_code" /\ Position e = 8
          /\ Err e = ErrInvalidEntity)).
Proof.
  unfold ParseWithOptions.
  destruct (TrimSpace clli =? "").
  - intros [= <-]; simpl; repeat split; [discriminate | auto 10].
  - intros H; apply parseInput_failed in H as [Hi H]; split; [exact Hi|].
    destruct H as [H|[H|[H|[H|H]]]].
    + destruct H as (Hf & ? & ?); rewrite Hf; split; [discriminate|auto 10].
    + destruct H as (Hf & ? & Hp); rewrite Hf; split; [discriminate|].
      apply firstOutside_some in Hp as (j & Hj & Hlt & _).
      right; right; left; repeat split; auto; simpl in Hj; lia.
    + destruct H as (Hf & ? & ?); rewrite Hf; split; [discriminate|auto 10].
    + destruct H as (Hf & ? & ?); rewrite Hf; split; [discriminate|auto 10].
    + destruct H as (Hf & ? & ?); rewrite Hf; split; [discriminate|auto 10].
Qed.

(** X2: [ParseWithOptions] fails with the character violation at position
    [i] exactly when the input is not blank, the preprocessed input passes
    the length checks, its byte at offset [i] is outside A-Z and 0-9, and
    every byte before [i] is inside: the reported position is the first
    offending offset, whatever field it falls in. *)
Theorem character_violation_iff clli opts i :
  let o := orDefault opts in
  let input := preprocess o clli in
  ParseWithOptions clli opts
  = Failed (mkParseError clli i "characters" ErrInvalidCLLI)
  <-> TrimSpace clli <> ""
      /\ (if Strict o then 8 <= length input else 4 <= length input)
      /\ length input <= 15
      /\ i < length input
      /\ isAlnumByte (byteAt i input) = false
      /\ allBytes isAlnumByte (slice 0 i input) = true.
Proof.
  intros o input; unfold ParseWithOptions; fold o; fold input.
  split.
  - destruct (TrimSpace clli =? "") eqn:Hb; [discriminate|].
    apply String.eqb_neq in Hb; intros H; split; [exact Hb|].
    unfold parseInput in H.
    destruct (Strict o && (length input <? 8)%nat) eqn:H1; [discriminate|].
    destruct (negb (Strict o) && (length input <? 4)%nat) eqn:H2;
      [discriminate|].
    destruct (15 <? length input)%nat eqn:H3; [discriminate|].
    apply Nat.ltb_ge in H3.
    assert (Hlo : if Strict o then 8 <= length input else 4 <= length input).
    { destruct (Strict o); simpl in H1, H2; apply Nat.ltb_ge; assumption. }
    split; [exact Hlo|]; split; [exact H3|].
    destruct (firstOutside isAlnumByte 0 input) as [k|] eqn:Hf.
    + injection H as ->; apply firstOutside_first; exact Hf.
    + exfalso.
      destruct (validatePlace _); [discriminate|].
      destruct (if (4 <? length input)%nat then _ else None); [discriminate|].
      destruct (checkNetworkSite input); [discriminate|].
      apply postValidate_field in H; discriminate.
  - intros (Hb & Hlo & Hhi & Hi); apply String.eqb_neq in Hb; rewrite Hb.
    apply firstOutside_first in Hi; unfold parseInput.
    assert (H1 : Strict o && (length input <? 8)%nat = false).
    { destruct (Strict o); [apply Nat.ltb_ge; assumption | reflexivity]. }
    assert (H2 : negb (Strict o) && (length input <? 4)%nat = false).
    { destruct (Strict o); [reflexivity | apply Nat.ltb_ge; assumption]. }
    assert (H3 : (15 <? length input)%nat = false)
      by (apply Nat.ltb_ge; assumption).
    rewrite H1, H2, H3, Hi; reflexivity.
Qed.

(** X3: parsing is idempotent on its own output: when an input parses to a
    record, parsing the record's [Original] under the same options gives the
    same record. *)
Theorem reparse_original clli opts c :
  ParseWithOptions clli opts = Parsed c ->
  ParseWithOptions (Original c) opts = Parsed c.
Proof.
  intros H.
  pose proof (ParseWithOptions_Original _ _ _ H) as Ho.
  apply ParseWithOptions_parsed in H as [_ H].
  pose proof (parseInput_parsed _ _ _ _ H) as (Hlo & _ & Ha & _).
  rewrite <- Ho in H, Ha, Hlo.
  unfold ParseWithOptions.
  rewrite (preprocess_alnum _ _ Ha), (TrimSpace_alnum _ Ha).
  assert (Hne : (Original c =? "") = false).
  { apply String.eqb_neq, length_pos_nonempty.
    destruct (Strict (orDefault opts)); lia. }
  rewrite Hne; revert H; apply parseInput_input_irrelevant.
Qed.

(** ** The forms of a parsed record *)

Lemma selectRule_default_inv remainder :
  selectRule remainder = RuleDefault ->
  (5 <=? length remainder)%nat && isDigitsOnly (slice 0 2 remainder)
    && isValidEntityCode (suffix 2 remainder) = false
  /\ (length remainder =? 2)%nat && isDigitsOnly remainder = false.
Proof.
  unfold selectRule.
  destruct ((length remainder =? 9)%nat && _); [discriminate|].
  destruct ((5 <=? length remainder)%nat && isDigitsOnly _ && _);
    [discriminate|].
  destruct ((5 <=? length remainder)%nat && isAlpha _ && _); [discriminate|].
  destruct ((5 <=? length remainder)%nat && isDigit _ && _ && _);
    [discriminate|].
  destruct ((length remainder =? 2)%nat && _); [discriminate|].
  auto.
Qed.

Lemma validateRegion_none_recognized region :
  validateRegion region = None -> inSet region validRegions = true.
Proof.
  unfold validateRegion.
  destruct (region =? ""); [discriminate|].
  destruct (negb (length region =? 2)%nat); [discriminate|].
  destruct (negb (allBytes isUpperByte region)); [discriminate|].
  destruct (inSet region validRegions); [reflexivity | discriminate].
Qed.

Lemma validateRegion_padded s n :
  validateRegion (s ++ Repeat " " (S n)) <> None.
Proof.
  intros H; apply validateRegion_none_letters, isAlpha_upper in H.
  rewrite allBytes_append in H; simpl in H.
  rewrite andb_false_r in H; discriminate.
Qed.

(** The region test of [parseInput], kept with its padding. *)
Lemma parseInput_parsed_region clli strict input c :
  parseInput clli strict input = Parsed c ->
  length input = 4 \/ 6 <= length input.
Proof.
  unfold parseInput.
  destruct (strict && (length input <? 8)%nat) eqn:H1; [discriminate|].
  destruct (negb strict && (length input <? 4)%nat) eqn:H2; [discriminate|].
  destruct (15 <? length input)%nat; [discriminate|].
  destruct (firstOutside isAlnumByte 0 input); [discriminate|].
  destruct (validatePlace _); [discriminate|].
  assert (H4 : 4 <= length input).
  { destruct strict; simpl in H1, H2;
      [apply Nat.ltb_ge in H1 | apply Nat.ltb_ge in H2]; lia. }
  destruct (Nat.eq_dec (length input) 5) as [H5|H5]; [|intros _; lia].
  rewrite H5; cbn [Nat.leb Nat.ltb Nat.sub].
  destruct (validateRegion _) eqn:Hr; [discriminate|].
  exfalso; exact (validateRegion_padded _ _ Hr).
Qed.

Lemma baseRecord_long input :
  6 <= length input -> isAlpha (slice 0 4 input) = true ->
  baseRecord input = recordOf input "" "" "" "" "" "" CLLITypeUnknown.
Proof.
  intros H6 Hp; unfold baseRecord, recordOf.
  apply Nat.leb_le in H6; rewrite H6.
  rewrite (TrimRightSpaces_alnum _ (letters_alnum _ Hp)); reflexivity.
Qed.

Lemma populate_long input r :
  8 <= length input ->
  populate input r
  = match selectRule (suffix 6 input) with
    | RuleCustomer15 =>
        setCliType CLLITypeCustomer
          (setEntityCode (suffix 8 input) (setNetworkSite (slice 6 8 input) r))
    | RuleEntity =>
        setCliType CLLITypeEntity
          (setEntityCode (suffix 8 input) (setNetworkSite (slice 6 8 input) r))
    | RuleNonBuilding =>
        setCliType CLLITypeNonBuilding
          (setLocationID (suffix 7 input) (setLocationCode (slice 6 7 input) r))
    | RuleCustomer =>
        setCliType CLLITypeCustomer
          (setCustomerID (suffix 7 input) (setCustomerCode (slice 6 7 input) r))
    | RuleNonBuilding8 =>
        setCliType CLLITypeNonBuilding (setNetworkSite (suffix 6 input) r)
    | RuleDefault =>
        setCliType CLLITypeEntity
          (if (8 <? length input)%nat
           then setEntityCode (suffix 8 input)
                  (setNetworkSite (slice 6 8 input) r)
           else setNetworkSite (slice 6 8 input) r)
    end.
Proof.
  intros H8; unfold populate.
  assert (Hrem : length (suffix 6 input) = length input - 6)
    by (apply length_suffix; lia).
  assert (H02 : slice 0 2 (suffix 6 input) = slice 6 8 input)
    by (rewrite slice_suffix by lia; reflexivity).
  assert (H01 : slice 0 1 (suffix 6 input) = slice 6 7 input)
    by (rewrite slice_suffix by lia; reflexivity).
  assert (Hs1 : suffix 1 (suffix 6 input) = suffix 7 input)
    by (rewrite suffix_suffix by lia; reflexivity).
  assert (Hs2 : suffix 2 (suffix 6 input) = suffix 8 input)
    by (rewrite suffix_suffix by lia; reflexivity).
  assert (H2 : (2 <=? length (suffix 6 input))%nat = true)
    by (apply Nat.leb_le; lia).
  assert (H3 : (2 <? length (suffix 6 input))%nat = (8 <? length input)%nat).
  { rewrite Hrem; destruct (8 <? length input)%nat eqn:E.
    - apply Nat.ltb_lt in E; apply Nat.ltb_lt; lia.
    - apply Nat.ltb_ge in E; apply Nat.ltb_ge; lia. }
  apply Nat.leb_le in H8; rewrite H8, H02, H01, Hs1, Hs2, H2, H3.
  destruct (selectRule (suffix 6 input)); reflexivity.
Qed.

Lemma selectRule_long_cases input :
  8 <= length input ->
  match selectRule (suffix 6 input) with
  | RuleCustomer15 =>
      length input = 15 /\ isDigits (slice 6 8 input) = true
  | RuleEntity =>
      11 <= length input /\ isDigitsOnly (slice 6 8 input) = true
      /\ isValidEntityCode (suffix 8 input) = true
  | RuleNonBuilding =>
      11 <= length input /\ isAlpha (slice 6 7 input) = true
      /\ isDigits (suffix 7 input) = true
  | RuleCustomer =>
      11 <= length input /\ isDigit (slice 6 7 input) = true
      /\ isAlpha (slice 7 8 input) = true /\ isDigits (suffix 8 input) = true
  | RuleNonBuilding8 =>
      length input = 8 /\ isDigitsOnly (slice 6 8 input) = true
  | RuleDefault =>
      (11 <= length input -> isDigitsOnly (slice 6 8 input) = true ->
       isValidEntityCode (suffix 8 input) = false)
      /\ (length input = 8 -> isDigitsOnly (slice 6 8 input) = false)
  end.
Proof.
  intros H8.
  assert (Hrem : length (suffix 6 input) = length input - 6)
    by (apply length_suffix; lia).
  assert (H02 : slice 0 2 (suffix 6 input) = slice 6 8 input)
    by (rewrite slice_suffix by lia; reflexivity).
  assert (H01 : slice 0 1 (suffix 6 input) = slice 6 7 input)
    by (rewrite slice_suffix by lia; reflexivity).
  assert (H12 : slice 1 2 (suffix 6 input) = slice 7 8 input)
    by (rewrite slice_suffix by lia; reflexivity).
  assert (Hs1 : suffix 1 (suffix 6 input) = suffix 7 input)
    by (rewrite suffix_suffix by lia; reflexivity).
  assert (Hs2 : suffix 2 (suffix 6 input) = suffix 8 input)
    by (rewrite suffix_suffix by lia; reflexivity).
  pose proof (selectRule_cases (suffix 6 input)) as Hc.
  pose proof (selectRule_default_inv (suffix 6 input)) as Hd.
  rewrite Hrem, H02, ?H01, ?H12, ?Hs1, ?Hs2 in *.
  destruct (selectRule (suffix 6 input)).
  - destruct Hc; split; [lia | assumption].
  - destruct Hc as (? & ? & ?); repeat split; [lia | assumption..].
  - destruct Hc as (? & ? & ?); repeat split; [lia | assumption..].
  - destruct Hc as (? & ? & ? & ?); repeat split; [lia | assumption..].
  - destruct Hc as [Hl Hdig]; split; [lia|].
    rewrite <- Hdig; f_equal.
    rewrite suffix_as_slice; f_equal; lia.
  - destruct (Hd eq_refl) as [Hd1 Hd2]; split.
    + intros H11 Hdig.
      assert (H5 : (5 <=? length input - 6)%nat = true)
        by (apply Nat.leb_le; lia).
      rewrite H5, Hdig in Hd1; exact Hd1.
    + intros Hl.
      assert (H2 : (length input - 6 =? 2)%nat = true)
        by (apply Nat.eqb_eq; lia).
      rewrite H2 in Hd2; simpl in Hd2.
      rewrite <- Hd2; f_equal.
      rewrite suffix_as_slice; f_equal; lia.
Qed.

Lemma parseInput_forms clli strict input c :
  parseInput clli strict input = Parsed c ->
  allBytes isAlnumByte input = true
  /\ isAlpha (slice 0 4 input) = true
  /\ length input <= 15
  /\ (strict = true -> 8 <= length input)
  /\ parsedForm input c.
Proof.
  intros H.
  pose proof (parseInput_parsed_region _ _ _ _ H) as Hlen.
  apply parseInput_parsed in H as (Hlo & Hhi & Ha & Hp & Hr & Hpv).
  apply (validatePlace_none_letters _ (allBytes_substring _ _ _ _ Ha)) in Hp.
  change (isAlpha (slice 0 4 input) = true) in Hp.
  apply postValidate_parsed in Hpv as [Hc Hent].
  repeat split; try assumption.
  { intros ->; exact Hlo. }
  destruct Hlen as [H4|H6].
  - left; split; [exact H4|].
    rewrite Hc; unfold populate, baseRecord; rewrite H4; cbn [Nat.leb Nat.ltb].
    rewrite (TrimRightSpaces_alnum _ (letters_alnum _ Hp)); reflexivity.
  - right; split; [exact H6|].
    specialize (Hr H6); apply validateRegion_none_recognized in Hr.
    split; [exact Hr|].
    rewrite (baseRecord_long _ H6 Hp) in Hc, Hent.
    destruct (Nat.lt_ge_cases (length input) 8) as [Hlt|H8].
    + left; split; [lia|].
      rewrite Hc; unfold populate.
      assert (E : (8 <=? length input)%nat = false) by (apply Nat.leb_gt; lia).
      rewrite E; reflexivity.
    + right.
      rewrite (populate_long _ _ H8) in Hc, Hent.
      pose proof (selectRule_long_cases _ H8) as Hcase.
      assert (Hsl : forall k, k <= length input ->
                      length (suffix k input) = length input - k)
        by (intros; apply length_suffix; assumption).
      destruct (selectRule (suffix 6 input)).
      * destruct Hcase as [Hl Hd]; left; auto.
      * destruct Hcase as (H11 & Hd & Hv).
        destruct (Hent eq_refl) as [Hl3 Hok].
        { apply length_pos_nonempty; simpl; rewrite Hsl; lia. }
        simpl in Hl3, Hok; rewrite Hsl in Hl3 by lia.
        right; left; repeat split; try assumption; lia.
      * destruct Hcase as (H11 & Hl & Hd).
        right; right; left; auto.
      * destruct Hcase as (H11 & Hd & Hl & Hds).
        right; right; right; left; auto 6.
      * destruct Hcase as [Hl Hd].
        right; right; right; right; left; repeat split; try assumption.
        rewrite Hc, suffix_as_slice, Hl; reflexivity.
      * destruct Hcase as [Hneg11 Hneg8].
        destruct (8 <? length input)%nat eqn:E.
        -- apply Nat.ltb_lt in E.
           destruct (Hent eq_refl) as [Hl3 Hok].
           { apply length_pos_nonempty; simpl; rewrite Hsl; lia. }
           simpl in Hl3, Hok; rewrite Hsl in Hl3 by lia.
           do 6 right; repeat split; try assumption; try lia.
           destruct (isDigitsOnly (slice 6 8 input)) eqn:Hd; [|reflexivity].
           rewrite isValidEntityCode_three in Hneg11
             by (rewrite Hsl; lia).
           assert (Hal : allBytes isAlnumByte (suffix 8 input) = true)
             by (apply allBytes_substring; exact Ha).
           rewrite Hal in Hneg11.
           apply Hneg11; [lia | reflexivity].
        -- apply Nat.ltb_ge in E.
           do 5 right; left; repeat split; try assumption; try lia.
           apply Hneg8; lia.
Qed.

Lemma ParseWithOptions_forms clli opts c :
  ParseWithOptions clli opts = Parsed c ->
  let input := preprocess (orDefault opts) clli in
  allBytes isAlnumByte input = true
  /\ isAlpha (slice 0 4 input) = true
  /\ length input <= 15
  /\ (Strict (orDefault opts) = true -> 8 <= length input)
  /\ Original c = input
  /\ parsedForm input c.
Proof.
  intros H input.
  pose proof (ParseWithOptions_Original _ _ _ H) as Ho.
  apply ParseWithOptions_parsed in H as [_ H].
  apply parseInput_forms in H as (Ha & Hp & Hhi & Hs & Hf).
  repeat split; assumption.
Qed.

Ltac parsed_cases Hf :=
  unfold parsedForm in Hf;
  destruct Hf as
    [[?Hl ->]
    |(?H6 & ?Hreg &
      [[?Hl ->]
      |[(?Hl & ?Hd & ->)
       |[(?Hl & ?Hd & ?Hv & ->)
        |[(?Hl & ?Hal & ?Hd & ->)
         |[(?Hl & ?Hd & ?Hal & ?Hds & ->)
          |[(?Hl & ?Hd & ->)
           |[(?Hl & ?Hd & ->)
            |(?Hl & ?Hd & ?Hv & ->)]]]]]]])].

Lemma parsedForm_base input c :
  parsedForm input c ->
  Original c = input /\ Place c = slice 0 4 input /\ valid c = true
  /\ 4 <= length input
  /\ (6 <= length input -> Region c = slice 4 6 input).
Proof.
  intros Hf; parsed_cases Hf; simpl;
    repeat split; try reflexivity; intros; lia.
Qed.

Lemma slice_to_end a s n : length s = n -> slice a n s = suffix a s.
Proof. intros <-; reflexivity. Qed.

(** X4: the place of every parsed record is the first four bytes of its
    [Original], four upper-case letters, and the record passes its own
    [ValidatePlace]. *)
Theorem parsed_place_is_four_letters clli opts c :
  ParseWithOptions clli opts = Parsed c ->
  Place c = slice 0 4 (Original c)
  /\ length (Place c) = 4
  /\ allBytes isUpperByte (Place c) = true
  /\ CLLI_ValidatePlace c = true.
Proof.
  intros H; apply ParseWithOptions_forms in H as (_ & Hp & _ & _ & _ & Hf).
  apply parsedForm_base in Hf as (Ho & Hpl & _ & H4 & _).
  rewrite Ho; unfold CLLI_ValidatePlace; rewrite Hpl.
  assert (Hl : length (slice 0 4 (preprocess (orDefault opts) clli)) = 4)
    by (apply length_slice; lia).
  pose proof (isAlpha_upper _ Hp) as Hu.
  rewrite (validatePlace_letters _ Hl Hu); auto.
Qed.

(** X5: the region of a parsed record is either the recognized region code
    at bytes 4-5 of its [Original], and then the record passes its own
    [ValidateRegion]; or, for a 4-character input (relaxed mode only), the
    placeholder XX, which [ValidateRegion] rejects. *)
Theorem parsed_region_recognized_or_placeholder clli opts c :
  ParseWithOptions clli opts = Parsed c ->
  (6 <= length (Original c)
   /\ Region c = slice 4 6 (Original c)
   /\ inSet (Region c) validRegions = true
   /\ CLLI_ValidateRegion c = true)
  \/ (Strict (orDefault opts) = false
      /\ length (Original c) = 4
      /\ Region c = "XX"
      /\ CLLI_ValidateRegion c = false
      /\ cliType c = CLLITypeNonBuilding).
Proof.
  intros H; apply ParseWithOptions_forms in H as (_ & _ & _ & Hs & _ & Hf).
  pose proof (parsedForm_base _ _ Hf) as (Ho & _ & _ & _ & Hr).
  rewrite Ho; unfold CLLI_ValidateRegion.
  destruct Hf as [[Hl ->]|(H6 & Hreg & _)].
  - right; repeat split; try assumption.
    destruct (Strict (orDefault opts)); [specialize (Hs eq_refl); lia|].
    reflexivity.
  - left; rewrite (Hr H6), (validateRegion_recognized _ Hreg); auto.
Qed.

(** X6: the type of a parsed record bounds the length of its [Original].
    An Entity comes from 8 characters (then it has no entity code and its
    network site is not two digits) or from 11 (then its entity code has 3
    characters); a Customer from 11 to 15; a NonBuilding from 4, 6, 7, 8 or
    11 to 15.  No input whose preprocessed length is 5, 9 or 10 parses. *)
Theorem parsed_length_by_type clli opts c :
  ParseWithOptions clli opts = Parsed c ->
  match cliType c with
  | CLLITypeEntity =>
      (length (Original c) = 8 /\ EntityCode c = ""
       /\ isDigitsOnly (NetworkSite c) = false)
      \/ (length (Original c) = 11 /\ length (EntityCode c) = 3)
  | CLLITypeCustomer => 11 <= length (Original c) <= 15
  | CLLITypeNonBuilding =>
      length (Original c) = 4 \/ length (Original c) = 6
      \/ length (Original c) = 7 \/ length (Original c) = 8
      \/ 11 <= length (Original c) <= 15
  | CLLITypeUnknown => False
  end.
Proof.
  intros H; apply ParseWithOptions_forms in H as (_ & _ & Hhi & _ & _ & Hf).
  parsed_cases Hf; simpl; try lia; try tauto.
  - right; split; [exact Hl | rewrite length_suffix; lia].
  - right; split; [exact Hl | rewrite length_suffix; lia].
Qed.

(** X7: the components of a parsed record, concatenated in field order,
    give back its [Original], except for the inputs of 4 characters (whose
    region is the placeholder XX) and of 7 characters (whose last character
    is kept in no field). *)
Theorem components_rebuild_original clli opts c :
  ParseWithOptions clli opts = Parsed c ->
  Place c ++ Region c ++ NetworkSite c ++ EntityCode c ++ LocationCode c
    ++ LocationID c ++ CustomerCode c ++ CustomerID c = Original c
  <-> length (Original c) <> 4 /\ length (Original c) <> 7.
Proof.
  intros H; apply ParseWithOptions_forms in H as (_ & _ & Hhi & _ & _ & Hf).
  set (input := preprocess (orDefault opts) clli) in *.
  assert (Hjoin : forall k, 6 <= k -> k <= length input ->
            slice 0 4 input ++ slice 4 6 input ++ slice 6 k input ++ suffix k input
            = input).
  { intros k H6 Hk.
    rewrite (slice_suffix_append 6 k), (slice_suffix_append 4 6),
      (slice_suffix_append 0 4) by lia.
    apply suffix_zero. }
  assert (Hlenapp : forall a b, a <= b -> b <= length input ->
            length (slice a b input) = b - a)
    by (intros; apply length_slice; assumption).
  parsed_cases Hf; simpl; rewrite ?append_empty_r.
  - split; [intros E | lia].
    apply (f_equal length) in E; rewrite length_append, Hlenapp in E by lia.
    simpl in E; lia.
  - destruct Hl as [Hl|Hl]; (split; [intros E | intros [_ Hn]]).
    + lia.
    + rewrite slice_append, (slice_to_end 0 _ 6 Hl) by lia; apply suffix_zero.
    + apply (f_equal length) in E.
      rewrite length_append, !Hlenapp in E by lia; lia.
    + lia.
  - split; [lia | intros _; apply Hjoin; lia].
  - split; [lia | intros _; apply Hjoin; lia].
  - split; [lia | intros _].
    rewrite <- (Hjoin 7) at 5 by lia; reflexivity.
  - split; [lia | intros _].
    rewrite <- (Hjoin 7) at 5 by lia; reflexivity.
  - split; [lia | intros _].
    rewrite (slice_append 4 6 8), (slice_append 0 4 8) by lia.
    rewrite (slice_to_end 0 input 8 Hl); apply suffix_zero.
  - split; [lia | intros _].
    rewrite (slice_append 4 6 8), (slice_append 0 4 8) by lia.
    rewrite (slice_to_end 0 input 8 Hl); apply suffix_zero.
  - split; [lia | intros _; apply Hjoin; lia].
Qed.

(** ** A parsed record against its own validators *)

Lemma validateNetworkSite_iff site :
  validateNetworkSite site = None
  <-> length site = 2 /\ (isDigitsOnly site = true \/ isAlpha site = true).
Proof.
  unfold validateNetworkSite; split.
  - destruct (site =? ""); [discriminate|].
    destruct (length site =? 2)%nat eqn:Hl; [|discriminate].
    apply Nat.eqb_eq in Hl.
    destruct (isDigitsOnly site); [auto|].
    destruct (isAlpha site); [auto | discriminate].
  - intros [Hl Hc].
    assert (Hne : (site =? "") = false).
    { apply String.eqb_neq, length_pos_nonempty; lia. }
    assert (Ha : allBytes isAlnumByte site = true).
    { destruct Hc as [Hc|Hc]; [apply digits_alnum | apply letters_alnum];
        exact Hc. }
    rewrite Hne, Hl, Ha.
    destruct Hc as [-> | ->]; [reflexivity|].
    rewrite andb_false_r; reflexivity.
Qed.

(** X8: a parsed record fails its own [ValidateEntityCode] exactly when it
    is an Entity without entity code (an 8-character Entity): the method
    returns true for the other types and sends an empty code of an Entity to
    [validateEntityCode], which rejects it. *)
Theorem parsed_record_entity_code_check clli opts c :
  ParseWithOptions clli opts = Parsed c ->
  CLLI_ValidateEntityCode c = false
  <-> cliType c = CLLITypeEntity /\ EntityCode c = "".
Proof.
  intros H; apply ParseWithOptions_forms in H as (_ & _ & Hhi & _ & _ & Hf).
  assert (Hne : forall input, 8 < length input -> suffix 8 input <> "").
  { intros s Hs; apply length_pos_nonempty; rewrite length_suffix; lia. }
  parsed_cases Hf; unfold CLLI_ValidateEntityCode; simpl;
    try (split; [discriminate | intros [? ?]; discriminate]).
  - rewrite Hv; simpl; split; [discriminate|].
    intros [_ E]; exfalso; revert E; apply Hne; lia.
  - split; auto.
  - rewrite Hv; simpl; split; [discriminate|].
    intros [_ E]; exfalso; revert E; apply Hne; lia.
Qed.

(** X9: a parsed record passes its own [ValidateNetworkSite] exactly when it
    has a network site made of two digits or of two letters.  Records with a
    location or customer payload, records of short inputs, and Entities
    whose network site mixes a letter and a digit fail it. *)
Theorem parsed_record_network_site_check clli opts c :
  ParseWithOptions clli opts = Parsed c ->
  CLLI_ValidateNetworkSite c = true
  <-> NetworkSite c <> ""
      /\ (isDigitsOnly (NetworkSite c) = true \/ isAlpha (NetworkSite c) = true).
Proof.
  intros H; apply ParseWithOptions_forms in H as (_ & _ & Hhi & _ & _ & Hf).
  assert (Hsite : forall input, 8 <= length input ->
            isNil (validateNetworkSite (slice 6 8 input)) = true
            <-> slice 6 8 input <> ""
                /\ (isDigitsOnly (slice 6 8 input) = true
                    \/ isAlpha (slice 6 8 input) = true)).
  { intros s Hs.
    assert (Hl2 : length (slice 6 8 s) = 2) by (apply length_slice; lia).
    split.
    - intros E; destruct (validateNetworkSite (slice 6 8 s)) eqn:Ev;
        [discriminate|].
      apply validateNetworkSite_iff in Ev as [_ Ev].
      split; [apply length_pos_nonempty; lia | exact Ev].
    - intros [_ Hc].
      rewrite (proj2 (validateNetworkSite_iff _) (conj Hl2 Hc)); reflexivity. }
  assert (Hempty : isNil (validateNetworkSite "") = true
                   <-> "" <> "" /\ (isDigitsOnly "" = true \/ isAlpha "" = true)).
  { split; [discriminate | intros [E _]; contradiction]. }
  parsed_cases Hf; unfold CLLI_ValidateNetworkSite; simpl;
    try exact Hempty; apply Hsite; lia.
Qed.

Lemma eqb_nonempty s : s <> "" -> (s =? "") = false.
Proof. apply String.eqb_neq. Qed.

(** X10: [determineCLLIType], applied to a parsed record, gives the record's
    type except in two cases: for a Customer of the 15-character form (its
    payload is in the network site and entity code) it answers Entity, and
    for an Entity without entity code (8 characters) it answers
    NonBuilding. *)
Theorem determineCLLIType_on_parsed_record clli opts c :
  ParseWithOptions clli opts = Parsed c ->
  (cliType c = CLLITypeCustomer -> EntityCode c <> "" ->
   determineCLLIType c = CLLITypeEntity)
  /\ (cliType c = CLLITypeEntity -> EntityCode c = "" ->
      determineCLLIType c = CLLITypeNonBuilding)
  /\ (~ (cliType c = CLLITypeCustomer /\ EntityCode c <> "") ->
      ~ (cliType c = CLLITypeEntity /\ EntityCode c = "") ->
      determineCLLIType c = cliType c).
Proof.
  intros H; apply ParseWithOptions_forms in H as (_ & _ & Hhi & _ & _ & Hf).
  set (input := preprocess (orDefault opts) clli) in *.
  assert (Hsuf : forall k, k < length input -> (suffix k input =? "") = false).
  { intros k Hk; apply eqb_nonempty, length_pos_nonempty.
    rewrite length_suffix; lia. }
  assert (Hsl : forall a b, a < b -> b <= length input ->
            (slice a b input =? "") = false).
  { intros a b Hab Hb; apply eqb_nonempty, length_pos_nonempty.
    rewrite length_slice; lia. }
  assert (Hlen : forall a b, a <= b -> b <= length input ->
            length (slice a b input) = b - a)
    by (intros; apply length_slice; assumption).
  parsed_cases Hf; unfold determineCLLIType; simpl;
    rewrite ?Hsuf, ?Hsl, ?Hlen by lia; simpl;
    repeat split; intros;
    first
      [ reflexivity
      | discriminate
      | congruence
      | exfalso;
        match goal with
        | E : suffix _ _ = "" |- _ =>
            apply String.eqb_eq in E; rewrite Hsuf in E by lia; discriminate
        | Hn : ~ (_ /\ _) |- _ =>
            apply Hn; split; [reflexivity|];
            first [reflexivity | apply String.eqb_neq, Hsuf; lia]
        end ].
Qed.

(** ** Geographic tables *)

Lemma mapGet_In {V : Type} (m : list (string * V)) k v :
  mapGet m k = Some v -> In (k, v) m.
Proof.
  induction m as [|[k' v'] m IH]; simpl; [discriminate|].
  destruct (k' =? k) eqn:E.
  - apply String.eqb_eq in E; intros [= <-]; subst; auto.
  - auto.
Qed.

Lemma regions_have_a_country :
  forallb (fun r => negb (getCountryCode r =? "")) validRegions = true.
Proof. vm_compute; reflexivity. Qed.

Lemma states_are_recognized :
  forallb (fun kv => isNil (validateRegion (fst kv)) && negb (snd kv =? ""))
          (usStates ++ canadianProvinces) = true.
Proof. vm_compute; reflexivity. Qed.

Lemma table_entry_recognized k v :
  In (k, v) (usStates ++ canadianProvinces) ->
  validateRegion k = None /\ v <> "".
Proof.
  intros Hin; pose proof states_are_recognized as Hall.
  rewrite forallb_forall in Hall; specialize (Hall _ Hin); simpl in Hall.
  apply andb_prop in Hall as [H1 H2].
  split.
  - destruct (validateRegion k); [discriminate | reflexivity].
  - apply negb_true_iff, String.eqb_neq in H2; exact H2.
Qed.

(** X11: the region codes [validateRegion] accepts are exactly the keys of
    the two geographic tables: a region is valid if and only if it has a
    country code, and then it has a state name and a country name, the
    country name going with the country code. *)
Theorem valid_regions_are_the_table_keys region :
  (validateRegion region = None <-> getCountryCode region <> "")
  /\ (getCountryCode region <> "" <-> getStateName region <> "")
  /\ (getCountryCode region = "US" <-> getCountryName region = "United States")
  /\ (getCountryCode region = "CA" <-> getCountryName region = "Canada").
Proof.
  unfold getCountryCode, getStateName, getCountryName.
  destruct (mapGet usStates region) as [s|] eqn:Eus.
  - apply mapGet_In in Eus.
    destruct (table_entry_recognized region s) as [Hv Hs];
      [apply in_or_app; auto|].
    repeat split; intros; try assumption; try discriminate; reflexivity.
  - destruct (mapGet canadianProvinces region) as [s|] eqn:Eca.
    + apply mapGet_In in Eca.
      destruct (table_entry_recognized region s) as [Hv Hs];
        [apply in_or_app; auto|].
      repeat split; intros; try assumption; try discriminate; reflexivity.
    + repeat split; intros; try discriminate; try congruence.
      exfalso.
      apply validateRegion_none_recognized in H.
      unfold inSet in H; apply existsb_exists in H as (r & Hin & Heq).
      apply String.eqb_eq in Heq; subst r.
      pose proof regions_have_a_country as Hall.
      rewrite forallb_forall in Hall; specialize (Hall _ Hin).
      unfold getCountryCode in Hall; rewrite Eus, Eca in Hall; discriminate.
Qed.

Lemma regions_resolve :
  forallb (fun r => ((getCountryCode r =? "US") || (getCountryCode r =? "CA"))
                    && negb (getStateName r =? "")
                    && negb (getCountryName r =? "")) validRegions = true.
Proof. vm_compute; reflexivity. Qed.

Lemma no_city_under_placeholder :
  forallb (fun pm => match mapGet (snd pm) "XX" with
                     | None => true
                     | Some _ => false
                     end) cityMappings = true.
Proof. vm_compute; reflexivity. Qed.

(** X12: geography of a parsed record.  When its [Original] has 6
    characters or more, its country code is US or CA, its state code is its
    region, and its state and country names are not empty.  When it comes
    from a 4-character input, its region is the placeholder XX and every
    geographic method returns the empty string. *)
Theorem parsed_record_geography clli opts c :
  ParseWithOptions clli opts = Parsed c ->
  (6 <= length (Original c) ->
   (CLLI_CountryCode c = "US" \/ CLLI_CountryCode c = "CA")
   /\ CLLI_StateCode c = Region c
   /\ CLLI_StateName c <> ""
   /\ CLLI_CountryName c <> "")
  /\ (length (Original c) = 4 ->
      CLLI_CountryCode c = "" /\ CLLI_StateCode c = ""
      /\ CLLI_StateName c = "" /\ CLLI_CountryName c = ""
      /\ CLLI_CityName c = "").
Proof.
  intros H; apply ParseWithOptions_forms in H as (_ & _ & _ & _ & _ & Hf).
  pose proof (parsedForm_base _ _ Hf) as (Ho & _ & _ & _ & Hr).
  rewrite Ho; split.
  - intros H6; specialize (Hr H6).
    assert (Hreg : inSet (Region c) validRegions = true).
    { rewrite Hr; destruct Hf as [[Hl _]|(_ & Hreg & _)]; [lia | exact Hreg]. }
    unfold inSet in Hreg; apply existsb_exists in Hreg as (r & Hin & Heq).
    apply String.eqb_eq in Heq; subst r.
    pose proof regions_resolve as Hall.
    rewrite forallb_forall in Hall; specialize (Hall _ Hin).
    apply andb_prop in Hall as [Hall Hcn].
    apply andb_prop in Hall as [Hcc Hsn].
    apply negb_true_iff, String.eqb_neq in Hcn, Hsn.
    unfold CLLI_CountryCode, CLLI_StateCode, CLLI_StateName, CLLI_CountryName.
    apply orb_prop in Hcc.
    repeat split; try assumption.
    + destruct Hcc as [E|E]; apply String.eqb_eq in E; auto.
    + destruct Hcc as [E|E]; apply String.eqb_eq in E; rewrite E; reflexivity.
  - intros H4; destruct Hf as [[_ ->]|(H6 & _)]; [|lia].
    unfold CLLI_CountryCode, CLLI_StateCode, CLLI_StateName, CLLI_CountryName,
      CLLI_CityName; simpl.
    repeat split; try reflexivity.
    unfold getCityName.
    destruct (mapGet cityMappings _) as [rm|] eqn:E; [|reflexivity].
    apply mapGet_In in E.
    pose proof no_city_under_placeholder as Hall.
    rewrite forallb_forall in Hall; specialize (Hall _ E); simpl in Hall.
    destruct (mapGet rm "XX"); [discriminate | reflexivity].
Qed.

Lemma trimRightBytes_all (p : ascii -> bool) :
  forall s, allBytes p s = true -> trimRightBytes p s = "".
Proof.
  induction s as [|c s IH]; simpl; [reflexivity|].
  intros H; apply andb_prop in H as [Hc Hs]; rewrite (IH Hs), Hc; reflexivity.
Qed.

Lemma trimRightBytes_append (p : ascii -> bool) :
  forall s t, allBytes p t = true ->
    trimRightBytes p (s ++ t) = trimRightBytes p s.
Proof.
  induction s as [|c s IH]; intros t Ht; simpl.
  - apply trimRightBytes_all; exact Ht.
  - rewrite (IH _ Ht); reflexivity.
Qed.

Lemma allBytes_Repeat (p : ascii -> bool) c n :
  p c = true -> allBytes p (Repeat c n) = true.
Proof. intros Hc; induction n as [|n IH]; simpl; [|rewrite Hc, IH]; reflexivity. Qed.

Lemma cities_are_under_recognized_regions :
  forallb (fun pm =>
             forallb (fun rc => isNil (validateRegion (fst rc))
                                && negb (snd rc =? "")) (snd pm))
          cityMappings = true.
Proof. vm_compute; reflexivity. Qed.

(** X13: [getCityName] ignores space padding at the end of the place code,
    and it names a city only under a region that [validateRegion]
    accepts. *)
Theorem city_lookup_padding_and_regions place region :
  (forall n, getCityName (place ++ Repeat " " n) region
             = getCityName place region)
  /\ (getCityName place region <> "" -> validateRegion region = None).
Proof.
  split.
  - intros n; unfold getCityName, TrimRightSpaces.
    rewrite trimRightBytes_append; [reflexivity|].
    apply allBytes_Repeat; reflexivity.
  - unfold getCityName.
    destruct (mapGet cityMappings _) as [rm|] eqn:E; [|congruence].
    destruct (mapGet rm region) as [city|] eqn:E'; [|congruence].
    intros _; apply mapGet_In in E; apply mapGet_In in E'.
    pose proof cities_are_under_recognized_regions as Hall.
    rewrite forallb_forall in Hall; specialize (Hall _ E); simpl in Hall.
    rewrite forallb_forall in Hall; specialize (Hall _ E'); simpl in Hall.
    apply andb_prop in Hall as [Hall _].
    destruct (validateRegion region); [discriminate | reflexivity].
Qed.

(** X14: on a parsed record, [EntityType] and [LocationType] exclude one
    another: a NonBuilding or Customer has a location type and no entity
    type, an Entity with an entity code has an entity type and no location
    type, and an Entity without entity code has neither. *)
Theorem entity_type_or_location_type clli opts c :
  ParseWithOptions clli opts = Parsed c ->
  (cliType c <> CLLITypeEntity
   /\ CLLI_EntityType c = "" /\ CLLI_LocationType c <> "")
  \/ (cliType c = CLLITypeEntity /\ EntityCode c <> ""
      /\ CLLI_EntityType c <> "" /\ CLLI_LocationType c = "")
  \/ (cliType c = CLLITypeEntity /\ EntityCode c = ""
      /\ CLLI_EntityType c = "" /\ CLLI_LocationType c = "").
Proof.
  intros H; apply ParseWithOptions_forms in H as (_ & _ & Hhi & _ & _ & Hf).
  set (input := preprocess (orDefault opts) clli) in *.
  assert (Hcode : forall ec r,
            ec <> "" -> cliType r = CLLITypeEntity -> EntityCode r = ec ->
            CLLI_EntityType r <> "").
  { intros ec r Hne Ht He; unfold CLLI_EntityType; rewrite Ht, He.
    apply String.eqb_neq in Hne; rewrite Hne; simpl.
    repeat match goal with
           | |- context [if ?b then _ else _] => destruct b
           end; discriminate. }
  assert (Hsuf : suffix 8 input <> "" \/ length input <= 8).
  { destruct (Nat.le_gt_cases (length input) 8); [auto|].
    left; apply length_pos_nonempty; rewrite length_suffix; lia. }
  parsed_cases Hf;
    try (left; repeat split; [discriminate | discriminate]);
    try (right; right; repeat split; reflexivity).
  - right; left; destruct Hsuf as [Hs|Hs]; [|lia].
    repeat split; [exact Hs | eapply Hcode; eauto].
  - right; left; destruct Hsuf as [Hs|Hs]; [|lia].
    repeat split; [exact Hs | eapply Hcode; eauto].
Qed.

Lemma validateEntityCode_none_alnum code :
  validateEntityCode code = None ->
  length code = 3 /\ allBytes isAlnumByte code = true.
Proof.
  unfold validateEntityCode.
  destruct (code =? ""); [discriminate|].
  destruct (length code =? 3)%nat eqn:Hl; [|discriminate].
  apply Nat.eqb_eq in Hl; simpl negb.
  destruct (isValidEntityCode code) eqn:Hv; [|discriminate].
  intros _; split; [exact Hl|].
  rewrite isValidEntityCode_three in Hv; assumption.
Qed.

Lemma table_b_prefixes_enumerated :
  forallb (fun p =>
             forallb (fun c => isNil (validateEntityCode (p ++ String c "")))
                     (digitBytes ++ upperBytes)) tbPrefixes = true.
Proof. vm_compute; reflexivity. Qed.

(** X15: every code made of one of the fifteen two-letter prefixes of Table
    B (MG, SG, CG, DS, RL, PS, RP, CM, VS, OS, OL, RT, SW, MS, XC) and any
    digit or upper-case letter passes [validateEntityCode]; and every code
    that passes has exactly 3 characters, all digits or upper-case
    letters. *)
Theorem table_b_prefix_codes_accepted :
  (forall p c, In p tbPrefixes -> isAlnumByte c = true ->
               validateEntityCode (p ++ String c "") = None)
  /\ (forall code, validateEntityCode code = None ->
                   length code = 3 /\ allBytes isAlnumByte code = true).
Proof.
  split.
  - intros p c Hp Hc.
    pose proof table_b_prefixes_enumerated as Hall.
    rewrite forallb_forall in Hall; specialize (Hall _ Hp).
    rewrite forallb_forall in Hall.
    specialize (Hall c (in_or_app _ _ _ (alnum_cases _ Hc))).
    destruct (validateEntityCode _); [discriminate | reflexivity].
  - apply validateEntityCode_none_alnum.
Qed.

(** ** Well-formed inputs parse *)

Lemma allBytes_pieces (p : ascii -> bool) s a b :
  a <= b ->
  allBytes p (slice 0 a s) = true -> allBytes p (slice a b s) = true ->
  allBytes p (slice 0 b s) = true.
Proof.
  intros Hab H1 H2; unfold slice in *; rewrite Nat.sub_0_r in *.
  replace b with (a + (b - a)) by lia.
  apply (allBytes_substring_join p s 0 a (b - a)); assumption.
Qed.

Lemma allBytes_whole (p : ascii -> bool) s a :
  a <= length s ->
  allBytes p (slice 0 a s) = true -> allBytes p (suffix a s) = true ->
  allBytes p s = true.
Proof.
  intros Ha H1 H2; rewrite <- (suffix_zero s), suffix_as_slice.
  rewrite suffix_as_slice in H2.
  apply (allBytes_pieces p s a (length s)); assumption.
Qed.

Lemma postValidate_not_entity clli r :
  cliType r <> CLLITypeEntity -> postValidate clli r = Parsed r.
Proof.
  unfold postValidate; destruct (cliType r); try reflexivity.
  intros H; contradiction.
Qed.

Lemma postValidate_valid_code clli r :
  validateEntityCode (EntityCode r) = None -> postValidate clli r = Parsed r.
Proof.
  intros Hv; unfold postValidate.
  destruct (isEntityType (cliType r) && _); [|reflexivity].
  destruct (validateEntityCode_none_alnum _ Hv) as [Hl _].
  rewrite Hl, Hv; reflexivity.
Qed.

(** An input already made of letters and digits, 8 to 15 of them, with a
    place of letters and a recognized region, reaches the classification. *)
Lemma ParseWithOptions_wellformed clli opts :
  allBytes isAlnumByte clli = true ->
  8 <= length clli -> length clli <= 15 ->
  isAlpha (slice 0 4 clli) = true ->
  inSet (slice 4 6 clli) validRegions = true ->
  ParseWithOptions clli opts
  = postValidate clli
      (populate clli (recordOf clli "" "" "" "" "" "" CLLITypeUnknown)).
Proof.
  intros Ha H8 H15 Hp Hr.
  assert (Hne : (TrimSpace clli =? "") = false).
  { rewrite (TrimSpace_alnum _ Ha).
    apply String.eqb_neq, length_pos_nonempty; lia. }
  unfold ParseWithOptions; rewrite Hne, (preprocess_alnum _ _ Ha).
  unfold parseInput.
  assert (E8 : (length clli <? 8)%nat = false) by (apply Nat.ltb_ge; lia).
  assert (E4 : (length clli <? 4)%nat = false) by (apply Nat.ltb_ge; lia).
  assert (E15 : (15 <? length clli)%nat = false) by (apply Nat.ltb_ge; lia).
  assert (L4 : (4 <=? length clli)%nat = true) by (apply Nat.leb_le; lia).
  assert (L6 : (6 <=? length clli)%nat = true) by (apply Nat.leb_le; lia).
  assert (G4 : (4 <? length clli)%nat = true) by (apply Nat.ltb_lt; lia).
  rewrite E8, E4, E15, !andb_false_r, L4, L6, G4.
  rewrite (proj2 (firstOutside_none isAlnumByte clli 0) Ha).
  rewrite validatePlace_letters, (validateRegion_recognized _ Hr),
    (checkNetworkSite_alnum _ Ha), baseRecord_long;
    [reflexivity | lia | exact Hp | apply length_slice; lia
    | apply isAlpha_upper, Hp].
Qed.

Lemma head_alnum clli k :
  6 <= k ->
  isAlpha (slice 0 4 clli) = true ->
  inSet (slice 4 6 clli) validRegions = true ->
  allBytes isAlnumByte (slice 6 k clli) = true ->
  allBytes isAlnumByte (slice 0 k clli) = true.
Proof.
  intros Hk Hp Hr Hs.
  apply (allBytes_pieces _ clli 6 k); [lia | | exact Hs].
  apply (allBytes_pieces _ clli 4 6); [lia | apply letters_alnum, Hp |].
  apply letters_alnum, validateRegion_none_letters, validateRegion_recognized.
  exact Hr.
Qed.

Lemma isDigits_alnum s : isDigits s = true -> allBytes isAlnumByte s = true.
Proof. apply digits_alnum. Qed.

Lemma selectRule_suffix_slices input :
  8 <= length input ->
  length (suffix 6 input) = length input - 6
  /\ slice 0 2 (suffix 6 input) = slice 6 8 input
  /\ slice 0 1 (suffix 6 input) = slice 6 7 input
  /\ slice 1 2 (suffix 6 input) = slice 7 8 input
  /\ suffix 1 (suffix 6 input) = suffix 7 input
  /\ suffix 2 (suffix 6 input) = suffix 8 input.
Proof.
  intros H8; repeat split.
  - apply length_suffix; lia.
  - rewrite slice_suffix by lia; reflexivity.
  - rewrite slice_suffix by lia; reflexivity.
  - rewrite slice_suffix by lia; reflexivity.
  - rewrite suffix_suffix by lia; reflexivity.
  - rewrite suffix_suffix by lia; reflexivity.
Qed.

Lemma not_digits_with_letter a b input :
  a <= b -> 6 + b <= 8 ->
  isAlpha (slice (6 + a) (6 + b) input) = true ->
  isDigits (slice 6 8 input) = false.
Proof.
  intros Hab Hb Hl; unfold isDigits.
  rewrite (digits_inside_letters_not_digits a b 6 8 input Hab Hb Hl).
  reflexivity.
Qed.

Lemma selectRule_nonbuilding input :
  11 <= length input ->
  isAlpha (slice 6 7 input) = true -> isDigits (suffix 7 input) = true ->
  selectRule (suffix 6 input) = RuleNonBuilding.
Proof.
  intros H11 Hl Hd.
  destruct (selectRule_suffix_slices input ltac:(lia))
    as (Hrem & H02 & H01 & H12 & Hs1 & Hs2).
  pose proof (not_digits_with_letter 0 1 input ltac:(lia) ltac:(lia) Hl) as Hn.
  assert (H5 : (5 <=? length input - 6)%nat = true) by (apply Nat.leb_le; lia).
  unfold selectRule; rewrite Hrem, H02, H01, Hs1, H5.
  change (isDigitsOnly (slice 6 8 input)) with (isDigits (slice 6 8 input)).
  rewrite Hn, Hl, Hd, andb_false_r; reflexivity.
Qed.

Lemma selectRule_customer input :
  11 <= length input ->
  isDigit (slice 6 7 input) = true -> isAlpha (slice 7 8 input) = true ->
  isDigits (suffix 8 input) = true ->
  selectRule (suffix 6 input) = RuleCustomer.
Proof.
  intros H11 Hd Hl Hds.
  destruct (selectRule_suffix_slices input ltac:(lia))
    as (Hrem & H02 & H01 & H12 & Hs1 & Hs2).
  pose proof (not_digits_with_letter 1 2 input ltac:(lia) ltac:(lia) Hl) as Hn.
  assert (H5 : (5 <=? length input - 6)%nat = true) by (apply Nat.leb_le; lia).
  unfold selectRule; rewrite Hrem, H02, H01, H12, Hs1, Hs2, H5.
  change (isDigitsOnly (slice 6 8 input)) with (isDigits (slice 6 8 input)).
  rewrite Hn, (isDigit_not_isAlpha _ Hd), Hd, Hl, Hds, andb_false_r.
  reflexivity.
Qed.

Lemma selectRule_entity input :
  length input = 11 ->
  isDigitsOnly (slice 6 8 input) = true ->
  allBytes isAlnumByte (suffix 8 input) = true ->
  selectRule (suffix 6 input) = RuleEntity.
Proof.
  intros H11 Hd Ha.
  destruct (selectRule_suffix_slices input ltac:(lia))
    as (Hrem & H02 & H01 & H12 & Hs1 & Hs2).
  unfold selectRule; rewrite Hrem, H02, Hs2, H11, Hd.
  rewrite isValidEntityCode_three, Ha; [reflexivity|].
  rewrite length_suffix; lia.
Qed.

Lemma selectRule_customer15 input :
  length input = 15 -> isDigits (slice 6 8 input) = true ->
  selectRule (suffix 6 input) = RuleCustomer15.
Proof.
  intros H15 Hd.
  destruct (selectRule_suffix_slices input ltac:(lia))
    as (Hrem & H02 & _).
  unfold selectRule; rewrite Hrem, H02, H15, Hd; reflexivity.
Qed.

Lemma entity_form clli opts :
  length clli = 11 ->
  isAlpha (slice 0 4 clli) = true ->
  inSet (slice 4 6 clli) validRegions = true ->
  isDigitsOnly (slice 6 8 clli) = true ->
  validateEntityCode (suffix 8 clli) = None ->
  ParseWithOptions clli opts
  = Parsed (recordOf clli (slice 6 8 clli) (suffix 8 clli) "" "" "" ""
              CLLITypeEntity).
Proof.
  intros Hl Hp Hr Hd Hv.
  destruct (validateEntityCode_none_alnum _ Hv) as [_ Hc].
  assert (Ha : allBytes isAlnumByte clli = true).
  { apply (allBytes_whole _ clli 8); [lia | | exact Hc].
    apply head_alnum; try assumption; [lia | apply digits_alnum, Hd]. }
  rewrite ParseWithOptions_wellformed, populate_long,
    (selectRule_entity _ Hl Hd Hc) by (assumption || lia).
  apply postValidate_valid_code; exact Hv.
Qed.

Lemma nonbuilding_form clli opts :
  11 <= length clli -> length clli <= 15 ->
  isAlpha (slice 0 4 clli) = true ->
  inSet (slice 4 6 clli) validRegions = true ->
  isAlpha (slice 6 7 clli) = true ->
  isDigits (suffix 7 clli) = true ->
  ParseWithOptions clli opts
  = Parsed (recordOf clli "" "" (slice 6 7 clli) (suffix 7 clli) "" ""
              CLLITypeNonBuilding).
Proof.
  intros Hl Hh Hp Hr Hc Hd.
  assert (Ha : allBytes isAlnumByte clli = true).
  { apply (allBytes_whole _ clli 7); [lia | | apply isDigits_alnum, Hd].
    apply head_alnum; try assumption; [lia | apply letters_alnum, Hc]. }
  rewrite ParseWithOptions_wellformed, populate_long,
    (selectRule_nonbuilding _ Hl Hc Hd) by (assumption || lia).
  apply postValidate_not_entity; discriminate.
Qed.

Lemma customer_form clli opts :
  11 <= length clli -> length clli <= 15 ->
  isAlpha (slice 0 4 clli) = true ->
  inSet (slice 4 6 clli) validRegions = true ->
  isDigit (slice 6 7 clli) = true ->
  isAlpha (slice 7 8 clli) = true ->
  isDigits (suffix 8 clli) = true ->
  ParseWithOptions clli opts
  = Parsed (recordOf clli "" "" "" "" (slice 6 7 clli) (suffix 7 clli)
              CLLITypeCustomer).
Proof.
  intros Hl Hh Hp Hr Hc Hx Hd.
  assert (Ha : allBytes isAlnumByte clli = true).
  { apply (allBytes_whole _ clli 8); [lia | | apply isDigits_alnum, Hd].
    apply (allBytes_pieces _ clli 7 8); [lia | | apply letters_alnum, Hx].
    apply head_alnum; try assumption; [lia|].
    apply isDigit_digits in Hc; revert Hc; apply allBytes_impl, digit_alnum. }
  rewrite ParseWithOptions_wellformed, populate_long,
    (selectRule_customer _ Hl Hc Hx Hd) by (assumption || lia).
  apply postValidate_not_entity; discriminate.
Qed.

Lemma customer15_form clli opts :
  length clli = 15 ->
  isAlpha (slice 0 4 clli) = true ->
  inSet (slice 4 6 clli) validRegions = true ->
  isDigits (slice 6 8 clli) = true ->
  allBytes isAlnumByte (suffix 8 clli) = true ->
  ParseWithOptions clli opts
  = Parsed (recordOf clli (slice 6 8 clli) (suffix 8 clli) "" "" "" ""
              CLLITypeCustomer).
Proof.
  intros Hl Hp Hr Hd Hc.
  assert (Ha : allBytes isAlnumByte clli = true).
  { apply (allBytes_whole _ clli 8); [lia | | exact Hc].
    apply head_alnum; try assumption; [lia | apply isDigits_alnum, Hd]. }
  rewrite ParseWithOptions_wellformed, populate_long,
    (selectRule_customer15 _ Hl Hd) by (assumption || lia).
  apply postValidate_not_entity; discriminate.
Qed.

(** X16: an 11-character input made of four letters, a recognized region
    code, two digits and a 3-character code that [validateEntityCode]
    accepts parses, under every configuration, as an Entity with those
    components. *)
Theorem entity_input_parses clli opts :
  length clli = 11 ->
  isAlpha (slice 0 4 clli) = true ->
  inSet (slice 4 6 clli) validRegions = true ->
  isDigitsOnly (slice 6 8 clli) = true ->
  validateEntityCode (slice 8 11 clli) = None ->
  ParseWithOptions clli opts
  = Parsed {| Original := clli;
              Place := slice 0 4 clli; Region := slice 4 6 clli;
              NetworkSite := slice 6 8 clli; EntityCode := slice 8 11 clli;
              LocationCode := ""; LocationID := "";
              CustomerCode := ""; CustomerID := "";
              cliType := CLLITypeEntity; valid := true |}.
Proof.
  intros Hl Hp Hr Hd Hv.
  rewrite (slice_to_end 8 clli 11 Hl) in *.
  apply entity_form; assumption.
Qed.

(** X17: an input of 11 to 15 characters made of four letters, a recognized
    region code, one letter and then digits only (4 to 8 of them) parses,
    under every configuration, as a NonBuilding whose location code is the
    letter and whose location ID is all the digits. *)
Theorem nonbuilding_input_parses clli opts :
  11 <= length clli -> length clli <= 15 ->
  isAlpha (slice 0 4 clli) = true ->
  inSet (slice 4 6 clli) validRegions = true ->
  isAlpha (slice 6 7 clli) = true ->
  isDigits (suffix 7 clli) = true ->
  ParseWithOptions clli opts
  = Parsed {| Original := clli;
              Place := slice 0 4 clli; Region := slice 4 6 clli;
              NetworkSite := ""; EntityCode := "";
              LocationCode := slice 6 7 clli; LocationID := suffix 7 clli;
              CustomerCode := ""; CustomerID := "";
              cliType := CLLITypeNonBuilding; valid := true |}.
Proof. apply nonbuilding_form. Qed.

(** X18: an input of 11 to 15 characters made of four letters, a recognized
    region code, one digit, one letter and then digits only (3 to 7 of
    them) parses, under every configuration, as a Customer whose customer
    code is the digit and whose customer ID is the letter with the digits
    after it. *)
Theorem customer_input_parses clli opts :
  11 <= length clli -> length clli <= 15 ->
  isAlpha (slice 0 4 clli) = true ->
  inSet (slice 4 6 clli) validRegions = true ->
  isDigit (slice 6 7 clli) = true ->
  isAlpha (slice 7 8 clli) = true ->
  isDigits (suffix 8 clli) = true ->
  ParseWithOptions clli opts
  = Parsed {| Original := clli;
              Place := slice 0 4 clli; Region := slice 4 6 clli;
              NetworkSite := ""; EntityCode := "";
              LocationCode := ""; LocationID := "";
              CustomerCode := slice 6 7 clli; CustomerID := suffix 7 clli;
              cliType := CLLITypeCustomer; valid := true |}.
Proof. apply customer_form. Qed.

(** X19: a 15-character input made of four letters, a recognized region
    code, two digits and seven more letters or digits parses, under every
    configuration, as a Customer that keeps the two digits as network site
    and the last seven characters, unchecked, as entity code. *)
Theorem customer15_input_parses clli opts :
  length clli = 15 ->
  isAlpha (slice 0 4 clli) = true ->
  inSet (slice 4 6 clli) validRegions = true ->
  isDigits (slice 6 8 clli) = true ->
  allBytes isAlnumByte (slice 8 15 clli) = true ->
  ParseWithOptions clli opts
  = Parsed {| Original := clli;
              Place := slice 0 4 clli; Region := slice 4 6 clli;
              NetworkSite := slice 6 8 clli; EntityCode := slice 8 15 clli;
              LocationCode := ""; LocationID := "";
              CustomerCode := ""; CustomerID := "";
              cliType := CLLITypeCustomer; valid := true |}.
Proof.
  intros Hl Hp Hr Hd Hc.
  rewrite (slice_to_end 8 clli 15 Hl) in *.
  apply customer15_form; assumption.
Qed.

(** X20: what a true probe leaves open.  When [IsNonBuildingCLLI] or
    [IsCustomerCLLI] is true of an input, the input parses (under any
    configuration) exactly when its region code is recognized; when
    [IsEntityCLLI] is true of it, exactly when its region code is recognized
    and its last three characters pass [validateEntityCode]. *)
Theorem probe_then_parse clli opts :
  (IsEntityCLLI clli = true ->
   ((exists c, ParseWithOptions clli opts = Parsed c)
    <-> inSet (slice 4 6 clli) validRegions = true
        /\ validateEntityCode (slice 8 11 clli) = None))
  /\ (IsNonBuildingCLLI clli = true ->
      ((exists c, ParseWithOptions clli opts = Parsed c)
       <-> inSet (slice 4 6 clli) validRegions = true))
  /\ (IsCustomerCLLI clli = true ->
      ((exists c, ParseWithOptions clli opts = Parsed c)
       <-> inSet (slice 4 6 clli) validRegions = true)).
Proof.
  assert (Hregion : forall c,
            allBytes isAlnumByte clli = true -> length clli = 11 ->
            ParseWithOptions clli opts = Parsed c ->
            inSet (slice 4 6 clli) validRegions = true
            /\ c = populate clli (baseRecord clli)
            /\ (cliType c = CLLITypeEntity -> EntityCode c <> "" ->
                validateEntityCode (EntityCode c) = None)).
  { intros c Ha Hl H.
    apply ParseWithOptions_parsed in H as [_ H].
    rewrite (preprocess_alnum _ _ Ha) in H.
    apply parseInput_parsed in H as (_ & _ & _ & _ & Hr & Hpv).
    apply postValidate_parsed in Hpv as [Hc Hent].
    split; [apply validateRegion_none_recognized, Hr; lia|].
    split; [exact Hc|].
    intros Ht Hne; rewrite Hc in *; apply Hent; assumption. }
  split; [|split]; intros Hprobe; (split; [intros [c H] | intros Hr]).
  - apply IsEntityCLLI_true in Hprobe as (_ & Hl & H1 & H2 & H3 & H4).
    assert (Ha : allBytes isAlnumByte clli = true).
    { apply (eleven_alnum clli 2 3 Hl); try lia;
        auto using letters_alnum, digits_alnum.
      apply (allBytes_substring_zero _ clli 11). }
    destruct (Hregion c Ha Hl H) as (Hr & Hc & Hent); split; [exact Hr|].
    rewrite (populate_eleven _ _ Hl Ha), H3 in Hc.
    rewrite Hc in Hent; simpl in Hent; apply Hent; [reflexivity|].
    apply length_pos_nonempty; rewrite length_slice; lia.
  - destruct Hr as [Hr Hv].
    apply IsEntityCLLI_true in Hprobe as (_ & Hl & H1 & H2 & H3 & H4).
    eexists; apply entity_form; try assumption.
    rewrite <- (slice_to_end 8 clli 11 Hl); exact Hv.
  - apply IsNonBuildingCLLI_true in Hprobe as (_ & Hl & H1 & H2 & H3 & H4).
    assert (Ha : allBytes isAlnumByte clli = true).
    { apply (eleven_alnum clli 1 4 Hl); try lia;
        auto using letters_alnum, digits_alnum.
      apply (allBytes_substring_zero _ clli 11). }
    apply (Hregion c Ha Hl H).
  - apply IsNonBuildingCLLI_true in Hprobe as (_ & Hl & H1 & H2 & H3 & H4).
    eexists; apply nonbuilding_form; try assumption; try lia.
    rewrite <- (slice_to_end 7 clli 11 Hl); exact H4.
  - apply IsCustomerCLLI_true in Hprobe as (_ & Hl & H1 & H2 & H3 & H4 & H5).
    assert (Ha : allBytes isAlnumByte clli = true).
    { apply (eleven_alnum clli 1 1 Hl); try lia;
        auto using letters_alnum, digits_alnum.
      apply isDigit_digits in H3; revert H3.
      apply allBytes_impl, digit_alnum. }
    apply (Hregion c Ha Hl H).
  - apply IsCustomerCLLI_true in Hprobe as (_ & Hl & H1 & H2 & H3 & H4 & H5).
    eexists; apply customer_form; try assumption; try lia.
    rewrite <- (slice_to_end 8 clli 11 Hl); exact H5.
Qed.

(** ** Case and white space of ASCII inputs *)

Lemma upperByte_space : forall c, isSpaceByte (upperByte c) = isSpaceByte c.
Proof. by_bytes. Qed.

Lemma upperByte_idempotent : forall c, upperByte (upperByte c) = upperByte c.
Proof. by_bytes. Qed.

Lemma upperByte_ascii : forall c, isASCIIByte c = true -> isASCIIByte (upperByte c) = true.
Proof. by_bytes. Qed.

Lemma allBytes_mapBytes (p : ascii -> bool) (f : ascii -> ascii) :
  (forall c, p c = true -> p (f c) = true) ->
  forall s, allBytes p s = true -> allBytes p (mapBytes f s) = true.
Proof.
  intros Hf; induction s as [|c s IH]; simpl; [reflexivity|].
  intros H; apply andb_prop in H as [Hc Hs].
  rewrite (Hf _ Hc), (IH Hs); reflexivity.
Qed.

Lemma mapBytes_mapBytes_id (f : ascii -> ascii) :
  (forall c, f (f c) = f c) ->
  forall s, mapBytes f (mapBytes f s) = mapBytes f s.
Proof.
  intros Hf; induction s as [|c s IH]; simpl; [|rewrite Hf, IH]; reflexivity.
Qed.

Lemma trimLeftBytes_mapBytes (p : ascii -> bool) (f : ascii -> ascii) :
  (forall c, p (f c) = p c) ->
  forall s, trimLeftBytes p (mapBytes f s) = mapBytes f (trimLeftBytes p s).
Proof.
  intros Hf; induction s as [|c s IH]; simpl; [reflexivity|].
  rewrite Hf; destruct (p c); [exact IH | reflexivity].
Qed.

Lemma trimRightBytes_mapBytes (p : ascii -> bool) (f : ascii -> ascii) :
  (forall c, p (f c) = p c) ->
  forall s, trimRightBytes p (mapBytes f s) = mapBytes f (trimRightBytes p s).
Proof.
  intros Hf; induction s as [|c s IH]; simpl; [reflexivity|].
  rewrite IH, Hf.
  destruct (trimRightBytes p s); simpl; [destruct (p c)|]; reflexivity.
Qed.

Lemma allBytes_trimLeftBytes (q p : ascii -> bool) :
  forall s, allBytes q s = true -> allBytes q (trimLeftBytes p s) = true.
Proof.
  induction s as [|c s IH]; simpl; [reflexivity|].
  intros H; destruct (p c); [|exact H].
  apply andb_prop in H as [_ Hs]; auto.
Qed.

Lemma allBytes_trimRightBytes (q p : ascii -> bool) :
  forall s, allBytes q s = true -> allBytes q (trimRightBytes p s) = true.
Proof.
  induction s as [|c s IH]; simpl; [reflexivity|].
  intros H; apply andb_prop in H as [Hc Hs]; specialize (IH Hs).
  destruct (trimRightBytes p s).
  - destruct (p c); simpl; [reflexivity | rewrite Hc; reflexivity].
  - simpl in *; rewrite Hc; exact IH.
Qed.

Lemma mapBytes_empty (f : ascii -> ascii) s :
  (mapBytes f s =? "") = (s =? "").
Proof. destruct s; reflexivity. Qed.

(** On ASCII strings, trimming commutes with uppercasing. *)
Lemma TrimSpace_ToUpper s :
  allBytes isASCIIByte s = true ->
  TrimSpace (ToUpper s) = ToUpper (TrimSpace s)
  /\ ToUpper (ToUpper s) = ToUpper s
  /\ allBytes isASCIIByte (TrimSpace s) = true.
Proof.
  intros Ha.
  assert (Hu : allBytes isASCIIByte (mapBytes upperByte s) = true)
    by (apply allBytes_mapBytes; [apply upperByte_ascii | exact Ha]).
  assert (Ht : allBytes isASCIIByte
                 (trimRightBytes isSpaceByte (trimLeftBytes isSpaceByte s))
               = true).
  { apply allBytes_trimRightBytes, allBytes_trimLeftBytes; exact Ha. }
  unfold TrimSpace, ToUpper; rewrite Ha, Hu, Ht.
  repeat split.
  - rewrite trimLeftBytes_mapBytes, trimRightBytes_mapBytes
      by apply upperByte_space.
    reflexivity.
  - apply mapBytes_mapBytes_id, upperByte_idempotent.
Qed.

Lemma parseInput_same_result clli clli' strict input c :
  parseInput clli strict input = Parsed c <->
  parseInput clli' strict input = Parsed c.
Proof. split; apply parseInput_input_irrelevant. Qed.

(** X21: parsing is case-insensitive on ASCII input when [NormalizeCase] is
    set: an input parses to a record exactly when its upper-case form parses
    to that record. *)
Theorem parse_is_case_insensitive clli opts c :
  allBytes isASCIIByte clli = true ->
  NormalizeCase (orDefault opts) = true ->
  ParseWithOptions clli opts = Parsed c
  <-> ParseWithOptions (ToUpper clli) opts = Parsed c.
Proof.
  intros Ha Hn.
  destruct (TrimSpace_ToUpper _ Ha) as (Hcomm & Hidem & Hta).
  assert (Hpre : preprocess (orDefault opts) (ToUpper clli)
                 = preprocess (orDefault opts) clli).
  { unfold preprocess; rewrite Hn.
    destruct (TrimWhitespace (orDefault opts)); [|exact Hidem].
    rewrite Hcomm.
    destruct (TrimSpace_ToUpper _ Hta) as (_ & Hidem' & _); exact Hidem'. }
  assert (Hblank : (TrimSpace (ToUpper clli) =? "") = (TrimSpace clli =? "")).
  { rewrite Hcomm; unfold ToUpper; rewrite Hta; apply mapBytes_empty. }
  unfold ParseWithOptions; rewrite Hblank, Hpre.
  destruct (TrimSpace clli =? ""); [split; discriminate|].
  apply parseInput_same_result.
Qed.

Lemma trimLeftBytes_append_all (p : ascii -> bool) :
  forall l s, allBytes p l = true ->
    trimLeftBytes p (l ++ s) = trimLeftBytes p s.
Proof.
  induction l as [|c l IH]; intros s H; simpl; [reflexivity|].
  simpl in H; apply andb_prop in H as [Hc Hl]; rewrite Hc; auto.
Qed.

Lemma trim_append_right (p : ascii -> bool) :
  forall s r, allBytes p r = true ->
    trimRightBytes p (trimLeftBytes p (s ++ r))
    = trimRightBytes p (trimLeftBytes p s).
Proof.
  induction s as [|c s IH]; intros r Hr; simpl.
  - rewrite (trimLeftBytes_all _ _ Hr); reflexivity.
  - destruct (p c); [apply IH; exact Hr|].
    apply (trimRightBytes_append p (String c s)); exact Hr.
Qed.

(** X22: when [TrimWhitespace] is set, ASCII white space around an ASCII
    input is ignored: the padded input parses to a record exactly when the
    bare input parses to that record. *)
Theorem parse_ignores_surrounding_space l clli r opts c :
  allBytes isASCIIByte clli = true ->
  allBytes isSpaceByte l = true -> allBytes isSpaceByte r = true ->
  TrimWhitespace (orDefault opts) = true ->
  ParseWithOptions (l ++ clli ++ r) opts = Parsed c
  <-> ParseWithOptions clli opts = Parsed c.
Proof.
  intros Ha Hl Hr Ht.
  assert (Hall : allBytes isASCIIByte (l ++ clli ++ r) = true).
  { rewrite !allBytes_append, Ha.
    rewrite (allBytes_impl _ _ space_ascii _ Hl),
      (allBytes_impl _ _ space_ascii _ Hr); reflexivity. }
  assert (Htrim : TrimSpace (l ++ clli ++ r) = TrimSpace clli).
  { unfold TrimSpace; rewrite Hall, Ha.
    rewrite (trimLeftBytes_append_all _ _ _ Hl).
    apply trim_append_right; exact Hr. }
  unfold ParseWithOptions, preprocess; rewrite Ht, Htrim.
  destruct (TrimSpace clli =? ""); [split; discriminate|].
  apply parseInput_same_result.
Qed.

(** ** The package-level place validator *)

Lemma trimRightBytes_padding (p : ascii -> bool) (pad : ascii) :
  (forall c, p c = true -> c = pad) ->
  forall s, exists n, s = trimRightBytes p s ++ Repeat pad n.
Proof.
  intros Hp; induction s as [|c s [n IH]]; simpl; [exists 0; reflexivity|].
  destruct (trimRightBytes p s) as [|d t] eqn:E.
  - simpl in IH; destruct (p c) eqn:Ec.
    + apply Hp in Ec; subst c.
      exists (S n); simpl; rewrite <- IH; reflexivity.
    + exists n; simpl; rewrite <- IH; reflexivity.
  - exists n; simpl; simpl in IH; rewrite <- IH; reflexivity.
Qed.

Lemma trimRightBytes_decompose :
  forall s, exists n, s = TrimRightSpaces s ++ Repeat " " n.
Proof.
  apply trimRightBytes_padding.
  intros c H; apply Ascii.eqb_eq in H; auto.
Qed.

Lemma validatePlace_empty : validatePlace "" <> None.
Proof. discriminate. Qed.

(** X23: in strict mode [ValidatePlace] accepts exactly the strings made of
    four upper-case letters followed by any number of spaces (fewer than
    four letters are rejected).  In non-strict mode it accepts a string
    exactly when strict mode accepts its trimmed, uppercased form. *)
Theorem ValidatePlace_accepts place :
  (ValidatePlace place true = None
   <-> exists letters n,
         place = letters ++ Repeat " " n
         /\ length letters = 4 /\ allBytes isUpperByte letters = true)
  /\ (ValidatePlace place false = None
      <-> ValidatePlace (ToUpper (TrimSpace place)) true = None).
Proof.
  split.
  - unfold ValidatePlace; simpl negb; cbv iota.
    split.
    + destruct (place =? ""); [discriminate|].
      intros H; destruct (trimRightBytes_decompose place) as [n Hn].
      exists (TrimRightSpaces place), n.
      unfold validatePlace in H.
      destruct (place =? ""); [discriminate|].
      destruct (length (TrimRightSpaces place) =? 4)%nat eqn:Hl;
        [|discriminate].
      destruct (allBytes isUpperByte (TrimRightSpaces place)) eqn:Hu;
        [|discriminate].
      apply Nat.eqb_eq in Hl; auto.
    + intros (letters & n & -> & Hl & Hu).
      assert (Hne : (letters ++ Repeat " " n =? "") = false).
      { apply String.eqb_neq, length_pos_nonempty.
        rewrite length_append; lia. }
      rewrite Hne; unfold validatePlace; rewrite Hne.
      assert (Ht : TrimRightSpaces (letters ++ Repeat " " n) = letters).
      { unfold TrimRightSpaces; rewrite trimRightBytes_append
          by (apply allBytes_Repeat; reflexivity).
        apply TrimRightSpaces_alnum.
        revert Hu; apply allBytes_impl, upper_alnum. }
      rewrite Ht, Hl, Hu; reflexivity.
  - unfold ValidatePlace; simpl negb; cbv iota.
    destruct (place =? "") eqn:E.
    + apply String.eqb_eq in E; subst place.
      split; [discriminate|].
      destruct (ToUpper (TrimSpace "") =? ""); [discriminate|].
      intros H; exfalso; revert H.
      replace (ToUpper (TrimSpace "")) with "" by reflexivity.
      apply validatePlace_empty.
    + destruct (ToUpper (TrimSpace place) =? "") eqn:E'; [|tauto].
      apply String.eqb_eq in E'; rewrite E'.
      split; [intros H; exfalso; exact (validatePlace_empty H) | discriminate].
Qed.

(** ** The other package-level validators *)

Lemma TrimSpace_padded s n :
  allBytes isAlnumByte s = true -> TrimSpace (s ++ Repeat " " n) = s.
Proof.
  intros H.
  assert (Hr : allBytes isSpaceByte (Repeat " " n) = true)
    by (apply allBytes_Repeat; reflexivity).
  rewrite <- (TrimSpace_alnum s H) at 2.
  unfold TrimSpace.
  rewrite allBytes_append, (alnum_allASCII _ H),
    (allBytes_impl _ _ space_ascii _ Hr); simpl.
  apply trim_append_right; exact Hr.
Qed.

Lemma normal_form_fixed s :
  allBytes isAlnumByte s = true -> ToUpper (TrimSpace s) = s.
Proof. intros H; rewrite (TrimSpace_alnum _ H); apply ToUpper_alnum, H. Qed.

(** X24: [ValidateRegion] accepts, in strict mode, exactly the 64 recognized
    region codes (the length and letter checks add nothing to the table
    lookup, and padding is not tolerated), and in non-strict mode exactly
    the strings whose trimmed, uppercased form is a recognized code. *)
Theorem ValidateRegion_accepts region :
  (ValidateRegion region true = None <-> inSet region validRegions = true)
  /\ (ValidateRegion region false = None
      <-> inSet (ToUpper (TrimSpace region)) validRegions = true).
Proof.
  assert (Hiff : forall r, validateRegion r = None
                           <-> inSet r validRegions = true).
  { intros r; split;
      [apply validateRegion_none_recognized | apply validateRegion_recognized]. }
  unfold ValidateRegion; simpl negb; cbv iota.
  destruct (region =? "") eqn:E.
  - apply String.eqb_eq in E; subst region.
    replace (ToUpper (TrimSpace "")) with "" by reflexivity.
    split; (split; [discriminate | intros H; vm_compute in H; discriminate]).
  - split; apply Hiff.
Qed.

(** X25: [ValidateNetworkSite] does not look at its strict flag, and it
    accepts exactly the strings of two digits and the strings of two
    upper-case letters. *)
Theorem ValidateNetworkSite_accepts site strict :
  ValidateNetworkSite site strict = None
  <-> length site = 2 /\ (isDigitsOnly site = true \/ isAlpha site = true).
Proof.
  unfold ValidateNetworkSite.
  destruct (site =? "") eqn:E; [|apply validateNetworkSite_iff].
  apply String.eqb_eq in E; subst site.
  split; [discriminate | intros [H _]; discriminate].
Qed.

(** X26: non-strict mode only relaxes: whatever [ValidatePlace],
    [ValidateRegion] or [ValidateEntityCode] accepts in strict mode, it
    accepts in non-strict mode as well. *)
Theorem strict_acceptance_implies_relaxed s :
  (ValidatePlace s true = None -> ValidatePlace s false = None)
  /\ (ValidateRegion s true = None -> ValidateRegion s false = None)
  /\ (ValidateEntityCode s true = None -> ValidateEntityCode s false = None).
Proof.
  unfold ValidatePlace, ValidateRegion, ValidateEntityCode;
    simpl negb; cbv iota.
  destruct (s =? "") eqn:E; [repeat split; discriminate|].
  split; [|split].
  - intros H.
    destruct (trimRightBytes_decompose s) as [n Hn].
    unfold validatePlace in H; rewrite E in H.
    destruct (length (TrimRightSpaces s) =? 4)%nat eqn:Hl; [|discriminate].
    destruct (allBytes isUpperByte (TrimRightSpaces s)) eqn:Hu;
      [|discriminate].
    assert (Ha : allBytes isAlnumByte (TrimRightSpaces s) = true)
      by (revert Hu; apply allBytes_impl, upper_alnum).
    rewrite Hn at 1.
    rewrite (TrimSpace_padded _ n Ha), (ToUpper_alnum _ Ha).
    unfold validatePlace.
    rewrite (TrimRightSpaces_alnum _ Ha), Hl, Hu.
    destruct (TrimRightSpaces s =? "") eqn:E'; [|reflexivity].
    apply String.eqb_eq in E'; rewrite E' in Hl; discriminate.
  - intros H.
    rewrite normal_form_fixed; [exact H|].
    apply letters_alnum, validateRegion_none_letters, H.
  - intros H.
    rewrite normal_form_fixed; [exact H|].
    apply validateEntityCode_none_alnum, H.
Qed.

End Engine.

(** ** The claims at concrete inputs

    The inputs below are ASCII, so the results do not depend on the Unicode
    paths of [strings.ToUpper] and [strings.TrimSpace]: the statements hold
    for every choice of them, or are evaluated with [asciiOnly]. *)

(** C1, the claim as stated fails, in three ways.  [IsNonBuildingCLLI] and
    [IsCustomerCLLI] want exactly 11 characters: "LSANCA12" parses as
    NonBuilding and "MPLSMN1A2345" as Customer, and the probes are false on
    them.  The probes want input already in upper case: "mplsmnb1234"
    parses as NonBuilding and [IsNonBuildingCLLI] is false on it.  And
    [IsEntityCLLI] wants two digits before the entity code: "MPLSMNMSDS1",
    of 11 characters and unchanged by preprocessing, parses as an Entity
    whose network site is MS, and [IsEntityCLLI] is false on it.  The first
    two follow the comments and the case-sensitivity test of the probes; the
    third goes against the documentation of [IsEntityCLLI] (8-11
    characters) and the inputs its tests list as entities, so the amended
    statement makes no promise either way there. *)
Lemma probe_disagrees_with_parse :
  (forall U T, exists c,
      Parse U T "LSANCA12" = Parsed c /\ cliType c = CLLITypeNonBuilding)
  /\ (forall U, IsNonBuildingCLLI U "LSANCA12" = false)
  /\ (forall U T, exists c,
        Parse U T "MPLSMN1A2345" = Parsed c /\ cliType c = CLLITypeCustomer)
  /\ (forall U, IsCustomerCLLI U "MPLSMN1A2345" = false)
  /\ (forall U T, exists c,
        Parse U T "mplsmnb1234" = Parsed c /\ cliType c = CLLITypeNonBuilding)
  /\ (forall U, IsNonBuildingCLLI U "mplsmnb1234" = false)
  /\ (forall U T, exists c,
        Parse U T "MPLSMNMSDS1" = Parsed c /\ cliType c = CLLITypeEntity
        /\ Original c = "MPLSMNMSDS1" /\ NetworkSite c = "MS"
        /\ isDigitsOnly (NetworkSite c) = false)
  /\ (forall U, IsEntityCLLI U "MPLSMNMSDS1" = false).
Proof.
  repeat split; intros; try (vm_compute; reflexivity);
    eexists; repeat split; vm_compute; reflexivity.
Qed.

(** The agreement at "MPLSMNB1234": it parses as NonBuilding, unchanged by
    preprocessing, and [IsNonBuildingCLLI] holds of it. *)
Lemma probes_agree_with_parse_witness :
  Parse asciiOnly asciiOnly "MPLSMNB1234"
  = Parsed {| Original := "MPLSMNB1234"; Place := "MPLS"; Region := "MN";
              NetworkSite := ""; EntityCode := "";
              LocationCode := "B"; LocationID := "1234";
              CustomerCode := ""; CustomerID := "";
              cliType := CLLITypeNonBuilding; valid := true |}
  /\ IsNonBuildingCLLI asciiOnly "MPLSMNB1234" = true.
Proof.
  assert (H : Parse asciiOnly asciiOnly "MPLSMNB1234"
              = Parsed {| Original := "MPLSMNB1234"; Place := "MPLS";
                          Region := "MN"; NetworkSite := ""; EntityCode := "";
                          LocationCode := "B"; LocationID := "1234";
                          CustomerCode := ""; CustomerID := "";
                          cliType := CLLITypeNonBuilding; valid := true |})
    by (vm_compute; reflexivity).
  split; [exact H|].
  destruct (probes_agree_with_parse asciiOnly asciiOnly _ _ _ H) as [_ Hb].
  destruct (Hb eq_refl eq_refl) as (_ & Hn & _).
  exact (Hn eq_refl).
Defined.

(** C2, the claim as stated fails: in relaxed mode the 3-character
    alphanumeric code XYZ, which matches no table, is rejected. *)
Lemma relaxed_mode_rejects_unlisted_code :
  isValidEntityCode "XYZ" = true
  /\ (forall U T,
        ParseWithOptions U T "MPLSMN01XYZ"
          (Some {| Strict := false; StrictValidation := false;
                   NormalizeCase := true; TrimWhitespace := true |})
        = Failed {| Input := "MPLSMN01XYZ"; Position := 8;
                    Field := "entity_code"; Err := ErrInvalidEntity |}).
Proof. split; intros; vm_compute; reflexivity. Qed.

(** Both modes at "MPLSMN01XYZ", and the accepted code of "CHCGIL01DS0". *)
Lemma entity_code_checked_in_every_mode_witness :
  ParseWithOptions asciiOnly asciiOnly "MPLSMN01XYZ"
    (Some (mkParseOptions false false true true))
  = ParseWithOptions asciiOnly asciiOnly "MPLSMN01XYZ"
      (Some (mkParseOptions true false true true))
  /\ (length "DS0" = 3 /\ validateEntityCode "DS0" = None).
Proof.
  destruct (entity_code_checked_in_every_mode asciiOnly asciiOnly
              "MPLSMN01XYZ" false true true) as [H1 _].
  destruct (entity_code_checked_in_every_mode asciiOnly asciiOnly
              "CHCGIL01DS0" false true true) as [_ H2].
  split.
  - apply H1; vm_compute; repeat constructor.
  - apply (H2 None
             {| Original := "CHCGIL01DS0"; Place := "CHCG"; Region := "IL";
                NetworkSite := "01"; EntityCode := "DS0";
                LocationCode := ""; LocationID := "";
                CustomerCode := ""; CustomerID := "";
                cliType := CLLITypeEntity; valid := true |});
      [vm_compute; reflexivity | reflexivity | discriminate].
Defined.

(** C3, the claim as stated fails: [Parse] of "chcgil01ds0" succeeds and its
    [Original] is "CHCGIL01DS0", not the input. *)
Lemma original_is_not_the_raw_input :
  (forall U T, exists c,
      Parse U T "chcgil01ds0" = Parsed c /\ Original c = "CHCGIL01DS0")
  /\ "CHCGIL01DS0" <> "chcgil01ds0".
Proof.
  split; [|discriminate].
  intros; eexists; split; vm_compute; reflexivity.
Qed.

(** [Original] at " chcgil01ds0 ", trimmed and uppercased. *)
Lemma original_is_preprocessed_input_witness :
  Original {| Original := "CHCGIL01DS0"; Place := "CHCG"; Region := "IL";
              NetworkSite := "01"; EntityCode := "DS0";
              LocationCode := ""; LocationID := "";
              CustomerCode := ""; CustomerID := "";
              cliType := CLLITypeEntity; valid := true |}
  = preprocess asciiOnly asciiOnly defaultOptions " chcgil01ds0 ".
Proof.
  refine (proj1 (original_is_preprocessed_input asciiOnly asciiOnly
                   " chcgil01ds0 " (Some defaultOptions) _ _)).
  vm_compute; reflexivity.
Defined.

(** C4, the claim as stated fails: "LSANCA12" is a NonBuilding whose location
    code and location ID are empty and whose network site is populated, and
    "DLLSTX011234567" is a Customer whose customer code and customer ID are
    empty and whose network site and entity code are populated. *)
Lemma payload_is_not_always_the_shape_s_own :
  (forall U T,
      Parse U T "LSANCA12"
      = Parsed {| Original := "LSANCA12"; Place := "LSAN"; Region := "CA";
                  NetworkSite := "12"; EntityCode := "";
                  LocationCode := ""; LocationID := "";
                  CustomerCode := ""; CustomerID := "";
                  cliType := CLLITypeNonBuilding; valid := true |})
  /\ (forall U T,
        Parse U T "DLLSTX011234567"
        = Parsed {| Original := "DLLSTX011234567"; Place := "DLLS";
                    Region := "TX";
                    NetworkSite := "01"; EntityCode := "1234567";
                    LocationCode := ""; LocationID := "";
                    CustomerCode := ""; CustomerID := "";
                    cliType := CLLITypeCustomer; valid := true |}).
Proof. split; intros; vm_compute; reflexivity. Qed.

(** The payload of "LSANCA12", a NonBuilding without entity code. *)
Lemma payload_follows_type_witness :
  EntityCode {| Original := "LSANCA12"; Place := "LSAN"; Region := "CA";
                NetworkSite := "12"; EntityCode := "";
                LocationCode := ""; LocationID := "";
                CustomerCode := ""; CustomerID := "";
                cliType := CLLITypeNonBuilding; valid := true |} = "".
Proof.
  refine (proj1 (payload_follows_type asciiOnly asciiOnly "LSANCA12" None
                   {| Original := "LSANCA12"; Place := "LSAN"; Region := "CA";
                      NetworkSite := "12"; EntityCode := "";
                      LocationCode := ""; LocationID := "";
                      CustomerCode := ""; CustomerID := "";
                      cliType := CLLITypeNonBuilding; valid := true |} _)).
  vm_compute; reflexivity.
Defined.

(** C5, the claim as stated fails: 005 is two digits followed by a digit,
    and strict validation rejects it. *)
Lemma two_digits_and_a_digit_rejected :
  isDigitByte "0" = true /\ isAlnumByte "5" = true
  /\ (forall U T,
        ValidateEntityCode U T "005" true
        = Some (Errorf "invalid entity code pattern: %s")).
Proof. repeat split; intros; vm_compute; reflexivity. Qed.

(** The code 00A is accepted. *)
Lemma two_digit_entity_code_valid_iff_witness :
  ValidateEntityCode asciiOnly asciiOnly "00A" true = None.
Proof.
  apply (two_digit_entity_code_valid_iff asciiOnly asciiOnly "0" "0" "A");
    try reflexivity.
  simpl; tauto.
Defined.

(** "LSANCA12" under nil options. *)
Lemma eight_characters_with_digits_is_nonbuilding_witness :
  ParseWithOptions asciiOnly asciiOnly "LSANCA12" None
  = Parsed {| Original := "LSANCA12"; Place := "LSAN"; Region := "CA";
              NetworkSite := "12"; EntityCode := "";
              LocationCode := ""; LocationID := "";
              CustomerCode := ""; CustomerID := "";
              cliType := CLLITypeNonBuilding; valid := true |}.
Proof.
  apply (eight_characters_with_digits_is_nonbuilding asciiOnly asciiOnly
           "LSANCA12" None); reflexivity.
Defined.

(** "MPLSMN", 6 characters: a length violation in strict mode, none in
    relaxed mode. *)
Lemma length_violation_iff_witness :
  ParseWithOptions asciiOnly asciiOnly "MPLSMN" None
  = Failed (mkParseError "MPLSMN" 0 "length" ErrInvalidCLLI)
  /\ ParseWithOptions asciiOnly asciiOnly "MPLSMN"
       (Some (mkParseOptions false false true true))
     <> Failed (mkParseError "MPLSMN" 0 "length" ErrInvalidCLLI).
Proof.
  assert (Hnb : TrimSpace asciiOnly "MPLSMN" <> "") by discriminate.
  split.
  - apply (proj1 (length_violation_iff asciiOnly asciiOnly "MPLSMN" None Hnb)).
    left; split; [reflexivity | vm_compute; repeat constructor].
  - intros H.
    apply (proj1 (length_violation_iff asciiOnly asciiOnly "MPLSMN"
                    (Some (mkParseOptions false false true true)) Hnb)) in H.
    vm_compute in H.
    destruct H as [[H _]|[[_ H]|H]]; [discriminate | lia | lia].
Defined.

(** Three spaces, with trimming and case normalisation switched off. *)
Lemma blank_input_fails_with_empty_input_witness :
  ParseWithOptions asciiOnly asciiOnly "   "
    (Some {| Strict := false; StrictValidation := false;
             NormalizeCase := false; TrimWhitespace := false |})
  = Failed (mkParseError "   " 0 "input" ErrEmptyInput).
Proof.
  apply (blank_input_fails_with_empty_input asciiOnly asciiOnly).
  left; reflexivity.
Defined.

(** ** The further properties at concrete inputs *)

(** X1 at "MPLS@#$%": a character failure at offset 4. *)
Lemma failure_kinds_witness :
  Input (mkParseError "MPLS@#$%" 4 "characters" ErrInvalidCLLI) = "MPLS@#$%"
  /\ Field (mkParseError "MPLS@#$%" 4 "characters" ErrInvalidCLLI)
     <> "network_site".
Proof.
  destruct (failure_kinds asciiOnly asciiOnly "MPLS@#$%" None
              (mkParseError "MPLS@#$%" 4 "characters" ErrInvalidCLLI))
    as (H1 & H2 & _); [vm_compute; reflexivity|].
  split; [exact H1 | exact H2].
Defined.

(** X2 at "MPLS@#$%": the first offending offset is 4. *)
Lemma character_violation_iff_witness :
  ParseWithOptions asciiOnly asciiOnly "MPLS@#$%" None
  = Failed (mkParseError "MPLS@#$%" 4 "characters" ErrInvalidCLLI).
Proof.
  apply (proj2 (character_violation_iff asciiOnly asciiOnly "MPLS@#$%" None 4)).
  vm_compute; repeat split; try discriminate; repeat constructor.
Defined.

(** X3 at " chcgil01ds0 ": its [Original] parses to the same record. *)
Lemma reparse_original_witness :
  ParseWithOptions asciiOnly asciiOnly "CHCGIL01DS0" None
  = Parsed {| Original := "CHCGIL01DS0"; Place := "CHCG"; Region := "IL";
              NetworkSite := "01"; EntityCode := "DS0";
              LocationCode := ""; LocationID := "";
              CustomerCode := ""; CustomerID := "";
              cliType := CLLITypeEntity; valid := true |}.
Proof.
  apply (reparse_original asciiOnly asciiOnly " chcgil01ds0 " None
           {| Original := "CHCGIL01DS0"; Place := "CHCG"; Region := "IL";
              NetworkSite := "01"; EntityCode := "DS0";
              LocationCode := ""; LocationID := "";
              CustomerCode := ""; CustomerID := "";
              cliType := CLLITypeEntity; valid := true |}).
  vm_compute; reflexivity.
Defined.

(** X4 at "MPLSMNB1234". *)
Lemma parsed_place_is_four_letters_witness :
  CLLI_ValidatePlace
    {| Original := "MPLSMNB1234"; Place := "MPLS"; Region := "MN";
       NetworkSite := ""; EntityCode := "";
       LocationCode := "B"; LocationID := "1234";
       CustomerCode := ""; CustomerID := "";
       cliType := CLLITypeNonBuilding; valid := true |} = true.
Proof.
  refine (proj2 (proj2 (proj2
    (parsed_place_is_four_letters asciiOnly asciiOnly "MPLSMNB1234" None _ _)))).
  vm_compute; reflexivity.
Defined.

(** X5 at "MPLS" in relaxed mode: the placeholder region. *)
Lemma parsed_region_recognized_or_placeholder_witness :
  (6 <= 4 /\ "XX" = slice 4 6 "MPLS"
   /\ inSet "XX" validRegions = true
   /\ CLLI_ValidateRegion
        {| Original := "MPLS"; Place := "MPLS"; Region := "XX";
           NetworkSite := ""; EntityCode := "";
           LocationCode := ""; LocationID := "";
           CustomerCode := ""; CustomerID := "";
           cliType := CLLITypeNonBuilding; valid := true |} = true)
  \/ (false = false /\ 4 = 4 /\ "XX" = "XX"
      /\ CLLI_ValidateRegion
           {| Original := "MPLS"; Place := "MPLS"; Region := "XX";
              NetworkSite := ""; EntityCode := "";
              LocationCode := ""; LocationID := "";
              CustomerCode := ""; CustomerID := "";
              cliType := CLLITypeNonBuilding; valid := true |} = false
      /\ CLLITypeNonBuilding = CLLITypeNonBuilding).
Proof.
  refine (parsed_region_recognized_or_placeholder asciiOnly asciiOnly "MPLS"
            (Some (mkParseOptions false false true true))
            {| Original := "MPLS"; Place := "MPLS"; Region := "XX";
               NetworkSite := ""; EntityCode := "";
               LocationCode := ""; LocationID := "";
               CustomerCode := ""; CustomerID := "";
               cliType := CLLITypeNonBuilding; valid := true |} _).
  vm_compute; reflexivity.
Defined.

(** X6 at "DLLSTX011234567": a Customer of 15 characters. *)
Lemma parsed_length_by_type_witness : 11 <= 15 <= 15.
Proof.
  refine (parsed_length_by_type asciiOnly asciiOnly "DLLSTX011234567" None
            {| Original := "DLLSTX011234567"; Place := "DLLS"; Region := "TX";
               NetworkSite := "01"; EntityCode := "1234567";
               LocationCode := ""; LocationID := "";
               CustomerCode := ""; CustomerID := "";
               cliType := CLLITypeCustomer; valid := true |} _).
  vm_compute; reflexivity.
Defined.

(** X7 at "MPLSMN1A234". *)
Lemma components_rebuild_original_witness :
  "MPLS" ++ "MN" ++ "" ++ "" ++ "" ++ "" ++ "1" ++ "A234" = "MPLSMN1A234".
Proof.
  refine (proj2 (components_rebuild_original asciiOnly asciiOnly
                   "MPLSMN1A234" None
                   {| Original := "MPLSMN1A234"; Place := "MPLS";
                      Region := "MN"; NetworkSite := ""; EntityCode := "";
                      LocationCode := ""; LocationID := "";
                      CustomerCode := "1"; CustomerID := "A234";
                      cliType := CLLITypeCustomer; valid := true |} _) _).
  - vm_compute; reflexivity.
  - split; discriminate.
Defined.

(** X8 at "MPLSMNMS": an Entity without entity code fails its own check. *)
Lemma parsed_record_entity_code_check_witness :
  CLLI_ValidateEntityCode
    {| Original := "MPLSMNMS"; Place := "MPLS"; Region := "MN";
       NetworkSite := "MS"; EntityCode := "";
       LocationCode := ""; LocationID := "";
       CustomerCode := ""; CustomerID := "";
       cliType := CLLITypeEntity; valid := true |} = false.
Proof.
  refine (proj2 (parsed_record_entity_code_check asciiOnly asciiOnly
                   "MPLSMNMS" None _ _) _).
  - vm_compute; reflexivity.
  - split; reflexivity.
Defined.

(** X9 at "LSANCA12": a network site of two digits passes the check. *)
Lemma parsed_record_network_site_check_witness :
  CLLI_ValidateNetworkSite
    {| Original := "LSANCA12"; Place := "LSAN"; Region := "CA";
       NetworkSite := "12"; EntityCode := "";
       LocationCode := ""; LocationID := "";
       CustomerCode := ""; CustomerID := "";
       cliType := CLLITypeNonBuilding; valid := true |} = true.
Proof.
  refine (proj2 (parsed_record_network_site_check asciiOnly asciiOnly
                   "LSANCA12" None _ _) _).
  - vm_compute; reflexivity.
  - split; [discriminate | left; reflexivity].
Defined.

(** X10 at "DLLSTX011234567": a Customer that [determineCLLIType] calls an
    Entity. *)
Lemma determineCLLIType_on_parsed_record_witness :
  determineCLLIType
    {| Original := "DLLSTX011234567"; Place := "DLLS"; Region := "TX";
       NetworkSite := "01"; EntityCode := "1234567";
       LocationCode := ""; LocationID := "";
       CustomerCode := ""; CustomerID := "";
       cliType := CLLITypeCustomer; valid := true |} = CLLITypeEntity.
Proof.
  refine (proj1 (determineCLLIType_on_parsed_record asciiOnly asciiOnly
                   "DLLSTX011234567" None _ _) _ _).
  - vm_compute; reflexivity.
  - reflexivity.
  - discriminate.
Defined.

(** X12 at "TOROON01SW1": a Canadian record. *)
Lemma parsed_record_geography_witness :
  CLLI_StateCode
    {| Original := "TOROON01SW1"; Place := "TORO"; Region := "ON";
       NetworkSite := "01"; EntityCode := "SW1";
       LocationCode := ""; LocationID := "";
       CustomerCode := ""; CustomerID := "";
       cliType := CLLITypeEntity; valid := true |} = "ON".
Proof.
  refine (proj1 (proj2 (proj1 (parsed_record_geography asciiOnly asciiOnly
                                 "TOROON01SW1" None _ _) _))).
  - vm_compute; reflexivity.
  - vm_compute; repeat constructor.
Defined.

(** X14 at "CHCGIL01DS0": an entity type and no location type. *)
Lemma entity_type_or_location_type_witness :
  exists c,
    ParseWithOptions asciiOnly asciiOnly "CHCGIL01DS0" None = Parsed c
    /\ ((cliType c <> CLLITypeEntity
         /\ CLLI_EntityType c = "" /\ CLLI_LocationType c <> "")
        \/ (cliType c = CLLITypeEntity /\ EntityCode c <> ""
            /\ CLLI_EntityType c <> "" /\ CLLI_LocationType c = "")
        \/ (cliType c = CLLITypeEntity /\ EntityCode c = ""
            /\ CLLI_EntityType c = "" /\ CLLI_LocationType c = "")).
Proof.
  eexists; split; [vm_compute; reflexivity|].
  apply (entity_type_or_location_type asciiOnly asciiOnly "CHCGIL01DS0" None).
  vm_compute; reflexivity.
Defined.

(** X16 at "CHCGIL01DS0". *)
Lemma entity_input_parses_witness :
  ParseWithOptions asciiOnly asciiOnly "CHCGIL01DS0" None
  = Parsed {| Original := "CHCGIL01DS0"; Place := "CHCG"; Region := "IL";
              NetworkSite := "01"; EntityCode := "DS0";
              LocationCode := ""; LocationID := "";
              CustomerCode := ""; CustomerID := "";
              cliType := CLLITypeEntity; valid := true |}.
Proof.
  apply (entity_input_parses asciiOnly asciiOnly "CHCGIL01DS0" None);
    reflexivity.
Defined.

(** X17 at "MPLSMNB12345678": a location ID of 8 digits. *)
Lemma nonbuilding_input_parses_witness :
  ParseWithOptions asciiOnly asciiOnly "MPLSMNB12345678" None
  = Parsed {| Original := "MPLSMNB12345678"; Place := "MPLS"; Region := "MN";
              NetworkSite := ""; EntityCode := "";
              LocationCode := "B"; LocationID := "12345678";
              CustomerCode := ""; CustomerID := "";
              cliType := CLLITypeNonBuilding; valid := true |}.
Proof.
  apply (nonbuilding_input_parses asciiOnly asciiOnly "MPLSMNB12345678" None);
    try reflexivity; vm_compute; repeat constructor.
Defined.

(** X18 at "MPLSMN1A234". *)
Lemma customer_input_parses_witness :
  ParseWithOptions asciiOnly asciiOnly "MPLSMN1A234" None
  = Parsed {| Original := "MPLSMN1A234"; Place := "MPLS"; Region := "MN";
              NetworkSite := ""; EntityCode := "";
              LocationCode := ""; LocationID := "";
              CustomerCode := "1"; CustomerID := "A234";
              cliType := CLLITypeCustomer; valid := true |}.
Proof.
  apply (customer_input_parses asciiOnly asciiOnly "MPLSMN1A234" None);
    try reflexivity; vm_compute; repeat constructor.
Defined.

(** X19 at "DLLSTX011234567". *)
Lemma customer15_input_parses_witness :
  ParseWithOptions asciiOnly asciiOnly "DLLSTX011234567" None
  = Parsed {| Original := "DLLSTX011234567"; Place := "DLLS"; Region := "TX";
              NetworkSite := "01"; EntityCode := "1234567";
              LocationCode := ""; LocationID := "";
              CustomerCode := ""; CustomerID := "";
              cliType := CLLITypeCustomer; valid := true |}.
Proof.
  apply (customer15_input_parses asciiOnly asciiOnly "DLLSTX011234567" None);
    reflexivity.
Defined.

(** X20 at "MPLSMNB1234" and at "MPLSZZB1234", whose region is unknown. *)
Lemma probe_then_parse_witness :
  (exists c, ParseWithOptions asciiOnly asciiOnly "MPLSMNB1234" None = Parsed c)
  /\ inSet (slice 4 6 "MPLSZZB1234") validRegions = false.
Proof.
  split.
  - apply (proj1 (proj2 (probe_then_parse asciiOnly asciiOnly
                           "MPLSMNB1234" None))); reflexivity.
  - reflexivity.
Defined.

(** X21 at "mplsmnb1234". *)
Lemma parse_is_case_insensitive_witness :
  ParseWithOptions asciiOnly asciiOnly "mplsmnb1234" None
  = Parsed {| Original := "MPLSMNB1234"; Place := "MPLS"; Region := "MN";
              NetworkSite := ""; EntityCode := "";
              LocationCode := "B"; LocationID := "1234";
              CustomerCode := ""; CustomerID := "";
              cliType := CLLITypeNonBuilding; valid := true |}.
Proof.
  apply (proj2 (parse_is_case_insensitive asciiOnly asciiOnly
                  "mplsmnb1234" None _ eq_refl eq_refl)).
  vm_compute; reflexivity.
Defined.

(** X22 at "CHCGIL01DS0" between a tab and two spaces. *)
Lemma parse_ignores_surrounding_space_witness :
  ParseWithOptions asciiOnly asciiOnly
    (String "009" "" ++ "CHCGIL01DS0" ++ "  ") None
  = Parsed {| Original := "CHCGIL01DS0"; Place := "CHCG"; Region := "IL";
              NetworkSite := "01"; EntityCode := "DS0";
              LocationCode := ""; LocationID := "";
              CustomerCode := ""; CustomerID := "";
              cliType := CLLITypeEntity; valid := true |}.
Proof.
  apply (proj2 (parse_ignores_surrounding_space asciiOnly asciiOnly
                  (String "009" "") "CHCGIL01DS0" "  " None _
                  eq_refl eq_refl eq_refl eq_refl)).
  vm_compute; reflexivity.
Defined.

(** X13 at CHCG under IL: a named city, so a recognized region. *)
Lemma city_lookup_padding_and_regions_witness : validateRegion "IL" = None.
Proof.
  apply (proj2 (city_lookup_padding_and_regions "CHCG" "IL")).
  vm_compute; discriminate.
Defined.

(** X15 at the prefix DS and the byte 0. *)
Lemma table_b_prefix_codes_accepted_witness :
  validateEntityCode ("DS" ++ String "0" "") = None.
Proof.
  apply (proj1 table_b_prefix_codes_accepted).
  - vm_compute; tauto.
  - reflexivity.
Defined.

(** X26 at "MPLS  ": accepted in strict mode, and so in non-strict mode. *)
Lemma strict_acceptance_implies_relaxed_witness :
  ValidatePlace asciiOnly asciiOnly "MPLS  " false = None.
Proof.
  apply (proj1 (strict_acceptance_implies_relaxed asciiOnly asciiOnly "MPLS  ")).
  reflexivity.
Defined.
